(** * SGBU: loans, returns and reports of a small library system

    A shallow embedding of the four Python modules of the repository
    (usuarios.py, catalogo.py, emprestimo.py, relatorios.py) together with
    the exception classes of execoes.py, followed by the statements about
    the loan workflow and the reports.

    Conventions of the embedding.
    - A Python [dict] keeps its keys in insertion order, so it is an
      association list: [d[k] = v] replaces the value in place when [k] is
      present and appends otherwise, [values()] follows the list.
    - A method that may raise and may have mutated its object before raising
      is a function from the state to a result together with the state at
      the moment the call ends, normally or not.
    - An object stored in a dict and mutated through a reference
      ([livro.estoque -= 1], [emprestimo.status = ...]) is written back
      under its key: the dict holds the very object the method mutates.
    - Python [int] is [Z]; the loan counter, which starts at 0 and is only
      ever incremented, is [nat].
    - A naive [datetime] is its number of microseconds since
      0001-01-01T00:00:00; [datetime.now()] is an input of the operation
      that calls it.
    - A Python [str] is the byte string of its UTF-8 encoding: equality
      of strings is equality of the encodings, and [len] counts the
      characters, not the bytes.
    - An exception is represented by its class; the message text is not
      kept. *)

From Stdlib Require Import ZArith List String Ascii Bool Arith Lia.
From Stdlib Require Import Decimal DecimalString DecimalNat.
From Stdlib Require Import Sorting.Sorted Sorting.Permutation.
Import ListNotations.

Local Open Scope string_scope.
Local Open Scope list_scope.
Local Open Scope Z_scope.

(** ** execoes.py *)

Inductive Excecao : Type :=
| UsuarioNaoEncontradoException
| UsuarioBloqueadoException
| LivroNaoEncontradoException
| LivroIndisponvelException
| EstoqueInsuficienteException
| EmprestimoJaExisteException
| EmprestimoNaoEncontradoException
| ValidacaoException
| UsuarioPossuiEmprestimosAtivosException
| OverflowError.

Definition Excecao_eqb (a b : Excecao) : bool :=
  match a, b with
  | UsuarioNaoEncontradoException, UsuarioNaoEncontradoException
  | UsuarioBloqueadoException, UsuarioBloqueadoException
  | LivroNaoEncontradoException, LivroNaoEncontradoException
  | LivroIndisponvelException, LivroIndisponvelException
  | EstoqueInsuficienteException, EstoqueInsuficienteException
  | EmprestimoJaExisteException, EmprestimoJaExisteException
  | EmprestimoNaoEncontradoException, EmprestimoNaoEncontradoException
  | ValidacaoException, ValidacaoException
  | UsuarioPossuiEmprestimosAtivosException,
    UsuarioPossuiEmprestimosAtivosException
  | OverflowError, OverflowError => true
  | _, _ => false
  end.

(** ** Calls that may raise after mutating *)

Definition Resultado (A : Type) : Type := (Excecao + A)%type.

Definition Met (St A : Type) : Type := St -> Resultado A * St.

Definition ret {St A : Type} (a : A) : Met St A := fun s => (inr a, s).

Definition levantar {St A : Type} (e : Excecao) : Met St A :=
  fun s => (inl e, s).

Definition bind {St A B : Type} (m : Met St A) (f : A -> Met St B) : Met St B :=
  fun s =>
    match m s with
    | (inr a, s') => f a s'
    | (inl e, s') => (inl e, s')
    end.

(** [try: m except cls: h] *)
Definition tentar {St A : Type} (m : Met St A) (cls : Excecao) (h : Met St A)
  : Met St A :=
  fun s =>
    match m s with
    | (inl e, s') => if Excecao_eqb e cls then h s' else (inl e, s')
    | r => r
    end.

(** [try: m except: h], the bare [except] that catches everything *)
Definition tentar_tudo {St A : Type} (m : Met St A) (h : Met St A) : Met St A :=
  fun s =>
    match m s with
    | (inl _, s') => h s'
    | r => r
    end.

Definition ler {St : Type} : Met St St := fun s => (inr s, s).
Definition escrever {St : Type} (s' : St) : Met St unit := fun _ => (inr tt, s').

Declare Scope met_scope.
Delimit Scope met_scope with met.
Notation "x <- m ;; k" := (bind m (fun x => k))
  (at level 100, m at next level, right associativity) : met_scope.
Notation "m ;;; k" := (bind m (fun _ => k))
  (at level 100, right associativity) : met_scope.

(** ** Python dict, in insertion order *)

Module Dict.
Section Operacoes.
Context {V : Type}.

Definition t : Type := list (string * V).

Definition vazio : t := [].

  (** [d.get(k)] / [d[k]] *)
Fixpoint get (d : t) (k : string) : option V :=
    match d with
    | [] => None
    | (k', v) :: r => if String.eqb k' k then Some v else get r k
    end.

  (** [k in d] *)
Definition contem (d : t) (k : string) : bool :=
    match get d k with Some _ => true | None => false end.

  (** [d[k] = v] *)
Fixpoint set (d : t) (k : string) (v : V) : t :=
    match d with
    | [] => [(k, v)]
    | (k', v') :: r =>
        if String.eqb k' k then (k', v) :: r else (k', v') :: set r k v
    end.

  (** [del d[k]] *)
Fixpoint del (d : t) (k : string) : t :=
    match d with
    | [] => []
    | (k', v') :: r => if String.eqb k' k then r else (k', v') :: del r k
    end.

Definition keys (d : t) : list string := map fst d.
Definition values (d : t) : list V := map snd d.
Definition items (d : t) : list (string * V) := d.
End Operacoes.
Arguments t : clear implicits.
End Dict.

(** ** datetime and timedelta *)

Definition datetime : Type := Z.
Definition timedelta : Type := Z.

Definition US_POR_DIA : Z := 86400000000.

(** [date.max.toordinal()]: the last representable day is 9999-12-31. *)
Definition MAXORDINAL : Z := 3652059.

(** [timedelta(days=d)] raises OverflowError beyond 999999999 days. *)
Definition timedelta_dias {St : Type} (d : Z) : Met St timedelta :=
  if Z.abs d <=? 999999999 then ret (d * US_POR_DIA)
  else levantar OverflowError.

(** [t + delta] raises OverflowError when the date leaves years 1..9999. *)
Definition datetime_mais {St : Type} (t : datetime) (delta : timedelta)
  : Met St datetime :=
  let r := t + delta in
  if (0 <=? r) && (r <? MAXORDINAL * US_POR_DIA) then ret r
  else levantar OverflowError.

(** [(a - b).days]: a timedelta is normalised with 0 <= seconds < 86400 and
    0 <= microseconds < 10^6, so its [days] is the floor of the quotient. *)
Definition dias_entre (a b : datetime) : Z := (a - b) / US_POR_DIA.

(** ** usuarios.py *)

Inductive TipoUsuario : Type := ALUNO | FUNCIONARIO | PROFESSOR.

Inductive StatusUsuario : Type := U_ATIVO | BLOQUEADO | INATIVO.

Definition StatusUsuario_eqb (a b : StatusUsuario) : bool :=
  match a, b with
  | U_ATIVO, U_ATIVO | BLOQUEADO, BLOQUEADO | INATIVO, INATIVO => true
  | _, _ => false
  end.

Record Usuario : Type := mkUsuario {
  matricula : string;
  nome : string;
  tipo : TipoUsuario;
  u_status : StatusUsuario;
  email : option string;
  telefone : option string;
  emprestimos_ativos : Z
}.

Definition com_u_status (u : Usuario) (st : StatusUsuario) : Usuario :=
  mkUsuario (matricula u) (nome u) (tipo u) st (email u) (telefone u)
            (emprestimos_ativos u).

Definition com_emprestimos_ativos (u : Usuario) (n : Z) : Usuario :=
  mkUsuario (matricula u) (nome u) (tipo u) (u_status u) (email u)
            (telefone u) n.

Definition vazia (s : string) : bool :=
  match s with EmptyString => true | _ => false end.

(** A byte of the form 10xxxxxx: in UTF-8 it continues a character that an
    earlier byte started. *)
Definition continuacao (a : ascii) : bool :=
  match a with
  | Ascii _ _ _ _ _ _ b6 b7 => b7 && negb b6
  end.

(** [len(s)], the number of characters of a [str]: the bytes of its UTF-8
    encoding that start a character. *)
Fixpoint len (s : string) : nat :=
  match s with
  | EmptyString => O
  | String a r => if continuacao a then len r else S (len r)
  end.

Definition com_nome (u : Usuario) (n : string) : Usuario :=
  mkUsuario (matricula u) n (tipo u) (u_status u) (email u) (telefone u)
            (emprestimos_ativos u).

Definition com_tipo (u : Usuario) (tp : TipoUsuario) : Usuario :=
  mkUsuario (matricula u) (nome u) tp (u_status u) (email u) (telefone u)
            (emprestimos_ativos u).

Definition com_email (u : Usuario) (em : string) : Usuario :=
  mkUsuario (matricula u) (nome u) (tipo u) (u_status u) (Some em)
            (telefone u) (emprestimos_ativos u).

Definition com_telefone (u : Usuario) (tel : string) : Usuario :=
  mkUsuario (matricula u) (nome u) (tipo u) (u_status u) (email u)
            (Some tel) (emprestimos_ativos u).

(** [TipoUsuario.value] and [StatusUsuario.value], the labels; the text is
    kept as the bytes of its UTF-8 encoding. *)
Definition TipoUsuario_value (tp : TipoUsuario) : string :=
  match tp with
  | ALUNO => "Aluno"
  | FUNCIONARIO => "Funcionário"
  | PROFESSOR => "Professor"
  end.

Definition StatusUsuario_value (st : StatusUsuario) : string :=
  match st with
  | U_ATIVO => "Ativo"
  | BLOQUEADO => "Bloqueado"
  | INATIVO => "Inativo"
  end.

(** [TipoUsuario[name]]: the member of that name, if there is one. *)
Definition TipoUsuario_por_nome (name : string) : option TipoUsuario :=
  if String.eqb name "ALUNO" then Some ALUNO
  else if String.eqb name "FUNCIONARIO" then Some FUNCIONARIO
  else if String.eqb name "PROFESSOR" then Some PROFESSOR
  else None.

Module ModuloUsuarios.

  (** [self._usuarios] *)
Definition Estado : Type := Dict.t Usuario.

Definition init : Estado := Dict.vazio.

(** [Usuario.__post_init__] *)
Definition validar (u : Usuario) : Met Estado unit :=
    if vazia (matricula u) then levantar ValidacaoException
    else if vazia (nome u) then levantar ValidacaoException
    else if (len (nome u) <? 3)%nat then
      levantar ValidacaoException
    else if (100 <? len (nome u))%nat then
      levantar ValidacaoException
    else ret tt.

  (** [cadastrar_usuario], on the branch where [tipo] is already a member
      of the enumeration (the source also accepts its name as a string). *)
Definition cadastrar_usuario (m n : string) (tp : TipoUsuario)
      (em tel : option string) : Met Estado Usuario :=
    (us <- ler ;;
     if Dict.contem us m then levantar ValidacaoException
     else
       let u := mkUsuario m n tp U_ATIVO em tel 0 in
       validar u ;;;
       escrever (Dict.set us m u) ;;;
       ret u)%met.

Definition obter_usuario (m : string) : Met Estado Usuario :=
    (us <- ler ;;
     match Dict.get us m with
     | None => levantar UsuarioNaoEncontradoException
     | Some u => ret u
     end)%met.

Definition listar_usuarios (us : Estado) : list Usuario := Dict.values us.

Definition remover_usuario (m : string) : Met Estado bool :=
    (u <- obter_usuario m ;;
     if 0 <? emprestimos_ativos u then
       levantar UsuarioPossuiEmprestimosAtivosException
     else
       us <- ler ;;
       escrever (Dict.del us m) ;;;
       ret true)%met.

  (** Mutating the object returned by [obter_usuario] mutates the entry
      stored under [m]. *)
Definition bloquear_usuario (m : string) : Met Estado Usuario :=
    (u <- obter_usuario m ;;
     us <- ler ;;
     let u' := com_u_status u BLOQUEADO in
     escrever (Dict.set us m u') ;;;
     ret u')%met.

Definition desbloquear_usuario (m : string) : Met Estado Usuario :=
    (u <- obter_usuario m ;;
     us <- ler ;;
     let u' := com_u_status u U_ATIVO in
     escrever (Dict.set us m u') ;;;
     ret u')%met.

Definition incrementar_emprestimos (m : string) : Met Estado unit :=
    (u <- obter_usuario m ;;
     us <- ler ;;
     escrever
       (Dict.set us m (com_emprestimos_ativos u (emprestimos_ativos u + 1))))%met.

Definition decrementar_emprestimos (m : string) : Met Estado unit :=
    (u <- obter_usuario m ;;
     if 0 <? emprestimos_ativos u then
       us <- ler ;;
       escrever
         (Dict.set us m
            (com_emprestimos_ativos u (emprestimos_ativos u - 1)))
     else ret tt)%met.

(** One optional argument of [editar_usuario]: when it is given, the field
    of the stored object is assigned. *)
Definition atribuir (m : string) (u : Usuario) {A : Type} (arg : option A)
    (com : Usuario -> A -> Usuario) : Met Estado Usuario :=
  match arg with
  | None => ret u
  | Some a =>
      (us <- ler ;;
       escrever (Dict.set us m (com u a)) ;;;
       ret (com u a))%met
  end.

(** [editar_usuario], on the branch where [tipo], when given, is already a
    member of the enumeration (the source also accepts its name as a
    string, the one conversion that can fail after [nome] was assigned). *)
Definition editar_usuario (m : string) (n : option string)
    (tp : option TipoUsuario) (em tel : option string) : Met Estado Usuario :=
  (u <- obter_usuario m ;;
   u <- match n with
        | None => ret u
        | Some n' =>
            if (len n' <? 3)%nat then levantar ValidacaoException
            else atribuir m u (Some n') com_nome
        end ;;
   u <- atribuir m u tp com_tipo ;;
   u <- atribuir m u em com_email ;;
   atribuir m u tel com_telefone)%met.

Section TipoComoTexto.

(** [str.upper]; nothing is assumed about it. *)
Variable upper : string -> string.

(** [TipoUsuario[tipo.upper()] if isinstance(tipo, str) else tipo], with
    the KeyError of an unknown name turned into ValidacaoException; the
    argument is a string or a member of the enumeration. *)
Definition converter_tipo (tp : string + TipoUsuario)
  : Met Estado TipoUsuario :=
  match tp with
  | inl texto =>
      match TipoUsuario_por_nome (upper texto) with
      | Some t => ret t
      | None => levantar ValidacaoException
      end
  | inr t => ret t
  end.

(** [cadastrar_usuario] with [tipo] as the source takes it. *)
Definition cadastrar_usuario_de (m n : string) (tp : string + TipoUsuario)
    (em tel : option string) : Met Estado Usuario :=
  (us <- ler ;;
   if Dict.contem us m then levantar ValidacaoException
   else
     tipo_enum <- converter_tipo tp ;;
     let u := mkUsuario m n tipo_enum U_ATIVO em tel 0 in
     validar u ;;;
     escrever (Dict.set us m u) ;;;
     ret u)%met.

(** [editar_usuario] with [tipo] as the source takes it: the conversion
    comes after the assignment of [nome]. *)
Definition editar_usuario_de (m : string) (n : option string)
    (tp : option (string + TipoUsuario)) (em tel : option string)
  : Met Estado Usuario :=
  (u <- obter_usuario m ;;
   u <- match n with
        | None => ret u
        | Some n' =>
            if (len n' <? 3)%nat then levantar ValidacaoException
            else atribuir m u (Some n') com_nome
        end ;;
   u <- match tp with
        | None => ret u
        | Some t =>
            tipo_enum <- converter_tipo t ;;
            atribuir m u (Some tipo_enum) com_tipo
        end ;;
   u <- atribuir m u em com_email ;;
   atribuir m u tel com_telefone)%met.

End TipoComoTexto.

End ModuloUsuarios.

(** ** catalogo.py *)

Inductive StatusLivro : Type := DISPONIVEL | EMPRESTADO | RESERVADO.

Record Livro : Type := mkLivro {
  isbn : string;
  titulo : string;
  autor : string;
  estoque : Z;
  l_status : StatusLivro;
  editora : option string;
  ano_publicacao : option Z
}.

Definition com_estoque (l : Livro) (n : Z) : Livro :=
  mkLivro (isbn l) (titulo l) (autor l) n (l_status l) (editora l)
          (ano_publicacao l).

Definition com_titulo (l : Livro) (t : string) : Livro :=
  mkLivro (isbn l) t (autor l) (estoque l) (l_status l) (editora l)
          (ano_publicacao l).

Definition com_autor (l : Livro) (a : string) : Livro :=
  mkLivro (isbn l) (titulo l) a (estoque l) (l_status l) (editora l)
          (ano_publicacao l).

Definition com_editora (l : Livro) (ed : string) : Livro :=
  mkLivro (isbn l) (titulo l) (autor l) (estoque l) (l_status l) (Some ed)
          (ano_publicacao l).

Definition com_ano_publicacao (l : Livro) (ano : Z) : Livro :=
  mkLivro (isbn l) (titulo l) (autor l) (estoque l) (l_status l) (editora l)
          (Some ano).

Definition com_l_status (l : Livro) (st : StatusLivro) : Livro :=
  mkLivro (isbn l) (titulo l) (autor l) (estoque l) st (editora l)
          (ano_publicacao l).

(** [StatusLivro[name]] *)
Definition StatusLivro_por_nome (name : string) : option StatusLivro :=
  if String.eqb name "DISPONIVEL" then Some DISPONIVEL
  else if String.eqb name "EMPRESTADO" then Some EMPRESTADO
  else if String.eqb name "RESERVADO" then Some RESERVADO
  else None.

Module ModuloCatalogo.

  (** [self._livros] *)
Definition Estado : Type := Dict.t Livro.

Definition init : Estado := Dict.vazio.

  (** [Livro.__post_init__] *)
Definition validar (l : Livro) : Met Estado unit :=
    if vazia (isbn l) then levantar ValidacaoException
    else if vazia (titulo l) then levantar ValidacaoException
    else if vazia (autor l) then levantar ValidacaoException
    else if estoque l <? 0 then levantar ValidacaoException
    else ret tt.

Definition cadastrar_livro (i t a : string) (e : Z)
      (ed : option string) (ano : option Z) : Met Estado Livro :=
    (ls <- ler ;;
     if Dict.contem ls i then levantar ValidacaoException
     else
       let l := mkLivro i t a e DISPONIVEL ed ano in
       validar l ;;;
       escrever (Dict.set ls i l) ;;;
       ret l)%met.

Definition obter_livro (i : string) : Met Estado Livro :=
    (ls <- ler ;;
     match Dict.get ls i with
     | None => levantar LivroNaoEncontradoException
     | Some l => ret l
     end)%met.

Definition listar_livros (ls : Estado) : list Livro := Dict.values ls.

Definition remover_livro (i : string) : Met Estado bool :=
    (_ <- obter_livro i ;;
     ls <- ler ;;
     escrever (Dict.del ls i) ;;;
     ret true)%met.

Definition verificar_disponibilidade (i : string) : Met Estado bool :=
    (l <- obter_livro i ;;
     ret (0 <? estoque l))%met.

Definition decrementar_estoque (i : string) : Met Estado Z :=
    (l <- obter_livro i ;;
     if estoque l <=? 0 then levantar EstoqueInsuficienteException
     else
       ls <- ler ;;
       escrever (Dict.set ls i (com_estoque l (estoque l - 1))) ;;;
       ret (estoque l - 1))%met.

Definition incrementar_estoque (i : string) : Met Estado Z :=
    (l <- obter_livro i ;;
     ls <- ler ;;
     escrever (Dict.set ls i (com_estoque l (estoque l + 1))) ;;;
     ret (estoque l + 1))%met.

(** One optional argument of [editar_livro]. *)
Definition atribuir (i : string) (l : Livro) {A : Type} (arg : option A)
    (com : Livro -> A -> Livro) : Met Estado Livro :=
  match arg with
  | None => ret l
  | Some a =>
      (ls <- ler ;;
       escrever (Dict.set ls i (com l a)) ;;;
       ret (com l a))%met
  end.

(** [editar_livro]: the new values are assigned as they come, the checks
    of [Livro._validar] are not run again. *)
Definition editar_livro (i : string) (t a ed : option string)
    (ano : option Z) : Met Estado Livro :=
  (l <- obter_livro i ;;
   l <- atribuir i l t com_titulo ;;
   l <- atribuir i l a com_autor ;;
   l <- atribuir i l ed com_editora ;;
   atribuir i l ano com_ano_publicacao)%met.

(** [atualizar_status], on the branch where [novo_status] is already a
    member of the enumeration (the source also accepts its name as a
    string). *)
Definition atualizar_status (i : string) (novo_status : StatusLivro)
  : Met Estado Livro :=
  (l <- obter_livro i ;;
   ls <- ler ;;
   escrever (Dict.set ls i (com_l_status l novo_status)) ;;;
   ret (com_l_status l novo_status))%met.

Section StatusComoTexto.

(** [str.upper]; nothing is assumed about it. *)
Variable upper : string -> string.

(** [atualizar_status] with [novo_status] as the source takes it: the name
    of a member, in any case, or a member. *)
Definition atualizar_status_de (i : string) (novo_status : string + StatusLivro)
  : Met Estado Livro :=
  (l <- obter_livro i ;;
   status_enum <-
     match novo_status with
     | inl texto =>
         match StatusLivro_por_nome (upper texto) with
         | Some st => ret st
         | None => levantar ValidacaoException
         end
     | inr st => ret st
     end ;;
   ls <- ler ;;
   escrever (Dict.set ls i (com_l_status l status_enum)) ;;;
   ret (com_l_status l status_enum))%met.

End StatusComoTexto.

End ModuloCatalogo.

(** ** emprestimo.py *)

(** [StatusUsuario.ATIVO] is [U_ATIVO] above; [ATIVO] is the loan's. *)
Inductive StatusEmprestimo : Type := ATIVO | DEVOLVIDO | ATRASADO.

Definition StatusEmprestimo_eqb (a b : StatusEmprestimo) : bool :=
  match a, b with
  | ATIVO, ATIVO | DEVOLVIDO, DEVOLVIDO | ATRASADO, ATRASADO => true
  | _, _ => false
  end.

Record Emprestimo : Type := mkEmprestimo {
  id_emprestimo : string;
  matricula_usuario : string;
  isbn_livro : string;
  data_emprestimo : datetime;
  data_devolucao_prevista : datetime;
  data_devolucao_real : option datetime;
  status : StatusEmprestimo
}.

(** The two assignments of [registrar_devolucao] on the loan object. *)
Definition devolvido_em (e : Emprestimo) (agora : datetime) : Emprestimo :=
  mkEmprestimo (id_emprestimo e) (matricula_usuario e) (isbn_livro e)
               (data_emprestimo e) (data_devolucao_prevista e)
               (Some agora) DEVOLVIDO.

(** The coordinator with the two registries it holds references to. *)
Record Sistema : Type := mkSistema {
  modulo_usuarios : ModuloUsuarios.Estado;
  modulo_catalogo : ModuloCatalogo.Estado;
  emprestimos : Dict.t Emprestimo;
  contador_emprestimos : nat
}.

(** A call on [self._modulo_usuarios] *)
Definition nos_usuarios {A : Type} (m : Met ModuloUsuarios.Estado A)
  : Met Sistema A :=
  fun s =>
    let (r, us) := m (modulo_usuarios s) in
    (r, mkSistema us (modulo_catalogo s) (emprestimos s)
                  (contador_emprestimos s)).

(** A call on [self._modulo_catalogo] *)
Definition no_catalogo {A : Type} (m : Met ModuloCatalogo.Estado A)
  : Met Sistema A :=
  fun s =>
    let (r, ls) := m (modulo_catalogo s) in
    (r, mkSistema (modulo_usuarios s) ls (emprestimos s)
                  (contador_emprestimos s)).

Definition com_emprestimos (s : Sistema) (d : Dict.t Emprestimo) : Sistema :=
  mkSistema (modulo_usuarios s) (modulo_catalogo s) d
            (contador_emprestimos s).

Definition com_contador (s : Sistema) (n : nat) : Sistema :=
  mkSistema (modulo_usuarios s) (modulo_catalogo s) (emprestimos s) n.

(** The decimal digits of a non-negative [int]. *)
Definition decimal (n : nat) : string :=
  NilEmpty.string_of_uint (Nat.to_uint n).

Fixpoint zeros (k : nat) : string :=
  match k with
  | O => EmptyString
  | S k' => String "0" (zeros k')
  end.

(** [format(n, "05d")] for [n >= 0]: zero-filled on the left up to width 5,
    longer numbers are left as they are. *)
Definition formatar_05d (n : nat) : string :=
  let d := decimal n in
  (zeros (5 - String.length d) ++ d)%string.

(** [f"EMP-{n:05d}"] *)
Definition formatar_id (n : nat) : string :=
  ("EMP-" ++ formatar_05d n)%string.

Arguments formatar_id : simpl never.

Module ModuloEmprestimo.

(** [__init__] *)
Definition init (us : ModuloUsuarios.Estado) (ls : ModuloCatalogo.Estado)
  : Sistema :=
  mkSistema us ls Dict.vazio 0.

(** The loop of [registrar_emprestimo] over [self._emprestimos.values()]. *)
Fixpoint verificar_duplicado (l : list Emprestimo) (m i : string)
  : Met Sistema unit :=
  match l with
  | [] => ret tt
  | e :: r =>
      if String.eqb (matricula_usuario e) m
         && String.eqb (isbn_livro e) i
         && StatusEmprestimo_eqb (status e) ATIVO
      then levantar EmprestimoJaExisteException
      else verificar_duplicado r m i
  end.

Definition registrar_emprestimo (m i : string) (dias_emprestimo : Z)
    (agora : datetime) : Met Sistema Emprestimo :=
  (usuario <- tentar (nos_usuarios (ModuloUsuarios.obter_usuario m))
                     UsuarioNaoEncontradoException
                     (levantar UsuarioNaoEncontradoException) ;;
   if StatusUsuario_eqb (u_status usuario) BLOQUEADO then
     levantar UsuarioBloqueadoException
   else
   livro <- tentar (no_catalogo (ModuloCatalogo.obter_livro i))
                   LivroNaoEncontradoException
                   (levantar LivroNaoEncontradoException) ;;
   disponivel <- no_catalogo (ModuloCatalogo.verificar_disponibilidade i) ;;
   if negb disponivel then levantar LivroIndisponvelException
   else
   s <- ler ;;
   verificar_duplicado (Dict.values (emprestimos s)) m i ;;;
   s <- ler ;;
   escrever (com_contador s (S (contador_emprestimos s))) ;;;
   s <- ler ;;
   let id := formatar_id (contador_emprestimos s) in
   let data := agora in
   delta <- timedelta_dias dias_emprestimo ;;
   prevista <- datetime_mais data delta ;;
   let emprestimo := mkEmprestimo id m i data prevista None ATIVO in
   s <- ler ;;
   escrever (com_emprestimos s (Dict.set (emprestimos s) id emprestimo)) ;;;
   no_catalogo (ModuloCatalogo.decrementar_estoque i) ;;;
   nos_usuarios (ModuloUsuarios.incrementar_emprestimos m) ;;;
   ret emprestimo)%met.

Definition registrar_devolucao (id : string) (agora : datetime)
  : Met Sistema Emprestimo :=
  (s <- ler ;;
   match Dict.get (emprestimos s) id with
   | None => levantar EmprestimoNaoEncontradoException
   | Some emprestimo =>
       if negb (StatusEmprestimo_eqb (status emprestimo) ATIVO) then
         levantar ValidacaoException
       else
         let emprestimo := devolvido_em emprestimo agora in
         escrever (com_emprestimos s (Dict.set (emprestimos s) id emprestimo)) ;;;
         no_catalogo
           (ModuloCatalogo.incrementar_estoque (isbn_livro emprestimo)) ;;;
         nos_usuarios
           (ModuloUsuarios.decrementar_emprestimos
              (matricula_usuario emprestimo)) ;;;
         ret emprestimo
   end)%met.

Definition obter_emprestimo (id : string) : Met Sistema Emprestimo :=
  (s <- ler ;;
   match Dict.get (emprestimos s) id with
   | None => levantar EmprestimoNaoEncontradoException
   | Some e => ret e
   end)%met.

Definition listar_emprestimos (s : Sistema) : list Emprestimo :=
  Dict.values (emprestimos s).

Definition listar_emprestimos_ativos (s : Sistema) : list Emprestimo :=
  filter (fun e => StatusEmprestimo_eqb (status e) ATIVO)
         (Dict.values (emprestimos s)).

Definition listar_emprestimos_por_usuario (m : string) (s : Sistema)
  : list Emprestimo :=
  filter (fun e => String.eqb (matricula_usuario e) m)
         (Dict.values (emprestimos s)).

Definition listar_emprestimos_por_livro (i : string) (s : Sistema)
  : list Emprestimo :=
  filter (fun e => String.eqb (isbn_livro e) i)
         (Dict.values (emprestimos s)).

End ModuloEmprestimo.

(** Sequences of calls on the coordinator, each with the clock reading its
    [datetime.now()] returns. *)
Inductive Chamada : Type :=
| Emprestar (m i : string) (dias : Z) (agora : datetime)
| Devolver (id : string) (agora : datetime).

Definition executar (c : Chamada) (s : Sistema)
  : Resultado Emprestimo * Sistema :=
  match c with
  | Emprestar m i dias agora =>
      ModuloEmprestimo.registrar_emprestimo m i dias agora s
  | Devolver id agora => ModuloEmprestimo.registrar_devolucao id agora s
  end.

(** The state after a sequence of calls; a call that raises leaves the state
    it had reached and the sequence goes on. *)
Definition executar_todas (cs : list Chamada) (s : Sistema) : Sistema :=
  fold_left (fun st c => snd (executar c st)) cs s.

(** ** relatorios.py

    [ModuloRelatorios] holds references to the two registries and to the
    coordinator; they are the objects of [Sistema], which the reports read
    and never write. *)

(** [l[:n]]: a negative bound counts from the end of the list. *)
Definition fatiar_ate {A : Type} (l : list A) (n : Z) : list A :=
  if 0 <=? n then firstn (Z.to_nat n) l
  else firstn (List.length l - Z.to_nat (- n)) l.

(** [sorted(l, key=lambda x: x[1], reverse=True)].  Python's sort is stable,
    also with [reverse=True]: entries with equal keys keep their order.  A
    stable sort has one possible result, computed here by insertion. *)
Fixpoint inserir (x : string * Z) (l : list (string * Z))
  : list (string * Z) :=
  match l with
  | [] => [x]
  | y :: r => if snd x <? snd y then y :: inserir x r else x :: y :: r
  end.

Definition sorted_reverse (l : list (string * Z)) : list (string * Z) :=
  fold_right inserir [] l.

(** [sum(...)] adds from 0, left to right. *)
Definition sum (l : list Z) : Z := fold_left Z.add l 0.

Module ModuloRelatorios.

Record LinhaLivro : Type := mkLinhaLivro {
  ll_isbn : string;
  ll_titulo : string;
  ll_autor : string;
  ll_quantidade_emprestimos : Z
}.

Record LinhaEmprestimo : Type := mkLinhaEmprestimo {
  le_id_emprestimo : string;
  le_usuario : string;
  le_livro : string;
  le_data_emprestimo : string;
  le_data_devolucao_prevista : string;
  le_dias_restantes : Z
}.

Record Acervo : Type := mkAcervo {
  total_titulos : Z;
  total_copias_disponiveis : Z;
  livros_indisponveis : Z;
  data_geracao : string
}.

(** The first loop of [relatorio_livros_mais_emprestados]:
    [contagem[isbn] = contagem.get(isbn, 0) + 1] for every loan. *)
Definition contar_passo (c : Dict.t Z) (e : Emprestimo) : Dict.t Z :=
  Dict.set c (isbn_livro e)
           (match Dict.get c (isbn_livro e) with Some n => n | None => 0 end
            + 1).

Definition contagem_emprestimos (l : list Emprestimo) : Dict.t Z :=
  fold_left contar_passo l Dict.vazio.

(** The second loop, with its [try ... except: pass]. *)
Fixpoint juntar_livros (l : list (string * Z)) (resultado : list LinhaLivro)
  : Met ModuloCatalogo.Estado (list LinhaLivro) :=
  match l with
  | [] => ret resultado
  | (i, quantidade) :: r =>
      (resultado' <-
         tentar_tudo
           (livro <- ModuloCatalogo.obter_livro i ;;
            ret (resultado
                 ++ [mkLinhaLivro i (titulo livro) (autor livro) quantidade])%list)
           (ret resultado) ;;
       juntar_livros r resultado')%met
  end.

Definition relatorio_livros_mais_emprestados (limite : Z)
  : Met Sistema (list LinhaLivro) :=
  (s <- ler ;;
   let contagem :=
     contagem_emprestimos (ModuloEmprestimo.listar_emprestimos s) in
   let livros_ordenados :=
     fatiar_ate (sorted_reverse (Dict.items contagem)) limite in
   no_catalogo (juntar_livros livros_ordenados []))%met.

Record LinhaUsuario : Type := mkLinhaUsuario {
  lu_matricula : string;
  lu_nome : string;
  lu_tipo : string;
  lu_quantidade_emprestimos : Z
}.

Record ResumoUsuarios : Type := mkResumoUsuarios {
  total_usuarios : Z;
  usuarios_ativos : Z;
  usuarios_bloqueados : Z;
  ru_data_geracao : string
}.

(** The first loop of [relatorio_usuarios_mais_ativos]. *)
Definition contar_passo_usuario (c : Dict.t Z) (e : Emprestimo) : Dict.t Z :=
  Dict.set c (matricula_usuario e)
           (match Dict.get c (matricula_usuario e) with
            | Some n => n
            | None => 0
            end + 1).

Definition contagem_por_usuario (l : list Emprestimo) : Dict.t Z :=
  fold_left contar_passo_usuario l Dict.vazio.

(** Its second loop, with the [try ... except: pass]. *)
Fixpoint juntar_usuarios (l : list (string * Z))
    (resultado : list LinhaUsuario)
  : Met ModuloUsuarios.Estado (list LinhaUsuario) :=
  match l with
  | [] => ret resultado
  | (m, quantidade) :: r =>
      (resultado' <-
         tentar_tudo
           (usuario <- ModuloUsuarios.obter_usuario m ;;
            ret (resultado
                 ++ [mkLinhaUsuario m (nome usuario)
                                    (TipoUsuario_value (tipo usuario))
                                    quantidade])%list)
           (ret resultado) ;;
       juntar_usuarios r resultado')%met
  end.

Definition relatorio_usuarios_mais_ativos (limite : Z)
  : Met Sistema (list LinhaUsuario) :=
  (s <- ler ;;
   let contagem :=
     contagem_por_usuario (ModuloEmprestimo.listar_emprestimos s) in
   let usuarios_ordenados :=
     fatiar_ate (sorted_reverse (Dict.items contagem)) limite in
   nos_usuarios (juntar_usuarios usuarios_ordenados []))%met.

Section Relogio.

(** [datetime.isoformat], a rendering of a timestamp as text. *)
Variable isoformat : datetime -> string.

(** The clock: [relogio k] is what the [k]-th call of [datetime.now()] made
    by the report returns. *)
Variable relogio : nat -> datetime.

(** The loop of [relatorio_emprestimos_ativos]; [k] counts the clock reads
    made so far. *)
Fixpoint juntar_emprestimos (l : list Emprestimo)
    (resultado : list LinhaEmprestimo) (k : nat)
  : Met Sistema (list LinhaEmprestimo) :=
  match l with
  | [] => ret resultado
  | e :: r =>
      (par <-
         tentar_tudo
           (usuario <- nos_usuarios
                         (ModuloUsuarios.obter_usuario (matricula_usuario e)) ;;
            livro <- no_catalogo
                       (ModuloCatalogo.obter_livro (isbn_livro e)) ;;
            ret ((resultado
                 ++ [mkLinhaEmprestimo
                       (id_emprestimo e) (nome usuario) (titulo livro)
                       (isoformat (data_emprestimo e))
                       (isoformat (data_devolucao_prevista e))
                       (dias_entre (data_devolucao_prevista e) (relogio k))])%list,
                 S k))
           (ret (resultado, k)) ;;
       juntar_emprestimos r (fst par) (snd par))%met
  end.

Definition relatorio_emprestimos_ativos
  : Met Sistema (list LinhaEmprestimo) :=
  (s <- ler ;;
   juntar_emprestimos (ModuloEmprestimo.listar_emprestimos_ativos s) [] 0)%met.

Definition relatorio_acervo : Met Sistema Acervo :=
  (s <- ler ;;
   let livros := ModuloCatalogo.listar_livros (modulo_catalogo s) in
   let total_livros := Z.of_nat (List.length livros) in
   let total_copias := sum (map estoque livros) in
   let indisponveis :=
     sum (map (fun _ => 1) (filter (fun l => estoque l =? 0) livros)) in
   ret (mkAcervo total_livros total_copias indisponveis
                 (isoformat (relogio 0))))%met.

Definition relatorio_usuarios : Met Sistema ResumoUsuarios :=
  (s <- ler ;;
   let usuarios := ModuloUsuarios.listar_usuarios (modulo_usuarios s) in
   let total := Z.of_nat (List.length usuarios) in
   let ativos :=
     sum (map (fun _ => 1)
              (filter (fun u => String.eqb (StatusUsuario_value (u_status u))
                                           "Ativo") usuarios)) in
   let bloqueados :=
     sum (map (fun _ => 1)
              (filter (fun u => String.eqb (StatusUsuario_value (u_status u))
                                           "Bloqueado") usuarios)) in
   ret (mkResumoUsuarios total ativos bloqueados
                         (isoformat (relogio 0))))%met.

End Relogio.

End ModuloRelatorios.

(** * Vocabulary of the statements *)

(** A freshly constructed system: empty registries, empty coordinator. *)
Definition sistema_inicial : Sistema :=
  ModuloEmprestimo.init ModuloUsuarios.init ModuloCatalogo.init.

Definition ativo (e : Emprestimo) : bool :=
  StatusEmprestimo_eqb (status e) ATIVO.

Definition do_usuario (m : string) (e : Emprestimo) : bool :=
  String.eqb (matricula_usuario e) m.

Definition do_livro (i : string) (e : Emprestimo) : bool :=
  String.eqb (isbn_livro e) i.

(** How many of the elements of [l] satisfy [p]. *)
Definition quantos {A : Type} (p : A -> bool) (l : list A) : nat :=
  List.length (filter p l).

(** The number of loans of user [m] whose status is "active". *)
Definition ativos_do_usuario (m : string) (s : Sistema) : nat :=
  quantos (fun e => do_usuario m e && ativo e)
          (ModuloEmprestimo.listar_emprestimos s).

(** The number of active loans that reference book [i]. *)
Definition ativos_do_livro (i : string) (s : Sistema) : nat :=
  quantos (fun e => do_livro i e && ativo e)
          (ModuloEmprestimo.listar_emprestimos s).

(** Is there an active loan of book [i] to user [m]? *)
Definition par_ativo (m i : string) (s : Sistema) : bool :=
  existsb (fun e => do_usuario m e && do_livro i e && ativo e)
          (ModuloEmprestimo.listar_emprestimos s).

(** Every registered user's counter is the number of that user's active
    loans. *)
Definition contador_espelha (s : Sistema) : Prop :=
  forall m u,
    Dict.get (modulo_usuarios s) m = Some u ->
    emprestimos_ativos u = Z.of_nat (ativos_do_usuario m s).

(** The coordinator's own invariant: the key of every stored loan was
    generated from a value the counter has already passed.  Only
    [registrar_emprestimo] adds keys, and no method lowers the counter. *)
Definition ids_gerados (s : Sistema) : Prop :=
  forall k,
    In k (Dict.keys (emprestimos s)) ->
    exists n, (n <= contador_emprestimos s)%nat /\ k = formatar_id n.

(** Every active loan references a book that is in the catalog. *)
Definition ativos_tem_livro (s : Sistema) : Prop :=
  forall e,
    In e (ModuloEmprestimo.listar_emprestimos s) ->
    ativo e = true ->
    Dict.get (modulo_catalogo s) (isbn_livro e) <> None.

(** The five preconditions of create_loan in the order the specification
    lists them, each with the error of its failure. *)
Definition verificacoes (m i : string) (s : Sistema)
  : list (bool * Excecao) :=
  [ (Dict.contem (modulo_usuarios s) m, UsuarioNaoEncontradoException);
    (match Dict.get (modulo_usuarios s) m with
     | Some u => negb (StatusUsuario_eqb (u_status u) BLOQUEADO)
     | None => true
     end, UsuarioBloqueadoException);
    (Dict.contem (modulo_catalogo s) i, LivroNaoEncontradoException);
    (match Dict.get (modulo_catalogo s) i with
     | Some l => 0 <? estoque l
     | None => true
     end, LivroIndisponvelException);
    (negb (par_ativo m i s), EmprestimoJaExisteException) ].

(** The error of the first check that fails, if any does. *)
Fixpoint primeira_falha (vs : list (bool * Excecao)) : option Excecao :=
  match vs with
  | [] => None
  | (ok, x) :: r => if ok then primeira_falha r else Some x
  end.

(** The state a successful [registrar_emprestimo] ends in. *)
Definition apos_emprestimo (s : Sistema) (m i : string) (u : Usuario)
    (l : Livro) (e : Emprestimo) : Sistema :=
  mkSistema
    (Dict.set (modulo_usuarios s) m
              (com_emprestimos_ativos u (emprestimos_ativos u + 1)))
    (Dict.set (modulo_catalogo s) i (com_estoque l (estoque l - 1)))
    (Dict.set (emprestimos s) (formatar_id (S (contador_emprestimos s))) e)
    (S (contador_emprestimos s)).

(** Does the due date of a loan of [dias] days taken at [agora] exist? *)
Definition prazo_representavel (dias : Z) (agora : datetime) : bool :=
  (Z.abs dias <=? 999999999)
  && (0 <=? agora + dias * US_POR_DIA)
  && (agora + dias * US_POR_DIA <? MAXORDINAL * US_POR_DIA).

(** The identifiers returned by the successful [registrar_emprestimo] calls
    of a sequence, in order. *)
Fixpoint ids_emprestados (cs : list Chamada) (s : Sistema) : list string :=
  match cs with
  | [] => []
  | c :: r =>
      match c, fst (executar c s) with
      | Emprestar _ _ _ _, inr e =>
          id_emprestimo e :: ids_emprestados r (snd (executar c s))
      | _, _ => ids_emprestados r (snd (executar c s))
      end
  end.


(** ** Example states, built through the public operations *)

(** One user and one book with a single copy. *)
Definition ex_cadastros : Sistema :=
  snd (no_catalogo
         (ModuloCatalogo.cadastrar_livro
            "B1" "Dom Casmurro" "Machado de Assis" 1 None None)
         (snd (nos_usuarios
                 (ModuloUsuarios.cadastrar_usuario
                    "U1" "Ana Souza" ALUNO None None)
                 sistema_inicial))).

(** ... then the book is lent to the user for seven days. *)
Definition ex_emprestado : Sistema :=
  snd (ModuloEmprestimo.registrar_emprestimo "U1" "B1" 7 1000 ex_cadastros).

(** ... then the book is removed from the catalog while on loan. *)
Definition ex_livro_removido : Sistema :=
  snd (no_catalogo (ModuloCatalogo.remover_livro "B1") ex_emprestado).

(** ... or else the loan is returned. *)
Definition ex_devolvido : Sistema :=
  snd (ModuloEmprestimo.registrar_devolucao "EMP-00001" 2000 ex_emprestado).

(** The same user, blocked. *)
Definition ex_bloqueado : Sistema :=
  snd (nos_usuarios (ModuloUsuarios.bloquear_usuario "U1") ex_cadastros).

(** ** The state changes a call on the coordinator can make

    [passo s s']: some call of [registrar_emprestimo] or
    [registrar_devolucao] started in [s] ends, normally or by raising, in
    [s']. *)
Inductive passo (s : Sistema) : Sistema -> Prop :=
| passo_rejeitado :
    (* a check failed before anything was written *)
    passo s s
| passo_emprestimo m i dias agora u l :
    Dict.get (modulo_usuarios s) m = Some u ->
    Dict.get (modulo_catalogo s) i = Some l ->
    0 < estoque l ->
    par_ativo m i s = false ->
    passo s (apos_emprestimo s m i u l
               (mkEmprestimo (formatar_id (S (contador_emprestimos s))) m i
                             agora (agora + dias * US_POR_DIA) None ATIVO))
| passo_prazo_invalido :
    (* the counter was incremented, then the due date overflowed *)
    passo s (com_contador s (S (contador_emprestimos s)))
| passo_devolucao_sem_livro id agora e :
    Dict.get (emprestimos s) id = Some e ->
    ativo e = true ->
    Dict.get (modulo_catalogo s) (isbn_livro e) = None ->
    passo s (mkSistema (modulo_usuarios s) (modulo_catalogo s)
               (Dict.set (emprestimos s) id (devolvido_em e agora))
               (contador_emprestimos s))
| passo_devolucao_sem_usuario id agora e l :
    Dict.get (emprestimos s) id = Some e ->
    ativo e = true ->
    Dict.get (modulo_catalogo s) (isbn_livro e) = Some l ->
    Dict.get (modulo_usuarios s) (matricula_usuario e) = None ->
    passo s (mkSistema (modulo_usuarios s)
               (Dict.set (modulo_catalogo s) (isbn_livro e)
                         (com_estoque l (estoque l + 1)))
               (Dict.set (emprestimos s) id (devolvido_em e agora))
               (contador_emprestimos s))
| passo_devolucao id agora e l u :
    Dict.get (emprestimos s) id = Some e ->
    ativo e = true ->
    Dict.get (modulo_catalogo s) (isbn_livro e) = Some l ->
    Dict.get (modulo_usuarios s) (matricula_usuario e) = Some u ->
    passo s (mkSistema
               (if 0 <? emprestimos_ativos u then
                  Dict.set (modulo_usuarios s) (matricula_usuario e)
                    (com_emprestimos_ativos u (emprestimos_ativos u - 1))
                else modulo_usuarios s)
               (Dict.set (modulo_catalogo s) (isbn_livro e)
                         (com_estoque l (estoque l + 1)))
               (Dict.set (emprestimos s) id (devolvido_em e agora))
               (contador_emprestimos s)).

(** Book [i] is in the catalog and its stock plus the number of active
    loans that reference it is [s0]. *)
Definition conservacao (i : string) (s0 : Z) (s : Sistema) : Prop :=
  exists l,
    Dict.get (modulo_catalogo s) i = Some l
    /\ estoque l + Z.of_nat (ativos_do_livro i s) = s0.

(** Only the user is registered (the state [ex_cadastros] starts from). *)
Definition ex_so_usuario : Sistema :=
  snd (nos_usuarios
         (ModuloUsuarios.cadastrar_usuario "U1" "Ana Souza" ALUNO None None)
         sistema_inicial).

(** ** What the reports are expected to contain *)

(** The sum of a list of integers. *)
Definition soma (l : list Z) : Z := fold_right Z.add 0 l.

(** The value a tally holds for a key, 0 when the key is absent. *)
Definition valor (c : Dict.t Z) (i : string) : Z :=
  match Dict.get c i with Some n => n | None => 0 end.

(** The entry of [relatorio_livros_mais_emprestados] for one counted book,
    or nothing when the catalog no longer has the book. *)
Definition linha_livro (ls : ModuloCatalogo.Estado) (par : string * Z)
  : list ModuloRelatorios.LinhaLivro :=
  match Dict.get ls (fst par) with
  | Some livro =>
      [ModuloRelatorios.mkLinhaLivro (fst par) (titulo livro) (autor livro)
                                     (snd par)]
  | None => []
  end.

(** [a] does not rank below [b]: its count is at least that of [b]. *)
Definition nao_abaixo (a b : string * Z) : Prop := snd b <= snd a.



(** Two books, and a history of four loans: B2 once, then B1 three times
    (returned in between, since B1 has a single copy). *)
Definition ex_dois_livros : Sistema :=
  snd (no_catalogo
         (ModuloCatalogo.cadastrar_livro
            "B2" "Quincas Borba" "Machado de Assis" 1 None None)
         ex_cadastros).

Definition ex_quatro_emprestimos : Sistema :=
  executar_todas
    [Emprestar "U1" "B2" 7 1000;
     Emprestar "U1" "B1" 7 2000; Devolver "EMP-00002" 3000;
     Emprestar "U1" "B1" 7 4000; Devolver "EMP-00003" 5000;
     Emprestar "U1" "B1" 7 6000]
    ex_dois_livros.

(** One loan of each book: a tie. *)
Definition ex_empate : Sistema :=
  executar_todas
    [Emprestar "U1" "B2" 7 1000; Emprestar "U1" "B1" 7 2000]
    ex_dois_livros.


(** ** Registries and histories *)

(** The user a successful [cadastrar_usuario] stores. *)
Definition usuario_novo (m n : string) (tp : TipoUsuario)
    (em tel : option string) : Usuario :=
  mkUsuario m n tp U_ATIVO em tel 0.

(** The book a successful [cadastrar_livro] stores. *)
Definition livro_novo (i t a : string) (e : Z) (ed : option string)
    (ano : option Z) : Livro :=
  mkLivro i t a e DISPONIVEL ed ano.

(** An object after an optional assignment to one of its fields. *)
Definition atribuido {T A : Type} (com : T -> A -> T) (x : T)
    (arg : option A) : T :=
  match arg with Some a => com x a | None => x end.

(** No book of the catalog has a negative stock. *)
Definition estoques_nao_negativos (ls : ModuloCatalogo.Estado) : Prop :=
  Forall (fun l => 0 <= estoque l) (Dict.values ls).

(** Every active loan references a user that is registered. *)
Definition ativos_tem_usuario (s : Sistema) : Prop :=
  forall e,
    In e (ModuloEmprestimo.listar_emprestimos s) ->
    ativo e = true ->
    Dict.get (modulo_usuarios s) (matricula_usuario e) <> None.

(** No pair of a user and a book has two active loans. *)
Definition sem_par_duplicado (s : Sistema) : Prop :=
  forall m i,
    (quantos (fun e => do_usuario m e && do_livro i e && ativo e)
             (ModuloEmprestimo.listar_emprestimos s) <= 1)%nat.

(** The stored loan [e'] is [e] itself or [e] after its return. *)
Definition mesmo_ou_devolvido (e e' : Emprestimo) : Prop :=
  e' = e \/ (status e = ATIVO /\ exists t, e' = devolvido_em e t).

(** The operations of a history: the administration of users and books and
    the calls on the coordinator.  [remover_livro] is not among them, and
    neither are direct calls of the stock and counter methods that the
    coordinator makes on the registries. *)
Inductive Operacao : Type :=
| CadastrarUsuario (m n : string) (tp : TipoUsuario) (em tel : option string)
| EditarUsuario (m : string) (n : option string) (tp : option TipoUsuario)
                (em tel : option string)
| RemoverUsuario (m : string)
| BloquearUsuario (m : string)
| DesbloquearUsuario (m : string)
| CadastrarLivro (i t a : string) (e : Z) (ed : option string)
                 (ano : option Z)
| EditarLivro (i : string) (t a ed : option string) (ano : option Z)
| AtualizarStatus (i : string) (st : StatusLivro)
| Coordenador (c : Chamada).

Definition aplicar (o : Operacao) (s : Sistema) : Sistema :=
  match o with
  | CadastrarUsuario m n tp em tel =>
      snd (nos_usuarios (ModuloUsuarios.cadastrar_usuario m n tp em tel) s)
  | EditarUsuario m n tp em tel =>
      snd (nos_usuarios (ModuloUsuarios.editar_usuario m n tp em tel) s)
  | RemoverUsuario m => snd (nos_usuarios (ModuloUsuarios.remover_usuario m) s)
  | BloquearUsuario m =>
      snd (nos_usuarios (ModuloUsuarios.bloquear_usuario m) s)
  | DesbloquearUsuario m =>
      snd (nos_usuarios (ModuloUsuarios.desbloquear_usuario m) s)
  | CadastrarLivro i t a e ed ano =>
      snd (no_catalogo (ModuloCatalogo.cadastrar_livro i t a e ed ano) s)
  | EditarLivro i t a ed ano =>
      snd (no_catalogo (ModuloCatalogo.editar_livro i t a ed ano) s)
  | AtualizarStatus i st =>
      snd (no_catalogo (ModuloCatalogo.atualizar_status i st) s)
  | Coordenador c => snd (executar c s)
  end.

(** The state a history leaves a freshly constructed system in; an
    operation that raises leaves the state it had reached. *)
Definition historia (os : list Operacao) : Sistema :=
  fold_left (fun s o => aplicar o s) os sistema_inicial.

(** What holds of the system after every such history. *)
Definition coerente (s : Sistema) : Prop :=
  ids_gerados s
  /\ NoDup (Dict.keys (modulo_usuarios s))
  /\ NoDup (Dict.keys (modulo_catalogo s))
  /\ NoDup (Dict.keys (emprestimos s))
  /\ contador_espelha s
  /\ ativos_tem_livro s
  /\ ativos_tem_usuario s
  /\ estoques_nao_negativos (modulo_catalogo s)
  /\ sem_par_duplicado s.

(** The entry of [relatorio_usuarios_mais_ativos] for one counted user, or
    nothing when the user is no longer registered. *)
Definition linha_usuario (us : ModuloUsuarios.Estado) (par : string * Z)
  : list ModuloRelatorios.LinhaUsuario :=
  match Dict.get us (fst par) with
  | Some usuario =>
      [ModuloRelatorios.mkLinhaUsuario
         (fst par) (nome usuario) (TipoUsuario_value (tipo usuario))
         (snd par)]
  | None => []
  end.


(** The changes the administration of users can make to the registry: a
    new user without loans, an edit that keeps the counter, the removal of a
    user whose counter is not positive. *)
Inductive passo_usuarios (us : ModuloUsuarios.Estado)
  : ModuloUsuarios.Estado -> Prop :=
| pu_nada : passo_usuarios us us
| pu_novo m u :
    Dict.get us m = None ->
    emprestimos_ativos u = 0 ->
    passo_usuarios us (Dict.set us m u)
| pu_edicao m u u' :
    Dict.get us m = Some u ->
    emprestimos_ativos u' = emprestimos_ativos u ->
    passo_usuarios us (Dict.set us m u')
| pu_remocao m u :
    Dict.get us m = Some u ->
    emprestimos_ativos u <= 0 ->
    passo_usuarios us (Dict.del us m).

(** The changes the administration of books, without removal, can make to
    the catalog. *)
Inductive passo_catalogo (ls : ModuloCatalogo.Estado)
  : ModuloCatalogo.Estado -> Prop :=
| pc_nada : passo_catalogo ls ls
| pc_novo i l :
    Dict.get ls i = None ->
    0 <= estoque l ->
    passo_catalogo ls (Dict.set ls i l)
| pc_edicao i l l' :
    Dict.get ls i = Some l ->
    estoque l' = estoque l ->
    passo_catalogo ls (Dict.set ls i l').


(** The member a [tipo] argument stands for, if any: a string is looked up
    by name after [upper]. *)
Definition tipo_de (upper : string -> string) (tp : string + TipoUsuario)
  : option TipoUsuario :=
  match tp with
  | inl texto => TipoUsuario_por_nome (upper texto)
  | inr t => Some t
  end.

Definition status_de (upper : string -> string) (st : string + StatusLivro)
  : option StatusLivro :=
  match st with
  | inl texto => StatusLivro_por_nome (upper texto)
  | inr x => Some x
  end.


(** The book of [ex_livro_removido], removed from the catalog while on loan,
    is registered again, now with five copies. *)
Definition ex_recadastrado : Sistema :=
  snd (no_catalogo
         (ModuloCatalogo.cadastrar_livro
            "B1" "Dom Casmurro" "Machado de Assis" 5 None None)
         ex_livro_removido).

(** One user and one book with two copies. *)
Definition ex_duas_copias : Sistema :=
  snd (no_catalogo
         (ModuloCatalogo.cadastrar_livro
            "B3" "Helena" "Machado de Assis" 2 None None)
         ex_so_usuario).

(** A name of [k] characters that takes [2 * k] bytes. *)
Fixpoint nome_acentuado (k : nat) : string :=
  match k with
  | O => EmptyString
  | S k' => ("é" ++ nome_acentuado k')%string
  end.


(** * Properties *)

(** ** Dictionaries *)

Section DictFatos.
Context {V : Type}.
Implicit Types (d : Dict.t V) (k : string) (v : V).

Lemma get_set_eq d k v : Dict.get (Dict.set d k v) k = Some v.
Proof.
  induction d as [|[k' v'] r IH]; simpl.
  - now rewrite String.eqb_refl.
  - destruct (String.eqb k' k) eqn:E; simpl; rewrite E; auto.
Qed.

Lemma get_set_ne d k k' v :
  k <> k' -> Dict.get (Dict.set d k v) k' = Dict.get d k'.
Proof.
  intros Hne. induction d as [|[k0 v0] r IH]; simpl.
  - destruct (String.eqb_spec k k'); congruence.
  - destruct (String.eqb_spec k0 k); simpl.
    + subst. destruct (String.eqb_spec k k'); congruence.
    + now rewrite IH.
Qed.

Lemma get_None_keys d k : Dict.get d k = None <-> ~ In k (Dict.keys d).
Proof.
  induction d as [|[k0 v0] r IH]; simpl.
  - tauto.
  - destruct (String.eqb_spec k0 k).
    + split; [discriminate | intros H; exfalso; apply H; now left].
    + rewrite IH. tauto.
Qed.

Lemma get_Some_In d k v : Dict.get d k = Some v -> In v (Dict.values d).
Proof.
  induction d as [|[k0 v0] r IH]; simpl; [discriminate|].
  destruct (String.eqb k0 k).
  - intros [= ->]. now left.
  - intros H. right. now apply IH.
Qed.

Lemma values_set_novo d k v :
  Dict.get d k = None -> Dict.values (Dict.set d k v) = Dict.values d ++ [v].
Proof.
  induction d as [|[k0 v0] r IH]; simpl; auto.
  destruct (String.eqb k0 k); [discriminate|].
  intros H. simpl. now rewrite IH.
Qed.

Lemma keys_set_novo d k v :
  Dict.get d k = None -> Dict.keys (Dict.set d k v) = Dict.keys d ++ [k].
Proof.
  induction d as [|[k0 v0] r IH]; simpl; auto.
  destruct (String.eqb k0 k); [discriminate|].
  intros H. simpl. now rewrite IH.
Qed.

Lemma keys_set_presente d k v v0 :
  Dict.get d k = Some v0 -> Dict.keys (Dict.set d k v) = Dict.keys d.
Proof.
  induction d as [|[k0 v1] r IH]; simpl; [discriminate|].
  destruct (String.eqb k0 k); simpl; auto.
  intros H. now rewrite IH.
Qed.

(** Replacing the value stored under a key that is present: the old value
    leaves every count, the new one enters it. *)
Lemma quantos_set_presente d k v v0 (p : V -> bool) :
  Dict.get d k = Some v0 ->
  (quantos p (Dict.values (Dict.set d k v)) + (if p v0 then 1 else 0)
   = quantos p (Dict.values d) + (if p v then 1 else 0))%nat.
Proof.
  unfold quantos.
  induction d as [|[k0 v1] r IH]; simpl; [discriminate|].
  destruct (String.eqb k0 k); simpl.
  - intros [= ->]. destruct (p v0), (p v); simpl; lia.
  - intros H. specialize (IH H). destruct (p v1); simpl; lia.
Qed.

Lemma quantos_set_novo d k v (p : V -> bool) :
  Dict.get d k = None ->
  quantos p (Dict.values (Dict.set d k v))
  = (quantos p (Dict.values d) + (if p v then 1 else 0))%nat.
Proof.
  intros H. unfold quantos. rewrite (values_set_novo _ _ _ H).
  rewrite filter_app, length_app. simpl. now destruct (p v).
Qed.

Lemma In_values_set d k v x :
  In x (Dict.values (Dict.set d k v)) -> x = v \/ In x (Dict.values d).
Proof.
  induction d as [|[k0 v1] r IH]; simpl.
  - intros [H|[]]. now left.
  - destruct (String.eqb k0 k); simpl.
    + intros [H|H]; auto.
    + intros [H|H]; auto. destruct (IH H); auto.
Qed.

End DictFatos.

(** ** Loan identifiers *)

Lemma of_uint_D0 (d : uint) : Nat.of_uint (D0 d) = Nat.of_uint d.
Proof. reflexivity. Qed.

Lemma ler_zeros (k : nat) (s : string) (d : uint) :
  NilEmpty.uint_of_string s = Some d ->
  exists d',
    NilEmpty.uint_of_string (zeros k ++ s)%string = Some d'
    /\ Nat.of_uint d' = Nat.of_uint d.
Proof.
  intros Hs. induction k as [|k [d' [Hd' Hn]]]; simpl.
  - now exists d.
  - rewrite Hd'. exists (D0 d'). split; [reflexivity|].
    now rewrite of_uint_D0.
Qed.

(** Reading the digits of [formatar_05d n] back gives [n]. *)
Lemma ler_formatar_05d (n : nat) :
  option_map Nat.of_uint (NilEmpty.uint_of_string (formatar_05d n)) = Some n.
Proof.
  unfold formatar_05d, decimal.
  destruct (ler_zeros
              (5 - String.length (NilEmpty.string_of_uint (Nat.to_uint n)))
              _ _ (NilEmpty.usu (Nat.to_uint n))) as [d' [Hd' Hn]].
  rewrite Hd'. simpl. now rewrite Hn, DecimalNat.Unsigned.of_to.
Qed.

Lemma formatar_id_inj (n m : nat) : formatar_id n = formatar_id m -> n = m.
Proof.
  unfold formatar_id. simpl. intros [= H].
  pose proof (ler_formatar_05d n) as Hn.
  rewrite H, ler_formatar_05d in Hn. congruence.
Qed.

(** ** What the two operations do, case by case *)

(** Replace a closed term by its value. *)
Ltac avaliar t := let v := eval vm_compute in t in change t with v.

Ltac caso :=
  match goal with
  | |- context [if ?b then _ else _] => destruct b eqn:?; cbn
  end.

Lemma verificar_duplicado_casos (l : list Emprestimo) (m i : string)
    (s : Sistema) :
  ModuloEmprestimo.verificar_duplicado l m i s
  = if existsb (fun e => do_usuario m e && do_livro i e && ativo e) l
    then (inl EmprestimoJaExisteException, s)
    else (inr tt, s).
Proof.
  induction l as [|e r IH]; simpl; [reflexivity|].
  unfold do_usuario, do_livro, ativo in *.
  destruct (String.eqb (matricula_usuario e) m
            && String.eqb (isbn_livro e) i
            && StatusEmprestimo_eqb (status e) ATIVO); simpl; auto.
Qed.

Lemma sistema_eta (s : Sistema) :
  mkSistema (modulo_usuarios s) (modulo_catalogo s) (emprestimos s)
            (contador_emprestimos s) = s.
Proof. now destruct s. Qed.

Lemma registrar_emprestimo_casos (m i : string) (dias : Z) (agora : datetime)
    (s : Sistema) :
  ModuloEmprestimo.registrar_emprestimo m i dias agora s
  = match Dict.get (modulo_usuarios s) m with
    | None => (inl UsuarioNaoEncontradoException, s)
    | Some u =>
        if StatusUsuario_eqb (u_status u) BLOQUEADO then
          (inl UsuarioBloqueadoException, s)
        else
          match Dict.get (modulo_catalogo s) i with
          | None => (inl LivroNaoEncontradoException, s)
          | Some l =>
              if 0 <? estoque l then
                if par_ativo m i s then (inl EmprestimoJaExisteException, s)
                else if prazo_representavel dias agora then
                  let e := mkEmprestimo
                             (formatar_id (S (contador_emprestimos s))) m i
                             agora (agora + dias * US_POR_DIA) None ATIVO in
                  (inr e, apos_emprestimo s m i u l e)
                else
                  (inl OverflowError,
                   com_contador s (S (contador_emprestimos s)))
              else (inl LivroIndisponvelException, s)
          end
    end.
Proof.
  destruct s as [us ls es c].
  unfold ModuloEmprestimo.registrar_emprestimo,
    ModuloCatalogo.verificar_disponibilidade,
    ModuloCatalogo.decrementar_estoque,
    ModuloUsuarios.incrementar_emprestimos,
    ModuloUsuarios.obter_usuario, ModuloCatalogo.obter_livro,
    timedelta_dias, datetime_mais, prazo_representavel, par_ativo,
    apos_emprestimo, ModuloEmprestimo.listar_emprestimos,
    tentar, nos_usuarios, no_catalogo, bind, ler, escrever, ret, levantar.
  cbn.
  destruct (Dict.get us m) as [u|] eqn:Hu; cbn; [|reflexivity].
  destruct (StatusUsuario_eqb (u_status u) BLOQUEADO); cbn; [reflexivity|].
  destruct (Dict.get ls i) as [l|] eqn:Hl; cbn; [|reflexivity].
  rewrite ?Hl; cbn.
  destruct (0 <? estoque l) eqn:Hest; cbn; [|reflexivity].
  assert (Hle : (estoque l <=? 0) = false)
    by (apply Z.leb_gt; now apply Z.ltb_lt).
  rewrite verificar_duplicado_casos.
  repeat (rewrite ?Hl, ?Hle, ?Hu; cbn; try reflexivity; try caso).
Qed.

Lemma registrar_devolucao_casos (id : string) (agora : datetime)
    (s : Sistema) :
  ModuloEmprestimo.registrar_devolucao id agora s
  = match Dict.get (emprestimos s) id with
    | None => (inl EmprestimoNaoEncontradoException, s)
    | Some e =>
        if ativo e then
          let e' := devolvido_em e agora in
          let es := Dict.set (emprestimos s) id e' in
          match Dict.get (modulo_catalogo s) (isbn_livro e) with
          | None =>
              (inl LivroNaoEncontradoException,
               mkSistema (modulo_usuarios s) (modulo_catalogo s) es
                         (contador_emprestimos s))
          | Some l =>
              let ls := Dict.set (modulo_catalogo s) (isbn_livro e)
                                 (com_estoque l (estoque l + 1)) in
              match Dict.get (modulo_usuarios s) (matricula_usuario e) with
              | None =>
                  (inl UsuarioNaoEncontradoException,
                   mkSistema (modulo_usuarios s) ls es
                             (contador_emprestimos s))
              | Some u =>
                  (inr e',
                   mkSistema
                     (if 0 <? emprestimos_ativos u then
                        Dict.set (modulo_usuarios s) (matricula_usuario e)
                          (com_emprestimos_ativos u (emprestimos_ativos u - 1))
                      else modulo_usuarios s)
                     ls es (contador_emprestimos s))
              end
          end
        else (inl ValidacaoException, s)
    end.
Proof.
  destruct s as [us ls es c].
  unfold ModuloEmprestimo.registrar_devolucao,
    ModuloCatalogo.incrementar_estoque,
    ModuloUsuarios.decrementar_emprestimos,
    ModuloUsuarios.obter_usuario, ModuloCatalogo.obter_livro,
    ativo, nos_usuarios, no_catalogo, bind, ler, escrever, ret, levantar.
  cbn.
  destruct (Dict.get es id) as [e|] eqn:He; cbn; [|reflexivity].
  destruct (StatusEmprestimo_eqb (status e) ATIVO); cbn; [|reflexivity].
  destruct (Dict.get ls (isbn_livro e)) as [l|] eqn:Hl; cbn; [|reflexivity].
  destruct (Dict.get us (matricula_usuario e)) as [u|] eqn:Hu; cbn;
    [|reflexivity].
  destruct (0 <? emprestimos_ativos u); reflexivity.
Qed.

(** ** Rejected calls *)

(** C2: [registrar_emprestimo] checks, in this order, that the user exists,
    that the user is not blocked, that the book exists, that its stock is
    positive and that the pair has no active loan.  The first check that
    fails decides the exception, and the call then ends in the very state it
    started from: loans, loan counter, stocks and user counters are all
    untouched.  When the five checks pass, none of their five exceptions is
    raised. *)
Theorem registrar_emprestimo_primeira_falha
    (m i : string) (dias : Z) (agora : datetime) (s : Sistema) :
  match primeira_falha (verificacoes m i s) with
  | Some x =>
      ModuloEmprestimo.registrar_emprestimo m i dias agora s = (inl x, s)
  | None =>
      forall x,
        fst (ModuloEmprestimo.registrar_emprestimo m i dias agora s) = inl x ->
        x = OverflowError
  end.
Proof.
  rewrite registrar_emprestimo_casos.
  unfold verificacoes, primeira_falha, Dict.contem.
  destruct (Dict.get (modulo_usuarios s) m) as [u|]; [|reflexivity].
  destruct (StatusUsuario_eqb (u_status u) BLOQUEADO); simpl; [reflexivity|].
  destruct (Dict.get (modulo_catalogo s) i) as [l|]; [|reflexivity].
  destruct (0 <? estoque l); [|reflexivity].
  destruct (par_ativo m i s); simpl; [reflexivity|].
  destruct (prazo_representavel dias agora); simpl; intros x [=]; congruence.
Qed.

(** C4: [registrar_devolucao] of an identifier that no loan has raises
    EmprestimoNaoEncontradoException; of a loan whose status is not "active"
    it raises ValidacaoException.  Either way the state is the one the call
    started from: no stock is incremented again, no counter is decremented,
    the loan keeps its status and its return timestamp. *)
Theorem registrar_devolucao_rejeitada
    (id : string) (agora : datetime) (s : Sistema) :
  (Dict.get (emprestimos s) id = None ->
   ModuloEmprestimo.registrar_devolucao id agora s
   = (inl EmprestimoNaoEncontradoException, s))
  /\ (forall e,
        Dict.get (emprestimos s) id = Some e ->
        status e <> ATIVO ->
        ModuloEmprestimo.registrar_devolucao id agora s
        = (inl ValidacaoException, s)).
Proof.
  rewrite registrar_devolucao_casos. split.
  - intros ->. reflexivity.
  - intros e -> He. unfold ativo.
    destruct (status e); simpl; congruence.
Qed.

Lemma registrar_devolucao_rejeitada_exemplo :
  ModuloEmprestimo.registrar_devolucao "EMP-00009" 3000 ex_devolvido
  = (inl EmprestimoNaoEncontradoException, ex_devolvido)
  /\ ModuloEmprestimo.registrar_devolucao "EMP-00001" 3000 ex_devolvido
     = (inl ValidacaoException, ex_devolvido).
Proof.
  split.
  - apply (proj1 (registrar_devolucao_rejeitada "EMP-00009" 3000 ex_devolvido)).
    reflexivity.
  - apply (proj2 (registrar_devolucao_rejeitada "EMP-00001" 3000 ex_devolvido)
             (mkEmprestimo "EMP-00001" "U1" "B1" 1000 604800001000
                           (Some 2000) DEVOLVIDO)).
    + reflexivity.
    + discriminate.
Defined.

(** C10: [registrar_devolucao] marks the loan returned and stamps it before
    it calls the catalog and the user registry.  So when the book of an
    active loan is gone from the catalog the call raises
    LivroNaoEncontradoException and leaves the loan in status "returned"
    with its return timestamp set, while the user registry (hence the
    user's counter), the catalog and the loan counter stay as they were. *)
Theorem registrar_devolucao_livro_removido
    (id : string) (agora : datetime) (s : Sistema) (e : Emprestimo) :
  Dict.get (emprestimos s) id = Some e ->
  status e = ATIVO ->
  Dict.get (modulo_catalogo s) (isbn_livro e) = None ->
  exists s',
    ModuloEmprestimo.registrar_devolucao id agora s
    = (inl LivroNaoEncontradoException, s')
    /\ (exists e',
          Dict.get (emprestimos s') id = Some e'
          /\ status e' = DEVOLVIDO
          /\ data_devolucao_real e' = Some agora
          /\ matricula_usuario e' = matricula_usuario e
          /\ isbn_livro e' = isbn_livro e)
    /\ modulo_usuarios s' = modulo_usuarios s
    /\ modulo_catalogo s' = modulo_catalogo s
    /\ contador_emprestimos s' = contador_emprestimos s.
Proof.
  intros He Hat Hl. rewrite registrar_devolucao_casos, He.
  unfold ativo. rewrite Hat, Hl. simpl.
  eexists. split; [reflexivity|]. simpl. repeat split.
  exists (devolvido_em e agora). rewrite get_set_eq. repeat split.
Qed.

Lemma registrar_devolucao_livro_removido_exemplo :
  exists s',
    ModuloEmprestimo.registrar_devolucao "EMP-00001" 2000 ex_livro_removido
    = (inl LivroNaoEncontradoException, s')
    /\ (exists e',
          Dict.get (emprestimos s') "EMP-00001" = Some e'
          /\ status e' = DEVOLVIDO
          /\ data_devolucao_real e' = Some 2000
          /\ matricula_usuario e' = "U1"
          /\ isbn_livro e' = "B1")
    /\ modulo_usuarios s' = modulo_usuarios ex_livro_removido
    /\ modulo_catalogo s' = modulo_catalogo ex_livro_removido
    /\ contador_emprestimos s' = contador_emprestimos ex_livro_removido.
Proof.
  apply (registrar_devolucao_livro_removido
           "EMP-00001" 2000 ex_livro_removido
           (mkEmprestimo "EMP-00001" "U1" "B1" 1000 604800001000 None ATIVO));
    reflexivity.
Defined.

Example registrar_emprestimo_usuario_bloqueado :
  ModuloEmprestimo.registrar_emprestimo "U1" "B1" 7 1000 ex_bloqueado
  = (inl UsuarioBloqueadoException, ex_bloqueado).
Proof. reflexivity. Qed.

Example registrar_emprestimo_estoque_zero :
  ModuloEmprestimo.registrar_emprestimo "U1" "B1" 7 3000 ex_emprestado
  = (inl LivroIndisponvelException, ex_emprestado).
Proof. reflexivity. Qed.

(** ** The counter of active loans in the user registry *)

(** C5, as the specification has it, promises that [decrementar_emprestimos]
    never fails, for every user id.  It looks the user up first: on an id
    that is not registered it raises UsuarioNaoEncontradoException. *)
Lemma decrementar_emprestimos_desconhecido :
  ModuloUsuarios.decrementar_emprestimos "U1" ModuloUsuarios.init
  = (inl UsuarioNaoEncontradoException, ModuloUsuarios.init).
Proof. reflexivity. Qed.

(** C5 (amended): [decrementar_emprestimos] returns normally exactly on the
    registered user ids.  On an id that is not registered it raises
    UsuarioNaoEncontradoException and leaves the registry as it was.  On a
    registered id a positive counter is decremented by exactly 1 and no
    other user is touched; a counter that is already zero leaves the
    registry as it was. *)
Theorem decrementar_emprestimos_resultado
    (m : string) (us : ModuloUsuarios.Estado) :
  match Dict.get us m with
  | None =>
      ModuloUsuarios.decrementar_emprestimos m us
      = (inl UsuarioNaoEncontradoException, us)
  | Some u =>
      exists us',
        ModuloUsuarios.decrementar_emprestimos m us = (inr tt, us')
        /\ (0 < emprestimos_ativos u ->
            (exists u',
               Dict.get us' m = Some u'
               /\ emprestimos_ativos u' = emprestimos_ativos u - 1
               /\ u_status u' = u_status u /\ nome u' = nome u)
            /\ (forall m', m <> m' -> Dict.get us' m' = Dict.get us m')
            /\ Dict.keys us' = Dict.keys us)
        /\ (emprestimos_ativos u <= 0 -> us' = us)
  end.
Proof.
  destruct (Dict.get us m) as [u|] eqn:Hu.
  - unfold ModuloUsuarios.decrementar_emprestimos,
      ModuloUsuarios.obter_usuario, bind, ler, escrever, ret, levantar.
    rewrite Hu.
    destruct (0 <? emprestimos_ativos u) eqn:Hc; eexists;
      (split; [reflexivity|]); split.
    + intros _. split; [|split].
      * eexists. rewrite get_set_eq. repeat split.
      * intros m' Hne. now apply get_set_ne.
      * now apply keys_set_presente with (v0 := u).
    + apply Z.ltb_lt in Hc. lia.
    + apply Z.ltb_ge in Hc. lia.
    + reflexivity.
  - unfold ModuloUsuarios.decrementar_emprestimos,
      ModuloUsuarios.obter_usuario, bind, ler, escrever, ret, levantar.
    now rewrite Hu.
Qed.

Lemma decrementar_emprestimos_resultado_exemplo :
  (exists us',
     ModuloUsuarios.decrementar_emprestimos "U1" (modulo_usuarios ex_emprestado)
     = (inr tt, us')
     /\ (0 < 1 ->
         (exists u',
            Dict.get us' "U1" = Some u'
            /\ emprestimos_ativos u' = 1 - 1
            /\ u_status u' = U_ATIVO /\ nome u' = "Ana Souza")
         /\ (forall m', "U1" <> m' ->
                        Dict.get us' m'
                        = Dict.get (modulo_usuarios ex_emprestado) m')
         /\ Dict.keys us' = Dict.keys (modulo_usuarios ex_emprestado))
     /\ (1 <= 0 -> us' = modulo_usuarios ex_emprestado))
  /\ ModuloUsuarios.decrementar_emprestimos "U2" (modulo_usuarios ex_emprestado)
     = (inl UsuarioNaoEncontradoException, modulo_usuarios ex_emprestado).
Proof.
  split.
  - exact (decrementar_emprestimos_resultado
             "U1" (modulo_usuarios ex_emprestado)).
  - exact (decrementar_emprestimos_resultado
             "U2" (modulo_usuarios ex_emprestado)).
Defined.

(** ** Every call is one of the listed state changes *)

Lemma executar_passo (c : Chamada) (s : Sistema) :
  passo s (snd (executar c s)).
Proof.
  destruct c as [m i dias agora | id agora]; simpl.
  - rewrite registrar_emprestimo_casos.
    destruct (Dict.get (modulo_usuarios s) m) as [u|] eqn:Hu;
      [|apply passo_rejeitado].
    destruct (StatusUsuario_eqb (u_status u) BLOQUEADO);
      [apply passo_rejeitado|].
    destruct (Dict.get (modulo_catalogo s) i) as [l|] eqn:Hl;
      [|apply passo_rejeitado].
    destruct (0 <? estoque l) eqn:He; [|apply passo_rejeitado].
    destruct (par_ativo m i s) eqn:Hp; [apply passo_rejeitado|].
    destruct (prazo_representavel dias agora); simpl.
    + apply passo_emprestimo; auto. now apply Z.ltb_lt.
    + apply passo_prazo_invalido.
  - rewrite registrar_devolucao_casos.
    destruct (Dict.get (emprestimos s) id) as [e|] eqn:He;
      [|apply passo_rejeitado].
    destruct (ativo e) eqn:Ha; [|apply passo_rejeitado].
    destruct (Dict.get (modulo_catalogo s) (isbn_livro e)) as [l|] eqn:Hl;
      simpl.
    + destruct (Dict.get (modulo_usuarios s) (matricula_usuario e))
        as [u|] eqn:Hu; simpl.
      * now apply passo_devolucao.
      * now apply passo_devolucao_sem_usuario.
    + now apply passo_devolucao_sem_livro.
Qed.

(** A property kept by every state change holds all along a sequence. *)
Lemma executar_todas_invariante (P : Sistema -> Prop) :
  (forall s s', passo s s' -> P s -> P s') ->
  forall cs s, P s -> P (executar_todas cs s).
Proof.
  intros HP cs. induction cs as [|c r IH]; intros s Hs; simpl; auto.
  apply IH. apply (HP s); auto. apply executar_passo.
Qed.

(** ** The coordinator's keys *)

Lemma get_set_presente {V : Type} (d : Dict.t V) (k k' : string) (v : V) :
  Dict.get d k' <> None -> Dict.get (Dict.set d k v) k' <> None.
Proof.
  intros H. destruct (String.eqb_spec k k') as [->|Hne].
  - now rewrite get_set_eq.
  - now rewrite get_set_ne.
Qed.

Lemma id_novo (s : Sistema) :
  ids_gerados s ->
  Dict.get (emprestimos s) (formatar_id (S (contador_emprestimos s))) = None.
Proof.
  intros H. apply get_None_keys. intros Hin.
  destruct (H _ Hin) as [n [Hn Heq]].
  apply formatar_id_inj in Heq. lia.
Qed.

Lemma ids_gerados_passo (s s' : Sistema) :
  passo s s' -> ids_gerados s -> ids_gerados s'.
Proof.
  intros Hp H.
  destruct Hp as [ | m i dias agora u l Hu Hl Hest Hpar | | id agora e He Ha Hl
                 | id agora e l He Ha Hl Hu | id agora e l u He Ha Hl Hu ];
    unfold ids_gerados in *; simpl; auto.
  - rewrite (keys_set_novo _ _ _ (id_novo s H)). intros k Hin.
    apply in_app_or in Hin. destruct Hin as [Hin|[<-|[]]].
    + destruct (H _ Hin) as [n [Hn ->]]. exists n. split; [lia|reflexivity].
    + exists (S (contador_emprestimos s)). split; [lia|reflexivity].
  - intros k Hin. destruct (H _ Hin) as [n [Hn ->]].
    exists n. split; [lia|reflexivity].
  - now rewrite (keys_set_presente _ _ _ _ He).
  - now rewrite (keys_set_presente _ _ _ _ He).
  - now rewrite (keys_set_presente _ _ _ _ He).
Qed.

Lemma ids_gerados_inicial : ids_gerados sistema_inicial.
Proof. intros k []. Qed.

(** ** The user's counter mirrors the user's active loans *)

Lemma ativo_devolvido (e : Emprestimo) (agora : datetime) :
  ativo (devolvido_em e agora) = false.
Proof. reflexivity. Qed.

(** Returning a loan that is stored under [id] changes a count of active
    loans by the loan itself and by nothing else. *)
Lemma quantos_devolvido (es : Dict.t Emprestimo) (id : string)
    (e : Emprestimo) (agora : datetime) (q : Emprestimo -> bool) :
  Dict.get es id = Some e ->
  ativo e = true ->
  (quantos (fun x => q x && ativo x)
           (Dict.values (Dict.set es id (devolvido_em e agora)))
   + (if q e then 1 else 0)
   = quantos (fun x => q x && ativo x) (Dict.values es))%nat.
Proof.
  intros He Ha.
  pose proof (quantos_set_presente es id (devolvido_em e agora) e
                (fun x => q x && ativo x) He) as H.
  simpl in H. rewrite Ha, ativo_devolvido, !andb_false_r, andb_true_r in H.
  lia.
Qed.

Lemma ativos_tem_livro_passo (s s' : Sistema) :
  passo s s' -> ativos_tem_livro s -> ativos_tem_livro s'.
Proof.
  intros Hp H.
  destruct Hp as [ | m i dias agora u l Hu Hl Hest Hpar | | id agora e He Ha Hl
                 | id agora e l He Ha Hl Hu | id agora e l u He Ha Hl Hu ];
    unfold ativos_tem_livro, ModuloEmprestimo.listar_emprestimos in *;
    simpl; auto;
    intros x Hx Hax; apply In_values_set in Hx; destruct Hx as [->|Hx];
    try (rewrite ativo_devolvido in Hax; discriminate);
    try (apply get_set_presente); auto.
  simpl. now rewrite Hl.
Qed.

Lemma contador_espelha_passo (s s' : Sistema) :
  passo s s' ->
  ids_gerados s -> ativos_tem_livro s ->
  contador_espelha s -> contador_espelha s'.
Proof.
  intros Hp Hid Hliv H.
  destruct Hp as [ | m i dias agora u l Hu Hl Hest Hpar | | id agora e He Ha Hl
                 | id agora e l He Ha Hl Hu | id agora e l u He Ha Hl Hu ];
    auto.
  - (* a loan is created *)
    intros m' u'. unfold ativos_do_usuario, ModuloEmprestimo.listar_emprestimos.
    simpl. rewrite (quantos_set_novo _ _ _ _ (id_novo s Hid)).
    unfold do_usuario at 2. simpl.
    destruct (String.eqb_spec m m') as [<-|Hne].
    + rewrite get_set_eq. intros [= <-]. simpl.
      rewrite (H _ _ Hu). unfold ativos_do_usuario,
        ModuloEmprestimo.listar_emprestimos. lia.
    + rewrite get_set_ne by assumption. intros Hu'.
      rewrite (H _ _ Hu'). unfold ativos_do_usuario,
        ModuloEmprestimo.listar_emprestimos. simpl. lia.
  - (* the book of the loan is gone: excluded *)
    exfalso. apply (Hliv e); auto.
    now apply get_Some_In with (k := id).
  - (* the user of the loan is gone *)
    intros m' u'. unfold ativos_do_usuario, ModuloEmprestimo.listar_emprestimos.
    simpl. intros Hu'.
    pose proof (quantos_devolvido _ _ _ agora (do_usuario m') He Ha) as Hq.
    unfold do_usuario at 2 in Hq.
    destruct (String.eqb_spec (matricula_usuario e) m') as [<-|Hne];
      [congruence|].
    rewrite (H _ _ Hu'). unfold ativos_do_usuario,
      ModuloEmprestimo.listar_emprestimos. lia.
  - (* the loan is returned *)
    pose proof (quantos_devolvido _ _ _ agora
                  (do_usuario (matricula_usuario e)) He Ha) as Hq0.
    unfold do_usuario at 2 in Hq0. rewrite String.eqb_refl in Hq0.
    pose proof (H _ _ Hu) as Hc.
    unfold ativos_do_usuario, ModuloEmprestimo.listar_emprestimos in Hc.
    assert (Hpos : (0 <? emprestimos_ativos u) = true)
      by (apply Z.ltb_lt; lia).
    rewrite Hpos.
    intros m' u'. unfold ativos_do_usuario, ModuloEmprestimo.listar_emprestimos.
    simpl.
    destruct (String.eqb_spec (matricula_usuario e) m') as [<-|Hne].
    + rewrite get_set_eq. intros [= <-]. simpl. lia.
    + rewrite get_set_ne by assumption. intros Hu'.
      pose proof (quantos_devolvido _ _ _ agora (do_usuario m') He Ha) as Hq.
      unfold do_usuario at 2 in Hq.
      destruct (String.eqb_spec (matricula_usuario e) m'); [congruence|].
      rewrite (H _ _ Hu'). unfold ativos_do_usuario,
        ModuloEmprestimo.listar_emprestimos. lia.
Qed.

(** C1, as the specification has it, starts from any state in which every
    user's counter equals the number of that user's active loans.  Such a
    state is reached by lending a book and then removing the book from the
    catalog; in it [registrar_devolucao] marks the loan returned and then
    raises before it reaches the user's counter, which stays at 1 while the
    user has no active loan left. *)
Lemma contador_espelha_quebrado :
  ids_gerados ex_livro_removido
  /\ contador_espelha ex_livro_removido
  /\ fst (executar (Devolver "EMP-00001" 2000) ex_livro_removido)
     = inl LivroNaoEncontradoException
  /\ ~ contador_espelha
         (executar_todas [Devolver "EMP-00001" 2000] ex_livro_removido).
Proof.
  split; [|split; [|split]].
  - unfold ids_gerados.
    avaliar (Dict.keys (emprestimos ex_livro_removido)).
    intros k [<-|[]]. exists 1%nat. split; [vm_compute; lia|reflexivity].
  - intros m u. avaliar (modulo_usuarios ex_livro_removido).
    cbn [Dict.get].
    destruct (String.eqb_spec "U1" m) as [<-|]; [|discriminate].
    intros [= <-]. reflexivity.
  - reflexivity.
  - intros H.
    specialize (H "U1" (mkUsuario "U1" "Ana Souza" ALUNO U_ATIVO None None 1)
                  eq_refl).
    vm_compute in H. discriminate.
Qed.

(** C1 (amended): start from a state in which every user's counter equals
    the number of that user's active loans and, besides, every active loan
    references a book that is still in the catalog (the keys of the stored
    loans being ones the coordinator generated).  Then after every call of a
    sequence of [registrar_emprestimo] and [registrar_devolucao] calls,
    whether it returned or raised, every user's counter again equals the
    number of that user's active loans. *)
Theorem contador_espelha_sempre (s : Sistema) (cs : list Chamada) (k : nat) :
  ids_gerados s ->
  ativos_tem_livro s ->
  contador_espelha s ->
  contador_espelha (executar_todas (firstn k cs) s).
Proof.
  intros Hid Hliv Hc.
  apply (executar_todas_invariante
           (fun x => ids_gerados x /\ ativos_tem_livro x /\ contador_espelha x));
    [|now repeat split].
  intros x x' Hp [H1 [H2 H3]]. repeat split.
  - now apply (ids_gerados_passo x).
  - now apply (ativos_tem_livro_passo x).
  - now apply (contador_espelha_passo x).
Qed.

Lemma contador_espelha_sempre_exemplo :
  contador_espelha
    (executar_todas
       (firstn 3 [Emprestar "U1" "B1" 7 1000;
                  Emprestar "U1" "B1" 7 1500;
                  Devolver "EMP-00001" 2000])
       ex_cadastros).
Proof.
  apply contador_espelha_sempre.
  - intros k [].
  - intros e [].
  - intros m u. avaliar (modulo_usuarios ex_cadastros).
    cbn [Dict.get].
    destruct (String.eqb_spec "U1" m) as [<-|]; [|discriminate].
    intros [= <-]. reflexivity.
Defined.

(** ** Conservation of the copies of a book *)

Lemma conservacao_passo (i : string) (s0 : Z) (s s' : Sistema) :
  passo s s' -> ids_gerados s -> conservacao i s0 s -> conservacao i s0 s'.
Proof.
  intros Hp Hid [l0 [Hl0 Hs0]].
  unfold conservacao, ativos_do_livro, ModuloEmprestimo.listar_emprestimos
    in *.
  destruct Hp as [ | m j dias agora u l Hu Hl Hest Hpar | | id agora e He Ha Hl
                 | id agora e l He Ha Hl Hu | id agora e l u He Ha Hl Hu ];
    simpl.
  - now exists l0.
  - rewrite (quantos_set_novo _ _ _ _ (id_novo s Hid)).
    unfold do_livro at 2. simpl.
    destruct (String.eqb_spec j i) as [->|Hne]; simpl.
    + rewrite get_set_eq. eexists. split; [reflexivity|]. simpl.
      assert (l = l0) by congruence. subst. lia.
    + rewrite get_set_ne by assumption. exists l0. split; [assumption|lia].
  - now exists l0.
  - pose proof (quantos_devolvido _ _ _ agora (do_livro i) He Ha) as Hq.
    unfold do_livro at 2 in Hq.
    destruct (String.eqb_spec (isbn_livro e) i) as [Heq|Hne];
      [congruence|].
    exists l0. split; [assumption|lia].
  - pose proof (quantos_devolvido _ _ _ agora (do_livro i) He Ha) as Hq.
    unfold do_livro at 2 in Hq.
    destruct (String.eqb_spec (isbn_livro e) i) as [Heq|Hne].
    + rewrite Heq, get_set_eq. eexists. split; [reflexivity|]. simpl.
      assert (l = l0) by congruence. subst. lia.
    + rewrite get_set_ne by assumption. exists l0. split; [assumption|lia].
  - pose proof (quantos_devolvido _ _ _ agora (do_livro i) He Ha) as Hq.
    unfold do_livro at 2 in Hq.
    destruct (String.eqb_spec (isbn_livro e) i) as [Heq|Hne].
    + rewrite Heq, get_set_eq. eexists. split; [reflexivity|]. simpl.
      assert (l = l0) by congruence. subst. lia.
    + rewrite get_set_ne by assumption. exists l0. split; [assumption|lia].
Qed.

(** What a successful registration of a book leaves behind. *)
Lemma cadastrar_livro_sucesso (s s1 : Sistema) (i t a : string) (s0 : Z)
    (ed : option string) (ano : option Z) (l : Livro) :
  no_catalogo (ModuloCatalogo.cadastrar_livro i t a s0 ed ano) s = (inr l, s1) ->
  estoque l = s0
  /\ s1 = mkSistema (modulo_usuarios s) (Dict.set (modulo_catalogo s) i l)
                    (emprestimos s) (contador_emprestimos s).
Proof.
  unfold no_catalogo, ModuloCatalogo.cadastrar_livro, ModuloCatalogo.validar,
    bind, ler, escrever, ret, levantar. simpl.
  destruct (Dict.contem (modulo_catalogo s) i); [discriminate|].
  destruct (vazia i); [discriminate|].
  destruct (vazia t); [discriminate|].
  destruct (vazia a); [discriminate|].
  destruct (s0 <? 0); [discriminate|].
  intros [= <- <-]. split; reflexivity.
Qed.

(** C3, as the specification has it, holds the conservation law for every
    book and every sequence.  A book can be registered while an active loan
    still references its ISBN: the book of [ex_livro_removido] was removed
    from the catalog while on loan, and registering it again with five
    copies succeeds.  Right after that registration the stock is 5 and one
    loan is active; after the loan is returned the stock is 6 and none is
    active.  Either way the stock plus the active loans is 6, not the 5 the
    book was registered with. *)
Lemma conservacao_quebrada_por_recadastro :
  ids_gerados ex_livro_removido
  /\ ativos_do_livro "B1" ex_livro_removido = 1%nat
  /\ no_catalogo
       (ModuloCatalogo.cadastrar_livro
          "B1" "Dom Casmurro" "Machado de Assis" 5 None None)
       ex_livro_removido
     = (inr (mkLivro "B1" "Dom Casmurro" "Machado de Assis" 5 DISPONIVEL
                     None None),
        ex_recadastrado)
  /\ option_map estoque (Dict.get (modulo_catalogo ex_recadastrado) "B1")
     = Some 5
  /\ ativos_do_livro "B1" ex_recadastrado = 1%nat
  /\ ~ conservacao "B1" 5 (executar_todas (firstn 0 [Devolver "EMP-00001" 2000])
                                          ex_recadastrado)
  /\ (exists e,
        fst (executar (Devolver "EMP-00001" 2000) ex_recadastrado) = inr e)
  /\ option_map estoque
       (Dict.get
          (modulo_catalogo
             (executar_todas (firstn 1 [Devolver "EMP-00001" 2000])
                             ex_recadastrado))
          "B1")
     = Some 6
  /\ ativos_do_livro "B1"
       (executar_todas (firstn 1 [Devolver "EMP-00001" 2000]) ex_recadastrado)
     = 0%nat
  /\ ~ conservacao "B1" 5 (executar_todas (firstn 1 [Devolver "EMP-00001" 2000])
                                          ex_recadastrado).
Proof.
  assert (Hnao : forall s l n,
             Dict.get (modulo_catalogo s) "B1" = Some l ->
             estoque l + Z.of_nat (ativos_do_livro "B1" s) = n ->
             n <> 5 -> ~ conservacao "B1" 5 s).
  { intros s l n Hl Hn Hne [l' [Hl' Hc]].
    rewrite Hl in Hl'. injection Hl' as <-. congruence. }
  split; [|split; [|split; [|split; [|split; [|split;
    [|split; [|split; [|split]]]]]]]].
  - intros k Hk. vm_compute in Hk. destruct Hk as [<-|[]].
    exists 1%nat. split; [apply Nat.le_refl|reflexivity].
  - reflexivity.
  - reflexivity.
  - reflexivity.
  - reflexivity.
  - eapply Hnao; [reflexivity|reflexivity|discriminate].
  - eexists. reflexivity.
  - reflexivity.
  - reflexivity.
  - eapply Hnao; [reflexivity|reflexivity|discriminate].
Qed.

(** C3 (amended): once a book is registered with stock [s0] while no active
    loan references its ISBN, in a state whose loan ids the coordinator
    generated, after every call of every sequence of [registrar_emprestimo]
    and [registrar_devolucao] calls the book's current stock plus the
    number of active loans that reference it is [s0]. *)
Theorem conservacao_do_estoque
    (s s1 : Sistema) (i t a : string) (s0 : Z) (ed : option string)
    (ano : option Z) (l : Livro) (cs : list Chamada) (k : nat) :
  ids_gerados s ->
  ativos_do_livro i s = 0%nat ->
  no_catalogo (ModuloCatalogo.cadastrar_livro i t a s0 ed ano) s = (inr l, s1) ->
  exists l',
    Dict.get (modulo_catalogo (executar_todas (firstn k cs) s1)) i = Some l'
    /\ estoque l' + Z.of_nat (ativos_do_livro i (executar_todas (firstn k cs) s1))
       = s0.
Proof.
  intros Hid H0 Hcad.
  destruct (cadastrar_livro_sucesso _ _ _ _ _ _ _ _ _ Hcad) as [Hest ->].
  apply (executar_todas_invariante
           (fun x => ids_gerados x /\ conservacao i s0 x)).
  - intros x x' Hp [H1 H2]. split.
    + now apply (ids_gerados_passo x).
    + now apply (conservacao_passo i s0 x).
  - split; [exact Hid|].
    exists l. simpl. rewrite get_set_eq. split; [reflexivity|].
    unfold ativos_do_livro, ModuloEmprestimo.listar_emprestimos in *.
    simpl. rewrite H0. lia.
Qed.

Lemma conservacao_do_estoque_exemplo :
  exists l',
    Dict.get
      (modulo_catalogo
         (executar_todas
            (firstn 1 [Emprestar "U1" "B1" 7 1000; Devolver "EMP-00001" 2000])
            ex_cadastros))
      "B1" = Some l'
    /\ estoque l'
       + Z.of_nat
           (ativos_do_livro "B1"
              (executar_todas
                 (firstn 1 [Emprestar "U1" "B1" 7 1000;
                            Devolver "EMP-00001" 2000])
                 ex_cadastros))
       = 1.
Proof.
  apply (conservacao_do_estoque
           ex_so_usuario ex_cadastros "B1" "Dom Casmurro" "Machado de Assis"
           1 None None
           (mkLivro "B1" "Dom Casmurro" "Machado de Assis" 1 DISPONIVEL
                    None None)).
  - intros k [].
  - reflexivity.
  - reflexivity.
Defined.

Example estoque_e_contador_no_cenario :
  (* stock 1, lend: stock 0 and one active loan; return: stock 1, none *)
  option_map estoque (Dict.get (modulo_catalogo ex_emprestado) "B1") = Some 0
  /\ option_map emprestimos_ativos (Dict.get (modulo_usuarios ex_emprestado) "U1")
     = Some 1
  /\ option_map estoque (Dict.get (modulo_catalogo ex_devolvido) "B1") = Some 1
  /\ option_map emprestimos_ativos (Dict.get (modulo_usuarios ex_devolvido) "U1")
     = Some 0.
Proof. repeat split. Qed.

(** ** The counter of generated identifiers *)












Example ids_no_cenario :
  ids_emprestados
    [Emprestar "U1" "B1" 7 1000; Emprestar "U1" "B1" 7 1500;
     Devolver "EMP-00001" 2000; Emprestar "U1" "B1" 14 2500]
    ex_cadastros
  = ["EMP-00001"; "EMP-00002"]
  /\ formatar_id (100 * 1000 + 234) = "EMP-100234".
Proof. split; reflexivity. Qed.

(** ** The collection summary *)

Lemma sum_desde (l : list Z) (a : Z) : fold_left Z.add l a = a + soma l.
Proof.
  revert a. induction l as [|x r IH]; intros a; simpl.
  - lia.
  - rewrite IH. lia.
Qed.

Lemma sum_soma (l : list Z) : sum l = soma l.
Proof. unfold sum. now rewrite sum_desde. Qed.

Lemma soma_de_uns {A : Type} (l : list A) :
  soma (map (fun _ => 1) l) = Z.of_nat (List.length l).
Proof.
  induction l as [|x r IH]; [reflexivity|].
  change (1 + soma (map (fun _ : A => 1) r) = Z.of_nat (S (List.length r))).
  rewrite IH. lia.
Qed.

(** C9: [relatorio_acervo] returns normally, without changing anything,
    the number of titles of the catalog (its entries, one per distinct
    ISBN), the sum of the stock of all books and the number of books whose
    stock is 0. *)
Theorem relatorio_acervo_totais
    (isoformat : datetime -> string) (relogio : nat -> datetime)
    (s : Sistema) :
  NoDup (Dict.keys (modulo_catalogo s)) ->
  exists a,
    ModuloRelatorios.relatorio_acervo isoformat relogio s = (inr a, s)
    /\ ModuloRelatorios.total_titulos a
       = Z.of_nat (List.length
                     (nodup string_dec (Dict.keys (modulo_catalogo s))))
    /\ ModuloRelatorios.total_copias_disponiveis a
       = soma (map estoque (ModuloCatalogo.listar_livros (modulo_catalogo s)))
    /\ ModuloRelatorios.livros_indisponveis a
       = Z.of_nat (quantos (fun l => estoque l =? 0)
                           (ModuloCatalogo.listar_livros (modulo_catalogo s)))
    /\ ModuloRelatorios.data_geracao a = isoformat (relogio 0%nat).
Proof.
  intros Hnd. eexists. split; [reflexivity|]. simpl. repeat split.
  - rewrite (nodup_fixed_point string_dec Hnd).
    unfold ModuloCatalogo.listar_livros, Dict.values, Dict.keys.
    now rewrite !length_map.
  - apply sum_soma.
  - rewrite sum_soma. apply soma_de_uns.
Qed.

Lemma relatorio_acervo_totais_exemplo :
  exists a,
    ModuloRelatorios.relatorio_acervo (fun _ => "") (fun _ => 7000)
                                      ex_quatro_emprestimos
    = (inr a, ex_quatro_emprestimos)
    /\ ModuloRelatorios.total_titulos a
       = Z.of_nat
           (List.length
              (nodup string_dec
                     (Dict.keys (modulo_catalogo ex_quatro_emprestimos))))
    /\ ModuloRelatorios.total_copias_disponiveis a
       = soma (map estoque
                   (ModuloCatalogo.listar_livros
                      (modulo_catalogo ex_quatro_emprestimos)))
    /\ ModuloRelatorios.livros_indisponveis a
       = Z.of_nat
           (quantos (fun l => estoque l =? 0)
                    (ModuloCatalogo.listar_livros
                       (modulo_catalogo ex_quatro_emprestimos)))
    /\ ModuloRelatorios.data_geracao a = "".
Proof.
  apply (relatorio_acervo_totais (fun _ => "") (fun _ => 7000)
                                 ex_quatro_emprestimos).
  avaliar (Dict.keys (modulo_catalogo ex_quatro_emprestimos)).
  repeat constructor; simpl; intuition discriminate.
Defined.

Example relatorio_acervo_no_cenario :
  fst (ModuloRelatorios.relatorio_acervo (fun _ => "") (fun _ => 7000)
                                         ex_quatro_emprestimos)
  = inr (ModuloRelatorios.mkAcervo 2 0 2 "").
Proof. reflexivity. Qed.

(** ** The report of active loans *)

Section EmprestimosAtivos.

Variable isoformat : datetime -> string.
Variable relogio : nat -> datetime.






End EmprestimosAtivos.

Example relatorio_emprestimos_ativos_livro_removido :
  (* the only active loan references a removed book: empty, no exception *)
  ModuloRelatorios.relatorio_emprestimos_ativos (fun _ => "") (fun _ => 3000)
                                                ex_livro_removido
  = (inr [], ex_livro_removido).
Proof. reflexivity. Qed.

Example relatorio_emprestimos_ativos_atrasado :
  (* one microsecond after the due date: -1 day remaining *)
  fst (ModuloRelatorios.relatorio_emprestimos_ativos
         (fun _ => "") (fun _ => 604800001001) ex_emprestado)
  = inr [ModuloRelatorios.mkLinhaEmprestimo
           "EMP-00001" "Ana Souza" "Dom Casmurro" "" "" (-1)].
Proof. reflexivity. Qed.

(** ** The report of the most borrowed books *)

Lemma NoDup_keys_set {V : Type} (d : Dict.t V) (k : string) (v : V) :
  NoDup (Dict.keys d) -> NoDup (Dict.keys (Dict.set d k v)).
Proof.
  intros Hnd. destruct (Dict.get d k) as [v0|] eqn:Hk.
  - now rewrite (keys_set_presente _ _ _ _ Hk).
  - rewrite (keys_set_novo _ _ _ Hk).
    apply (Permutation_NoDup (Permutation_cons_append (Dict.keys d) k)).
    constructor; [|assumption]. now apply get_None_keys.
Qed.

Lemma valor_set (c : Dict.t Z) (k i : string) (n : Z) :
  valor (Dict.set c k n) i = if String.eqb k i then n else valor c i.
Proof.
  unfold valor. destruct (String.eqb_spec k i) as [->|Hne].
  - now rewrite get_set_eq.
  - now rewrite get_set_ne.
Qed.

(** The tally built on top of [c]: a book keeps its entry, raised by the
    number of loans of [l] that reference it. *)
Lemma contagem_desde (l : list Emprestimo) :
  forall (c : Dict.t Z) (i : string),
    Dict.get (fold_left ModuloRelatorios.contar_passo l c) i
    = if (quantos (do_livro i) l =? 0)%nat then Dict.get c i
      else Some (valor c i + Z.of_nat (quantos (do_livro i) l)).
Proof.
  unfold quantos.
  induction l as [|e r IH]; intros c i; [reflexivity|].
  simpl fold_left. rewrite IH. unfold ModuloRelatorios.contar_passo.
  fold (valor c (isbn_livro e)). rewrite valor_set.
  simpl filter. change (do_livro i e) with (String.eqb (isbn_livro e) i).
  destruct (String.eqb_spec (isbn_livro e) i) as [Heq|Hne].
  - rewrite Heq, get_set_eq. simpl List.length.
    destruct (List.length (filter (do_livro i) r)) as [|n] eqn:Hn; simpl;
      f_equal; lia.
  - rewrite get_set_ne by assumption. reflexivity.
Qed.

Lemma contagem_NoDup (l : list Emprestimo) :
  forall c : Dict.t Z,
    NoDup (Dict.keys c) ->
    NoDup (Dict.keys (fold_left ModuloRelatorios.contar_passo l c)).
Proof.
  induction l as [|e r IH]; intros c Hc; simpl; auto.
  apply IH. now apply NoDup_keys_set.
Qed.

Lemma inserir_perm (x : string * Z) (l : list (string * Z)) :
  Permutation (inserir x l) (x :: l).
Proof.
  induction l as [|y r IH]; simpl; auto.
  destruct (snd x <? snd y); auto.
  rewrite IH. apply perm_swap.
Qed.

Lemma sorted_reverse_perm (l : list (string * Z)) :
  Permutation (sorted_reverse l) l.
Proof.
  induction l as [|x r IH]; simpl; auto.
  rewrite inserir_perm. now constructor.
Qed.

Lemma inserir_ordenada (x : string * Z) (l : list (string * Z)) :
  StronglySorted nao_abaixo l -> StronglySorted nao_abaixo (inserir x l).
Proof.
  induction l as [|y r IH]; intros Hs; simpl.
  - repeat constructor.
  - inversion Hs as [|? ? Hr Hy]; subst.
    destruct (snd x <? snd y) eqn:Hxy.
    + constructor; [now apply IH|].
      apply (Permutation_Forall (Permutation_sym (inserir_perm x r))).
      constructor; [|assumption].
      unfold nao_abaixo. apply Z.ltb_lt in Hxy. lia.
    + constructor; [assumption|].
      apply Z.ltb_ge in Hxy. constructor; [exact Hxy|].
      eapply Forall_impl; [|exact Hy].
      unfold nao_abaixo. intros z Hz. lia.
Qed.

Lemma sorted_reverse_ordenada (l : list (string * Z)) :
  StronglySorted nao_abaixo (sorted_reverse l).
Proof.
  induction l as [|x r IH]; simpl; [constructor|].
  now apply inserir_ordenada.
Qed.

(** Inserting moves [x] only past entries with a larger count, so among the
    entries of any one count the order is untouched. *)
Lemma inserir_estavel (n : Z) (x : string * Z) (l : list (string * Z)) :
  filter (fun p => snd p =? n) (inserir x l)
  = filter (fun p => snd p =? n) (x :: l).
Proof.
  induction l as [|y r IH]; [reflexivity|].
  simpl inserir. destruct (snd x <? snd y) eqn:Hxy; [|reflexivity].
  apply Z.ltb_lt in Hxy.
  simpl filter in *. rewrite IH.
  destruct (Z.eqb_spec (snd x) n), (Z.eqb_spec (snd y) n);
    try reflexivity; lia.
Qed.

Lemma sorted_reverse_estavel (n : Z) (l : list (string * Z)) :
  filter (fun p => snd p =? n) (sorted_reverse l)
  = filter (fun p => snd p =? n) l.
Proof.
  induction l as [|x r IH]; [reflexivity|].
  simpl sorted_reverse. rewrite inserir_estavel. simpl. now rewrite IH.
Qed.

Lemma juntar_livros_linhas (ls : ModuloCatalogo.Estado)
    (l : list (string * Z)) :
  forall resultado,
    ModuloRelatorios.juntar_livros l resultado ls
    = (inr (resultado ++ flat_map (linha_livro ls) l), ls).
Proof.
  induction l as [|[i q] r IH]; intros resultado.
  - simpl. unfold ret. now rewrite app_nil_r.
  - simpl ModuloRelatorios.juntar_livros.
    unfold bind, tentar_tudo, ModuloCatalogo.obter_livro, ler, ret, levantar.
    simpl flat_map. unfold linha_livro at 1. cbn.
    destruct (Dict.get ls i) as [b|]; cbn.
    + rewrite IH, <- app_assoc. reflexivity.
    + apply IH.
Qed.

Lemma fatiar_ate_nao_negativo {A : Type} (l : list A) (n : Z) :
  0 <= n -> fatiar_ate l n = firstn (Z.to_nat n) l.
Proof.
  intros Hn. unfold fatiar_ate.
  destruct (Z.leb_spec 0 n); [reflexivity|lia].
Qed.

(** C7, as the specification has it, holds for every limit.  The report
    slices the ranking with [[:limite]], and a negative bound counts from
    the end of the list: with two books in the ranking and limit -1 the
    report keeps one entry, where truncating to the first [limite] entries
    leaves none. *)
Lemma relatorio_limite_negativo :
  fst (ModuloRelatorios.relatorio_livros_mais_emprestados (-1) ex_empate)
  = inr [ModuloRelatorios.mkLinhaLivro
           "B2" "Quincas Borba" "Machado de Assis" 1]
  /\ flat_map (linha_livro (modulo_catalogo ex_empate))
       (firstn (Z.to_nat (-1))
          (sorted_reverse
             (Dict.items
                (ModuloRelatorios.contagem_emprestimos
                   (ModuloEmprestimo.listar_emprestimos ex_empate)))))
     = [].
Proof. split; reflexivity. Qed.

(** C7 (amended): for every loan history and every limit that is not
    negative, [relatorio_livros_mais_emprestados] returns normally and
    changes nothing.  Its tally holds one count per book id, the number of
    loans of that book, active or returned.  The ranking is the tally
    sorted by descending count, entries with equal counts staying in the
    tally's own order.  The report is made from the first [limite] entries
    of the ranking, leaving out every entry whose book is no longer in the
    catalog. *)
Theorem relatorio_livros_mais_emprestados_linhas (limite : Z) (s : Sistema) :
  0 <= limite ->
  let todos := ModuloEmprestimo.listar_emprestimos s in
  let contagem := ModuloRelatorios.contagem_emprestimos todos in
  let ordenados := sorted_reverse (Dict.items contagem) in
  (forall i,
     Dict.get contagem i
     = if (quantos (do_livro i) todos =? 0)%nat then None
       else Some (Z.of_nat (quantos (do_livro i) todos)))
  /\ NoDup (Dict.keys contagem)
  /\ Permutation ordenados (Dict.items contagem)
  /\ StronglySorted nao_abaixo ordenados
  /\ (forall n,
        filter (fun p => snd p =? n) ordenados
        = filter (fun p => snd p =? n) (Dict.items contagem))
  /\ ModuloRelatorios.relatorio_livros_mais_emprestados limite s
     = (inr (flat_map (linha_livro (modulo_catalogo s))
                      (firstn (Z.to_nat limite) ordenados)),
        s).
Proof.
  intros Hlim todos contagem ordenados.
  split; [|split; [|split; [|split; [|split]]]].
  - intros i. unfold contagem, ModuloRelatorios.contagem_emprestimos.
    rewrite contagem_desde. unfold valor. simpl.
    now destruct (quantos (do_livro i) todos =? 0)%nat.
  - apply contagem_NoDup. constructor.
  - apply sorted_reverse_perm.
  - apply sorted_reverse_ordenada.
  - intros n. apply sorted_reverse_estavel.
  - unfold ModuloRelatorios.relatorio_livros_mais_emprestados, bind, ler,
      no_catalogo.
    rewrite juntar_livros_linhas, fatiar_ate_nao_negativo by assumption.
    simpl. now rewrite sistema_eta.
Qed.

Lemma relatorio_livros_mais_emprestados_cenario :
  ModuloRelatorios.relatorio_livros_mais_emprestados 10 ex_quatro_emprestimos
  = (inr [ModuloRelatorios.mkLinhaLivro
            "B1" "Dom Casmurro" "Machado de Assis" 3;
          ModuloRelatorios.mkLinhaLivro
            "B2" "Quincas Borba" "Machado de Assis" 1],
     ex_quatro_emprestimos).
Proof.
  assert (H : 0 <= 10) by lia.
  exact (proj2 (proj2 (proj2 (proj2 (proj2
           (relatorio_livros_mais_emprestados_linhas
              10 ex_quatro_emprestimos H)))))).
Defined.

Example relatorio_livros_empate :
  (* equal counts: the order of the tally, B2 first, is kept *)
  fst (ModuloRelatorios.relatorio_livros_mais_emprestados 10 ex_empate)
  = inr [ModuloRelatorios.mkLinhaLivro
           "B2" "Quincas Borba" "Machado de Assis" 1;
         ModuloRelatorios.mkLinhaLivro
           "B1" "Dom Casmurro" "Machado de Assis" 1].
Proof. reflexivity. Qed.

Example relatorio_livros_livro_removido :
  (* the only counted book was removed from the catalog: it is skipped *)
  ModuloRelatorios.relatorio_livros_mais_emprestados 10 ex_livro_removido
  = (inr [], ex_livro_removido).
Proof. reflexivity. Qed.

(** ** The assumptions on states hold of every state the classes reach *)

(** No method of the two registries touches the coordinator's loans or its
    counter. *)
Lemma ids_gerados_nos_usuarios {A : Type} (m : Met ModuloUsuarios.Estado A)
    (s : Sistema) :
  ids_gerados s -> ids_gerados (snd (nos_usuarios m s)).
Proof.
  unfold nos_usuarios, ids_gerados.
  destruct (m (modulo_usuarios s)) as [r us]. simpl. auto.
Qed.

Lemma ids_gerados_no_catalogo {A : Type} (m : Met ModuloCatalogo.Estado A)
    (s : Sistema) :
  ids_gerados s -> ids_gerados (snd (no_catalogo m s)).
Proof.
  unfold no_catalogo, ids_gerados.
  destruct (m (modulo_catalogo s)) as [r ls]. simpl. auto.
Qed.

Lemma ids_gerados_executar_todas (cs : list Chamada) (s : Sistema) :
  ids_gerados s -> ids_gerados (executar_todas cs s).
Proof.
  apply (executar_todas_invariante ids_gerados). intros x x' Hp.
  now apply ids_gerados_passo.
Qed.

Lemma In_keys_del {V : Type} (d : Dict.t V) (k k' : string) :
  In k' (Dict.keys (Dict.del d k)) -> In k' (Dict.keys d).
Proof.
  induction d as [|[k0 v0] r IH]; simpl; auto.
  destruct (String.eqb k0 k); simpl; tauto.
Qed.

Lemma NoDup_keys_del {V : Type} (d : Dict.t V) (k : string) :
  NoDup (Dict.keys d) -> NoDup (Dict.keys (Dict.del d k)).
Proof.
  induction d as [|[k0 v0] r IH]; simpl; auto.
  intros Hnd. inversion Hnd as [|? ? Hin Hr]; subst.
  destruct (String.eqb k0 k); simpl; auto.
  constructor; auto. intros H. apply Hin. now apply In_keys_del in H.
Qed.

(** The catalog never holds two entries under one ISBN. *)
Lemma catalogo_sem_repeticao (ls : ModuloCatalogo.Estado) :
  NoDup (Dict.keys ls) ->
  (forall i t a e ed ano,
      NoDup (Dict.keys
               (snd (ModuloCatalogo.cadastrar_livro i t a e ed ano ls))))
  /\ (forall i, NoDup (Dict.keys (snd (ModuloCatalogo.remover_livro i ls))))
  /\ (forall i,
        NoDup (Dict.keys (snd (ModuloCatalogo.decrementar_estoque i ls))))
  /\ (forall i,
        NoDup (Dict.keys (snd (ModuloCatalogo.incrementar_estoque i ls)))).
Proof.
  intros Hnd.
  unfold ModuloCatalogo.cadastrar_livro, ModuloCatalogo.remover_livro,
    ModuloCatalogo.decrementar_estoque, ModuloCatalogo.incrementar_estoque,
    ModuloCatalogo.validar, ModuloCatalogo.obter_livro,
    bind, ler, escrever, ret, levantar.
  repeat split; intros; simpl.
  - destruct (Dict.contem ls i); simpl; auto.
    destruct (vazia i); simpl; auto.
    destruct (vazia t); simpl; auto.
    destruct (vazia a); simpl; auto.
    destruct (e <? 0); simpl; auto.
    now apply NoDup_keys_set.
  - destruct (Dict.get ls i); simpl; auto. now apply NoDup_keys_del.
  - destruct (Dict.get ls i) as [l|]; simpl; auto.
    destruct (estoque l <=? 0); simpl; auto. now apply NoDup_keys_set.
  - destruct (Dict.get ls i) as [l|]; simpl; auto.
    now apply NoDup_keys_set.
Qed.

(** * Further properties of the registries, the coordinator and the reports *)

(** ** More on dictionaries *)

Lemma get_del_ne {V : Type} (d : Dict.t V) (k k' : string) :
  k <> k' -> Dict.get (Dict.del d k) k' = Dict.get d k'.
Proof.
  intros Hne. induction d as [|[k0 v0] r IH]; simpl; auto.
  destruct (String.eqb_spec k0 k) as [->|H0]; simpl.
  - destruct (String.eqb_spec k k'); congruence.
  - now rewrite IH.
Qed.

Lemma get_del_eq {V : Type} (d : Dict.t V) (k : string) :
  NoDup (Dict.keys d) -> Dict.get (Dict.del d k) k = None.
Proof.
  induction d as [|[k0 v0] r IH]; simpl; auto.
  intros Hnd. inversion Hnd as [|? ? Hin Hr]; subst.
  destruct (String.eqb_spec k0 k) as [->|H0]; simpl.
  - now apply get_None_keys.
  - destruct (String.eqb_spec k0 k); [congruence|]. now apply IH.
Qed.

Lemma In_values_del {V : Type} (d : Dict.t V) (k : string) (x : V) :
  In x (Dict.values (Dict.del d k)) -> In x (Dict.values d).
Proof.
  induction d as [|[k0 v0] r IH]; simpl; auto.
  destruct (String.eqb k0 k); simpl; tauto.
Qed.

Lemma set_get_mesmo {V : Type} (d : Dict.t V) (k : string) (v : V) :
  Dict.get d k = Some v -> Dict.set d k v = d.
Proof.
  induction d as [|[k0 v0] r IH]; simpl; [discriminate|].
  destruct (String.eqb_spec k0 k) as [->|H0].
  - now intros [= ->].
  - intros H. now rewrite IH.
Qed.

Lemma set_set {V : Type} (d : Dict.t V) (k : string) (v v' : V) :
  Dict.set (Dict.set d k v) k v' = Dict.set d k v'.
Proof.
  induction d as [|[k0 v0] r IH]; simpl.
  - now rewrite String.eqb_refl.
  - destruct (String.eqb k0 k) eqn:E; simpl; rewrite E; [reflexivity|].
    now rewrite IH.
Qed.

Lemma keys_set_get {V : Type} (d : Dict.t V) (k : string) (v : V) :
  Dict.get d k <> None -> Dict.keys (Dict.set d k v) = Dict.keys d.
Proof.
  destruct (Dict.get d k) as [v0|] eqn:H; [|congruence].
  intros _. now apply keys_set_presente with (v0 := v0).
Qed.

Lemma In_items_get {V : Type} (d : Dict.t V) (k : string) (v : V) :
  NoDup (Dict.keys d) -> In (k, v) d -> Dict.get d k = Some v.
Proof.
  induction d as [|[k0 v0] r IH]; simpl; [tauto|].
  intros Hnd. inversion Hnd as [|? ? Hin Hr]; subst.
  intros [[= -> ->]|H].
  - now rewrite String.eqb_refl.
  - destruct (String.eqb_spec k0 k) as [->|H0]; [|now apply IH].
    exfalso. apply Hin. change (In (fst (k, v)) (map fst r)).
    now apply in_map.
Qed.

Lemma contem_get {V : Type} (d : Dict.t V) (k : string) :
  Dict.contem d k = true <-> Dict.get d k <> None.
Proof.
  unfold Dict.contem. destruct (Dict.get d k); split; congruence.
Qed.

(** ** Registration *)

Lemma cadastrar_usuario_casos
    (m n : string) (tp : TipoUsuario) (em tel : option string)
    (us : ModuloUsuarios.Estado) :
  ModuloUsuarios.cadastrar_usuario m n tp em tel us
  = if negb (Dict.contem us m) && negb (vazia m)
       && (3 <=? len n)%nat && (len n <=? 100)%nat
    then (inr (usuario_novo m n tp em tel),
          Dict.set us m (usuario_novo m n tp em tel))
    else (inl ValidacaoException, us).
Proof.
  unfold ModuloUsuarios.cadastrar_usuario, ModuloUsuarios.validar,
    bind, ler, escrever, ret, levantar.
  cbv beta. cbn [matricula nome usuario_novo].
  destruct (Dict.contem us m); cbn [negb andb]; [reflexivity|].
  destruct (vazia m); cbn [negb andb]; [reflexivity|].
  destruct (3 <=? len n)%nat eqn:H3; cbn [negb andb].
  - apply Nat.leb_le in H3.
    assert (Hv : vazia n = false)
      by (destruct n; [simpl in H3; lia|reflexivity]).
    assert (Hl : (len n <? 3)%nat = false)
      by (apply Nat.ltb_ge; lia).
    rewrite Hv, Hl.
    destruct (len n <=? 100)%nat eqn:H100.
    + apply Nat.leb_le in H100.
      assert (Hg : (100 <? len n)%nat = false)
        by (apply Nat.ltb_ge; lia).
      now rewrite Hg.
    + apply Nat.leb_gt in H100.
      assert (Hg : (100 <? len n)%nat = true)
        by (apply Nat.ltb_lt; lia).
      now rewrite Hg.
  - apply Nat.leb_gt in H3. destruct (vazia n); [reflexivity|].
    assert (Hl : (len n <? 3)%nat = true)
      by (apply Nat.ltb_lt; lia).
    now rewrite Hl.
Qed.

(** X1: [cadastrar_usuario] accepts a registration exactly when the
    matrícula is new and not empty and the name has 3 to 100 characters.
    It then stores a user that is active and has no loans, which
    [obter_usuario] returns, and leaves every other user as it was;
    otherwise it raises ValidacaoException and the registry is unchanged. *)
Theorem cadastrar_usuario_resultado
    (m n : string) (tp : TipoUsuario) (em tel : option string)
    (us : ModuloUsuarios.Estado) :
  if negb (Dict.contem us m) && negb (vazia m)
     && (3 <=? len n)%nat && (len n <=? 100)%nat
  then
    ModuloUsuarios.cadastrar_usuario m n tp em tel us
    = (inr (usuario_novo m n tp em tel),
       Dict.set us m (usuario_novo m n tp em tel))
    /\ ModuloUsuarios.obter_usuario m
         (Dict.set us m (usuario_novo m n tp em tel))
       = (inr (usuario_novo m n tp em tel),
          Dict.set us m (usuario_novo m n tp em tel))
    /\ (forall m', m <> m' ->
          Dict.get (Dict.set us m (usuario_novo m n tp em tel)) m'
          = Dict.get us m')
  else
    ModuloUsuarios.cadastrar_usuario m n tp em tel us
    = (inl ValidacaoException, us).
Proof.
  rewrite cadastrar_usuario_casos.
  destruct (negb (Dict.contem us m) && negb (vazia m)
            && (3 <=? len n)%nat && (len n <=? 100)%nat);
    [|reflexivity].
  unfold ModuloUsuarios.obter_usuario, bind, ler, ret, levantar.
  rewrite get_set_eq. repeat split.
  intros m' Hne. now apply get_set_ne.
Qed.

(** Names are measured in characters, not in bytes of their encoding. *)
Example len_conta_caracteres :
  len "Zé" = 2%nat /\ String.length "Zé" = 3%nat
  /\ len "José" = 4%nat
  /\ len (nome_acentuado 51) = 51%nat
  /\ String.length (nome_acentuado 51) = 102%nat.
Proof. repeat split. Qed.

Example cadastrar_usuario_nome_de_dois_caracteres :
  (* two characters in three bytes: too short *)
  ModuloUsuarios.cadastrar_usuario "U2" "Zé" ALUNO None None
    ModuloUsuarios.init
  = (inl ValidacaoException, ModuloUsuarios.init).
Proof. reflexivity. Qed.

Example cadastrar_usuario_nome_acentuado :
  (* 51 and 100 characters, in 102 and 200 bytes: accepted; 101: too long *)
  fst (ModuloUsuarios.cadastrar_usuario "U2" (nome_acentuado 51) ALUNO None
         None ModuloUsuarios.init)
  = inr (usuario_novo "U2" (nome_acentuado 51) ALUNO None None)
  /\ fst (ModuloUsuarios.cadastrar_usuario "U2" (nome_acentuado 100) ALUNO
            None None ModuloUsuarios.init)
     = inr (usuario_novo "U2" (nome_acentuado 100) ALUNO None None)
  /\ ModuloUsuarios.cadastrar_usuario "U2" (nome_acentuado 101) ALUNO None
       None ModuloUsuarios.init
     = (inl ValidacaoException, ModuloUsuarios.init).
Proof. repeat split. Qed.

Example editar_usuario_nome_de_dois_caracteres :
  ModuloUsuarios.editar_usuario "U1" (Some "Zé") None None None
    (modulo_usuarios ex_cadastros)
  = (inl ValidacaoException, modulo_usuarios ex_cadastros).
Proof. reflexivity. Qed.


Lemma cadastrar_livro_casos
    (i t a : string) (e : Z) (ed : option string) (ano : option Z)
    (ls : ModuloCatalogo.Estado) :
  ModuloCatalogo.cadastrar_livro i t a e ed ano ls
  = if negb (Dict.contem ls i) && negb (vazia i) && negb (vazia t)
       && negb (vazia a) && (0 <=? e)
    then (inr (livro_novo i t a e ed ano),
          Dict.set ls i (livro_novo i t a e ed ano))
    else (inl ValidacaoException, ls).
Proof.
  unfold ModuloCatalogo.cadastrar_livro, ModuloCatalogo.validar,
    bind, ler, escrever, ret, levantar.
  cbv beta. cbn [isbn titulo autor estoque livro_novo].
  destruct (Dict.contem ls i); cbn [negb andb]; [reflexivity|].
  destruct (vazia i); cbn [negb andb]; [reflexivity|].
  destruct (vazia t); cbn [negb andb]; [reflexivity|].
  destruct (vazia a); cbn [negb andb]; [reflexivity|].
  destruct (0 <=? e) eqn:He.
  - apply Z.leb_le in He.
    assert (Hn : (e <? 0) = false) by (apply Z.ltb_ge; lia).
    now rewrite Hn.
  - apply Z.leb_gt in He.
    assert (Hn : (e <? 0) = true) by (apply Z.ltb_lt; lia).
    now rewrite Hn.
Qed.

(** X2: [cadastrar_livro] accepts a registration exactly when the ISBN is
    new and ISBN, title and author are not empty and the stock is not
    negative.  It then stores the book with that stock, which
    [obter_livro] returns, and leaves every other book as it was; otherwise
    it raises ValidacaoException and the catalog is unchanged. *)
Theorem cadastrar_livro_resultado
    (i t a : string) (e : Z) (ed : option string) (ano : option Z)
    (ls : ModuloCatalogo.Estado) :
  if negb (Dict.contem ls i) && negb (vazia i) && negb (vazia t)
     && negb (vazia a) && (0 <=? e)
  then
    ModuloCatalogo.cadastrar_livro i t a e ed ano ls
    = (inr (livro_novo i t a e ed ano),
       Dict.set ls i (livro_novo i t a e ed ano))
    /\ ModuloCatalogo.obter_livro i (Dict.set ls i (livro_novo i t a e ed ano))
       = (inr (livro_novo i t a e ed ano),
          Dict.set ls i (livro_novo i t a e ed ano))
    /\ ModuloCatalogo.verificar_disponibilidade i
         (Dict.set ls i (livro_novo i t a e ed ano))
       = (inr (0 <? e), Dict.set ls i (livro_novo i t a e ed ano))
    /\ (forall i', i <> i' ->
          Dict.get (Dict.set ls i (livro_novo i t a e ed ano)) i'
          = Dict.get ls i')
  else
    ModuloCatalogo.cadastrar_livro i t a e ed ano ls
    = (inl ValidacaoException, ls).
Proof.
  rewrite cadastrar_livro_casos.
  destruct (negb (Dict.contem ls i) && negb (vazia i) && negb (vazia t)
            && negb (vazia a) && (0 <=? e)); [|reflexivity].
  unfold ModuloCatalogo.verificar_disponibilidade,
    ModuloCatalogo.obter_livro, bind, ler, ret, levantar.
  rewrite get_set_eq. repeat split.
  intros i' Hne. now apply get_set_ne.
Qed.

(** ** Editing *)

Lemma editar_livro_casos (i : string) (t a ed : option string)
    (ano : option Z) (ls : ModuloCatalogo.Estado) :
  ModuloCatalogo.editar_livro i t a ed ano ls
  = match Dict.get ls i with
    | None => (inl LivroNaoEncontradoException, ls)
    | Some l =>
        let l' := atribuido com_ano_publicacao
                    (atribuido com_editora
                       (atribuido com_autor (atribuido com_titulo l t) a) ed)
                    ano in
        (inr l', Dict.set ls i l')
    end.
Proof.
  unfold ModuloCatalogo.editar_livro, ModuloCatalogo.obter_livro,
    ModuloCatalogo.atribuir, bind, ler, escrever, ret, levantar.
  destruct (Dict.get ls i) as [l|] eqn:Hl; [|reflexivity].
  destruct t, a, ed, ano; cbn; rewrite ?set_set;
    rewrite ?(set_get_mesmo _ _ _ Hl); reflexivity.
Qed.

Lemma editar_usuario_casos (m : string) (n : option string)
    (tp : option TipoUsuario) (em tel : option string)
    (us : ModuloUsuarios.Estado) :
  ModuloUsuarios.editar_usuario m n tp em tel us
  = match Dict.get us m with
    | None => (inl UsuarioNaoEncontradoException, us)
    | Some u =>
        if match n with
           | Some n' => (len n' <? 3)%nat
           | None => false
           end
        then (inl ValidacaoException, us)
        else
          let u' := atribuido com_telefone
                      (atribuido com_email
                         (atribuido com_tipo (atribuido com_nome u n) tp) em)
                      tel in
          (inr u', Dict.set us m u')
    end.
Proof.
  unfold ModuloUsuarios.editar_usuario, ModuloUsuarios.obter_usuario,
    ModuloUsuarios.atribuir, bind, ler, escrever, ret, levantar.
  destruct (Dict.get us m) as [u|] eqn:Hu; [|reflexivity].
  destruct n as [n'|]; [destruct (len n' <? 3)%nat; [reflexivity|]|];
    destruct tp, em, tel; cbn; rewrite ?set_set;
    rewrite ?(set_get_mesmo _ _ _ Hu); reflexivity.
Qed.

(** X3: [editar_usuario] of a registered user fails only on a new name of
    fewer than 3 characters (ValidacaoException, registry unchanged); the
    100-character bound of registration is not checked here.  A successful
    edit assigns the given fields and never changes the matrícula, the
    status or the counter of active loans; the user stays under the same
    key and no other user is touched. *)
Theorem editar_usuario_resultado
    (m : string) (n : option string) (tp : option TipoUsuario)
    (em tel : option string) (us : ModuloUsuarios.Estado) (u : Usuario) :
  Dict.get us m = Some u ->
  (forall n', n = Some n' -> (len n' < 3)%nat ->
     ModuloUsuarios.editar_usuario m n tp em tel us
     = (inl ValidacaoException, us))
  /\ ((forall n', n = Some n' -> (3 <= len n')%nat) ->
      exists u' us',
        ModuloUsuarios.editar_usuario m n tp em tel us = (inr u', us')
        /\ Dict.get us' m = Some u'
        /\ nome u' = match n with Some n' => n' | None => nome u end
        /\ tipo u' = match tp with Some t => t | None => tipo u end
        /\ email u' = match em with Some x => Some x | None => email u end
        /\ telefone u'
           = match tel with Some x => Some x | None => telefone u end
        /\ matricula u' = matricula u
        /\ u_status u' = u_status u
        /\ emprestimos_ativos u' = emprestimos_ativos u
        /\ (forall m', m <> m' -> Dict.get us' m' = Dict.get us m')
        /\ Dict.keys us' = Dict.keys us).
Proof.
  intros Hu. rewrite editar_usuario_casos, Hu. split.
  - intros n' -> Hlt. apply Nat.ltb_lt in Hlt. now rewrite Hlt.
  - intros Hn.
    assert (Hc : match n with
                 | Some n' => (len n' <? 3)%nat
                 | None => false
                 end = false).
    { destruct n as [n'|]; [|reflexivity].
      apply Nat.ltb_ge. now apply Hn. }
    rewrite Hc. cbv zeta. eexists. eexists. split; [reflexivity|].
    rewrite get_set_eq. split; [reflexivity|].
    repeat split; try (destruct n, tp, em, tel; reflexivity).
    + intros m' Hne. now apply get_set_ne.
    + now apply keys_set_presente with (v0 := u).
Qed.

Lemma editar_usuario_resultado_exemplo :
  (forall n', Some "Ana Maria Souza" = Some n' -> (len n' < 3)%nat ->
     ModuloUsuarios.editar_usuario "U1" (Some "Ana Maria Souza") (Some PROFESSOR)
                                   None None (modulo_usuarios ex_emprestado)
     = (inl ValidacaoException, modulo_usuarios ex_emprestado))
  /\ ((forall n', Some "Ana Maria Souza" = Some n' ->
                  (3 <= len n')%nat) ->
      exists u' us',
        ModuloUsuarios.editar_usuario "U1" (Some "Ana Maria Souza")
          (Some PROFESSOR) None None (modulo_usuarios ex_emprestado)
        = (inr u', us')
        /\ Dict.get us' "U1" = Some u'
        /\ nome u' = "Ana Maria Souza"
        /\ tipo u' = PROFESSOR
        /\ email u' = None
        /\ telefone u' = None
        /\ matricula u' = "U1"
        /\ u_status u' = U_ATIVO
        /\ emprestimos_ativos u' = 1
        /\ (forall m', "U1" <> m' ->
              Dict.get us' m' = Dict.get (modulo_usuarios ex_emprestado) m')
        /\ Dict.keys us' = Dict.keys (modulo_usuarios ex_emprestado)).
Proof.
  apply (editar_usuario_resultado
           "U1" (Some "Ana Maria Souza") (Some PROFESSOR) None None
           (modulo_usuarios ex_emprestado)
           (mkUsuario "U1" "Ana Souza" ALUNO U_ATIVO None None 1)).
  reflexivity.
Defined.

(** X4: [editar_livro] of a registered ISBN never fails, whatever the new
    values (an empty title included: the checks of registration are not run
    again).  It assigns the given fields and never changes the ISBN, the
    stock or the status; the book stays under the same key and no other
    book is touched.  On an unknown ISBN it raises
    LivroNaoEncontradoException and the catalog is unchanged. *)
Theorem editar_livro_resultado
    (i : string) (t a ed : option string) (ano : option Z)
    (ls : ModuloCatalogo.Estado) :
  match Dict.get ls i with
  | None =>
      ModuloCatalogo.editar_livro i t a ed ano ls
      = (inl LivroNaoEncontradoException, ls)
  | Some l =>
      exists l' ls',
        ModuloCatalogo.editar_livro i t a ed ano ls = (inr l', ls')
        /\ Dict.get ls' i = Some l'
        /\ titulo l' = match t with Some x => x | None => titulo l end
        /\ autor l' = match a with Some x => x | None => autor l end
        /\ editora l' = match ed with Some x => Some x | None => editora l end
        /\ ano_publicacao l'
           = match ano with Some x => Some x | None => ano_publicacao l end
        /\ isbn l' = isbn l
        /\ estoque l' = estoque l
        /\ l_status l' = l_status l
        /\ (forall i', i <> i' -> Dict.get ls' i' = Dict.get ls i')
        /\ Dict.keys ls' = Dict.keys ls
  end.
Proof.
  rewrite editar_livro_casos.
  destruct (Dict.get ls i) as [l|] eqn:Hl; [|reflexivity].
  cbv zeta. eexists. eexists. split; [reflexivity|].
  rewrite get_set_eq. split; [reflexivity|].
  repeat split; try (destruct t, a, ed, ano; reflexivity).
  - intros i' Hne. now apply get_set_ne.
  - now apply keys_set_presente with (v0 := l).
Qed.

(** ** Removal of a user *)

(** X5: [remover_usuario] raises UsuarioNaoEncontradoException on an
    unknown matrícula and UsuarioPossuiEmprestimosAtivosException on a user
    whose counter of active loans is positive, leaving the registry as it
    was.  Otherwise it returns True and the user is gone: [obter_usuario]
    no longer finds the matrícula, and every other user is as before. *)
Theorem remover_usuario_resultado (m : string) (us : ModuloUsuarios.Estado) :
  NoDup (Dict.keys us) ->
  match Dict.get us m with
  | None =>
      ModuloUsuarios.remover_usuario m us
      = (inl UsuarioNaoEncontradoException, us)
  | Some u =>
      if 0 <? emprestimos_ativos u then
        ModuloUsuarios.remover_usuario m us
        = (inl UsuarioPossuiEmprestimosAtivosException, us)
      else
        ModuloUsuarios.remover_usuario m us = (inr true, Dict.del us m)
        /\ ModuloUsuarios.obter_usuario m (Dict.del us m)
           = (inl UsuarioNaoEncontradoException, Dict.del us m)
        /\ (forall m', m <> m' ->
              Dict.get (Dict.del us m) m' = Dict.get us m')
        /\ NoDup (Dict.keys (Dict.del us m))
  end.
Proof.
  intros Hnd.
  unfold ModuloUsuarios.remover_usuario, ModuloUsuarios.obter_usuario,
    bind, ler, escrever, ret, levantar.
  destruct (Dict.get us m) as [u|] eqn:Hu; [|reflexivity].
  destruct (0 <? emprestimos_ativos u); [reflexivity|].
  rewrite (get_del_eq us m Hnd). repeat split.
  - intros m' Hne. now apply get_del_ne.
  - now apply NoDup_keys_del.
Qed.

Lemma remover_usuario_resultado_exemplo :
  ModuloUsuarios.remover_usuario "U1" (modulo_usuarios ex_emprestado)
  = (inl UsuarioPossuiEmprestimosAtivosException,
     modulo_usuarios ex_emprestado).
Proof.
  assert (H : NoDup (Dict.keys (modulo_usuarios ex_emprestado))).
  { avaliar (Dict.keys (modulo_usuarios ex_emprestado)).
    repeat constructor. intros []. }
  exact (remover_usuario_resultado "U1" (modulo_usuarios ex_emprestado) H).
Defined.

(** ** The stock of a book *)

Lemma com_estoque_volta (l : Livro) (a : Z) :
  com_estoque (com_estoque l a) (estoque l) = l.
Proof. now destruct l. Qed.

(** X6: on a book with a positive stock, [decrementar_estoque] returns the
    stock minus 1 and [incrementar_estoque] right after it returns the
    original stock and restores the catalog exactly; the same holds the
    other way round on a book whose stock is not negative.  On a book
    whose stock is zero [decrementar_estoque] raises
    EstoqueInsuficienteException and changes nothing. *)
Theorem estoque_ida_e_volta
    (i : string) (ls : ModuloCatalogo.Estado) (l : Livro) :
  Dict.get ls i = Some l ->
  (0 < estoque l ->
   exists ls1,
     ModuloCatalogo.decrementar_estoque i ls = (inr (estoque l - 1), ls1)
     /\ ModuloCatalogo.incrementar_estoque i ls1 = (inr (estoque l), ls))
  /\ (estoque l <= 0 ->
      ModuloCatalogo.decrementar_estoque i ls
      = (inl EstoqueInsuficienteException, ls))
  /\ (0 <= estoque l ->
      exists ls1,
        ModuloCatalogo.incrementar_estoque i ls = (inr (estoque l + 1), ls1)
        /\ ModuloCatalogo.decrementar_estoque i ls1 = (inr (estoque l), ls)).
Proof.
  intros Hl.
  unfold ModuloCatalogo.decrementar_estoque,
    ModuloCatalogo.incrementar_estoque, ModuloCatalogo.obter_livro,
    bind, ler, escrever, ret, levantar.
  rewrite Hl. split; [|split].
  - intros Hpos.
    assert (Hle : (estoque l <=? 0) = false) by (apply Z.leb_gt; lia).
    rewrite Hle. eexists. split; [reflexivity|].
    rewrite get_set_eq, set_set. cbn [estoque com_estoque].
    replace (estoque l - 1 + 1) with (estoque l) by lia.
    change (mkLivro (isbn l) (titulo l) (autor l) (estoque l) (l_status l)
                    (editora l) (ano_publicacao l))
      with (com_estoque (com_estoque l (estoque l - 1)) (estoque l)).
    now rewrite com_estoque_volta, (set_get_mesmo _ _ _ Hl).
  - intros Hz.
    assert (Hle : (estoque l <=? 0) = true) by (apply Z.leb_le; lia).
    now rewrite Hle.
  - intros Hnn. eexists. split; [reflexivity|].
    rewrite get_set_eq. cbn [estoque com_estoque].
    assert (Hle : (estoque l + 1 <=? 0) = false) by (apply Z.leb_gt; lia).
    rewrite Hle, set_set. cbn [estoque com_estoque isbn titulo autor l_status
                               editora ano_publicacao].
    replace (estoque l + 1 - 1) with (estoque l) by lia.
    change (mkLivro (isbn l) (titulo l) (autor l) (estoque l) (l_status l)
                    (editora l) (ano_publicacao l))
      with (com_estoque (com_estoque l (estoque l + 1)) (estoque l)).
    now rewrite com_estoque_volta, (set_get_mesmo _ _ _ Hl).
Qed.

Lemma estoque_ida_e_volta_exemplo :
  (0 < 1 ->
   exists ls1,
     ModuloCatalogo.decrementar_estoque "B1" (modulo_catalogo ex_cadastros)
     = (inr (1 - 1), ls1)
     /\ ModuloCatalogo.incrementar_estoque "B1" ls1
        = (inr 1, modulo_catalogo ex_cadastros))
  /\ (1 <= 0 ->
      ModuloCatalogo.decrementar_estoque "B1" (modulo_catalogo ex_cadastros)
      = (inl EstoqueInsuficienteException, modulo_catalogo ex_cadastros))
  /\ (0 <= 1 ->
      exists ls1,
        ModuloCatalogo.incrementar_estoque "B1" (modulo_catalogo ex_cadastros)
        = (inr (1 + 1), ls1)
        /\ ModuloCatalogo.decrementar_estoque "B1" ls1
           = (inr 1, modulo_catalogo ex_cadastros)).
Proof.
  apply (estoque_ida_e_volta
           "B1" (modulo_catalogo ex_cadastros)
           (mkLivro "B1" "Dom Casmurro" "Machado de Assis" 1 DISPONIVEL
                    None None)).
  reflexivity.
Defined.

Lemma Forall_values_set {V : Type} (P : V -> Prop) (d : Dict.t V)
    (k : string) (v : V) :
  Forall P (Dict.values d) -> P v -> Forall P (Dict.values (Dict.set d k v)).
Proof.
  intros Hd Hv. apply Forall_forall. intros x Hx.
  apply In_values_set in Hx. destruct Hx as [->|Hx]; auto.
  revert x Hx. now apply Forall_forall.
Qed.

Lemma Forall_values_del {V : Type} (P : V -> Prop) (d : Dict.t V)
    (k : string) :
  Forall P (Dict.values d) -> Forall P (Dict.values (Dict.del d k)).
Proof.
  intros Hd. apply Forall_forall. intros x Hx.
  apply In_values_del in Hx. revert x Hx. now apply Forall_forall.
Qed.

Lemma Forall_values_get {V : Type} (P : V -> Prop) (d : Dict.t V)
    (k : string) (v : V) :
  Forall P (Dict.values d) -> Dict.get d k = Some v -> P v.
Proof.
  intros Hd Hk. apply get_Some_In in Hk. revert v Hk.
  now apply Forall_forall.
Qed.

Lemma estoques_cadastrar (ls : ModuloCatalogo.Estado) (i t a : string)
    (e : Z) (ed : option string) (ano : option Z) :
  estoques_nao_negativos ls ->
  estoques_nao_negativos
    (snd (ModuloCatalogo.cadastrar_livro i t a e ed ano ls)).
Proof.
  intros H. rewrite cadastrar_livro_casos.
  destruct (negb (Dict.contem ls i) && negb (vazia i) && negb (vazia t)
            && negb (vazia a) && (0 <=? e)) eqn:Hok; [|assumption].
  simpl. apply Forall_values_set; auto. simpl.
  apply andb_prop in Hok. destruct Hok as [_ He]. now apply Z.leb_le.
Qed.

Lemma estoques_editar (ls : ModuloCatalogo.Estado) (i : string)
    (t a ed : option string) (ano : option Z) :
  estoques_nao_negativos ls ->
  estoques_nao_negativos (snd (ModuloCatalogo.editar_livro i t a ed ano ls)).
Proof.
  intros H. rewrite editar_livro_casos.
  destruct (Dict.get ls i) as [l|] eqn:Hl; [|assumption].
  simpl. apply Forall_values_set; auto.
  pose proof (Forall_values_get _ _ _ _ H Hl) as Hpos.
  destruct t, a, ed, ano; exact Hpos.
Qed.

(** X7: no method of the catalog makes a stock negative: if no book has a
    negative stock before a call of [cadastrar_livro], [editar_livro],
    [remover_livro], [decrementar_estoque], [incrementar_estoque] or
    [atualizar_status], none has one after it, whether the call returned
    or raised. *)
Theorem estoque_nunca_negativo (ls : ModuloCatalogo.Estado) :
  estoques_nao_negativos ls ->
  (forall i t a e ed ano,
      estoques_nao_negativos
        (snd (ModuloCatalogo.cadastrar_livro i t a e ed ano ls)))
  /\ (forall i t a ed ano,
        estoques_nao_negativos
          (snd (ModuloCatalogo.editar_livro i t a ed ano ls)))
  /\ (forall i,
        estoques_nao_negativos (snd (ModuloCatalogo.remover_livro i ls)))
  /\ (forall i,
        estoques_nao_negativos
          (snd (ModuloCatalogo.decrementar_estoque i ls)))
  /\ (forall i,
        estoques_nao_negativos
          (snd (ModuloCatalogo.incrementar_estoque i ls)))
  /\ (forall i st,
        estoques_nao_negativos
          (snd (ModuloCatalogo.atualizar_status i st ls))).
Proof.
  intros H. split; [|split; [|split; [|split; [|split]]]].
  - intros. now apply estoques_cadastrar.
  - intros. now apply estoques_editar.
  - intros i.
    unfold ModuloCatalogo.remover_livro, ModuloCatalogo.obter_livro,
      bind, ler, escrever, ret, levantar.
    destruct (Dict.get ls i); simpl; auto. now apply Forall_values_del.
  - intros i.
    unfold ModuloCatalogo.decrementar_estoque, ModuloCatalogo.obter_livro,
      bind, ler, escrever, ret, levantar.
    destruct (Dict.get ls i) as [l|] eqn:Hl; simpl; auto.
    destruct (Z.leb_spec (estoque l) 0); simpl; auto.
    apply Forall_values_set; auto. simpl. lia.
  - intros i.
    unfold ModuloCatalogo.incrementar_estoque, ModuloCatalogo.obter_livro,
      bind, ler, escrever, ret, levantar.
    destruct (Dict.get ls i) as [l|] eqn:Hl; simpl; auto.
    apply Forall_values_set; auto. simpl.
    pose proof (Forall_values_get _ _ _ _ H Hl). simpl in *. lia.
  - intros i st.
    unfold ModuloCatalogo.atualizar_status, ModuloCatalogo.obter_livro,
      bind, ler, escrever, ret, levantar.
    destruct (Dict.get ls i) as [l|] eqn:Hl; simpl; auto.
    apply Forall_values_set; auto. simpl.
    exact (Forall_values_get _ _ _ _ H Hl).
Qed.

Lemma estoque_nunca_negativo_exemplo :
  estoques_nao_negativos
    (snd (ModuloCatalogo.decrementar_estoque
            "B1" (modulo_catalogo ex_emprestado))).
Proof.
  apply (proj1 (proj2 (proj2 (proj2
           (estoque_nunca_negativo (modulo_catalogo ex_emprestado)
              ltac:(avaliar (modulo_catalogo ex_emprestado);
                    repeat constructor; simpl; lia)))))).
Defined.

(** ** Blocking *)

(** X8: after [bloquear_usuario] on a registered user, every
    [registrar_emprestimo] for that user raises UsuarioBloqueadoException
    and changes nothing, whatever the book, the days and the clock.
    Blocking touches the status alone (the counter of active loans, the
    catalog and the loans stay as they were), and [desbloquear_usuario]
    sets the status to active: on a user that was active before the block
    it restores the registry exactly. *)
Theorem bloqueado_nao_empresta
    (s : Sistema) (m : string) (u : Usuario) (i : string) (dias : Z)
    (agora : datetime) :
  Dict.get (modulo_usuarios s) m = Some u ->
  ModuloEmprestimo.registrar_emprestimo m i dias agora
    (snd (nos_usuarios (ModuloUsuarios.bloquear_usuario m) s))
  = (inl UsuarioBloqueadoException,
     snd (nos_usuarios (ModuloUsuarios.bloquear_usuario m) s))
  /\ snd (nos_usuarios (ModuloUsuarios.bloquear_usuario m) s)
     = mkSistema (Dict.set (modulo_usuarios s) m (com_u_status u BLOQUEADO))
                 (modulo_catalogo s) (emprestimos s) (contador_emprestimos s)
  /\ emprestimos_ativos (com_u_status u BLOQUEADO) = emprestimos_ativos u
  /\ (u_status u = U_ATIVO ->
      snd (nos_usuarios (ModuloUsuarios.desbloquear_usuario m)
             (snd (nos_usuarios (ModuloUsuarios.bloquear_usuario m) s)))
      = s).
Proof.
  intros Hu.
  assert (Hb : snd (nos_usuarios (ModuloUsuarios.bloquear_usuario m) s)
               = mkSistema
                   (Dict.set (modulo_usuarios s) m (com_u_status u BLOQUEADO))
                   (modulo_catalogo s) (emprestimos s)
                   (contador_emprestimos s)).
  { unfold nos_usuarios, ModuloUsuarios.bloquear_usuario,
      ModuloUsuarios.obter_usuario, bind, ler, escrever, ret, levantar.
    now rewrite Hu. }
  rewrite Hb. split; [|split; [reflexivity|split; [reflexivity|]]].
  - rewrite registrar_emprestimo_casos. simpl. now rewrite get_set_eq.
  - intros Hst.
    unfold nos_usuarios, ModuloUsuarios.desbloquear_usuario,
      ModuloUsuarios.obter_usuario, bind, ler, escrever, ret, levantar.
    simpl. rewrite get_set_eq. simpl. rewrite set_set.
    replace (com_u_status (com_u_status u BLOQUEADO) U_ATIVO) with u
      by (destruct u; simpl in *; now subst).
    rewrite (set_get_mesmo _ _ _ Hu). apply sistema_eta.
Qed.

Lemma bloqueado_nao_empresta_exemplo :
  ModuloEmprestimo.registrar_emprestimo "U1" "B1" 7 1000
    (snd (nos_usuarios (ModuloUsuarios.bloquear_usuario "U1") ex_cadastros))
  = (inl UsuarioBloqueadoException,
     snd (nos_usuarios (ModuloUsuarios.bloquear_usuario "U1") ex_cadastros)).
Proof.
  apply (proj1 (bloqueado_nao_empresta
                  ex_cadastros "U1"
                  (mkUsuario "U1" "Ana Souza" ALUNO U_ATIVO None None 0)
                  "B1" 7 1000 eq_refl)).
Defined.

(** ** A loan that is granted *)

(** What a call of [registrar_emprestimo] that returned a loan went
    through. *)
Lemma registrar_emprestimo_inr (m i : string) (dias : Z) (agora : datetime)
    (s s1 : Sistema) (e : Emprestimo) :
  ModuloEmprestimo.registrar_emprestimo m i dias agora s = (inr e, s1) ->
  exists u l,
    Dict.get (modulo_usuarios s) m = Some u
    /\ StatusUsuario_eqb (u_status u) BLOQUEADO = false
    /\ Dict.get (modulo_catalogo s) i = Some l
    /\ 0 < estoque l
    /\ par_ativo m i s = false
    /\ prazo_representavel dias agora = true
    /\ e = mkEmprestimo (formatar_id (S (contador_emprestimos s))) m i agora
                        (agora + dias * US_POR_DIA) None ATIVO
    /\ s1 = apos_emprestimo s m i u l e.
Proof.
  rewrite registrar_emprestimo_casos.
  destruct (Dict.get (modulo_usuarios s) m) as [u|]; [|discriminate].
  destruct (StatusUsuario_eqb (u_status u) BLOQUEADO) eqn:Hb; [discriminate|].
  destruct (Dict.get (modulo_catalogo s) i) as [l|]; [|discriminate].
  destruct (0 <? estoque l) eqn:He; [|discriminate].
  destruct (par_ativo m i s) eqn:Hp; [discriminate|].
  destruct (prazo_representavel dias agora) eqn:Hz; [|discriminate].
  cbv zeta. intros [= <- <-]. exists u, l.
  repeat split; auto. now apply Z.ltb_lt.
Qed.

(** X9: when the user is registered and not blocked, the book is in the
    catalog with a positive stock, the pair has no active loan and the due
    date can be represented, [registrar_emprestimo] returns an active loan
    of that user and book, taken now and due [dias] days later, not yet
    returned, which [obter_emprestimo] finds under its id.  The stock of
    the book is one lower and the user's counter one higher; nothing else
    of the book or of the user changes and no other book or user is
    touched.  A user whose status is "inactive" is served like an active
    one. *)
Theorem registrar_emprestimo_concedido
    (s : Sistema) (m i : string) (dias : Z) (agora : datetime)
    (u : Usuario) (l : Livro) :
  Dict.get (modulo_usuarios s) m = Some u ->
  u_status u <> BLOQUEADO ->
  Dict.get (modulo_catalogo s) i = Some l ->
  0 < estoque l ->
  par_ativo m i s = false ->
  prazo_representavel dias agora = true ->
  exists e s1,
    ModuloEmprestimo.registrar_emprestimo m i dias agora s = (inr e, s1)
    /\ e = mkEmprestimo (formatar_id (S (contador_emprestimos s))) m i agora
                        (agora + dias * US_POR_DIA) None ATIVO
    /\ ModuloEmprestimo.obter_emprestimo (id_emprestimo e) s1 = (inr e, s1)
    /\ Dict.get (modulo_catalogo s1) i
       = Some (com_estoque l (estoque l - 1))
    /\ Dict.get (modulo_usuarios s1) m
       = Some (com_emprestimos_ativos u (emprestimos_ativos u + 1))
    /\ (forall i', i <> i' ->
          Dict.get (modulo_catalogo s1) i' = Dict.get (modulo_catalogo s) i')
    /\ (forall m', m <> m' ->
          Dict.get (modulo_usuarios s1) m' = Dict.get (modulo_usuarios s) m')
    /\ par_ativo m i s1 = true.
Proof.
  intros Hu Hb Hl He Hp Hz.
  rewrite registrar_emprestimo_casos, Hu, Hl, Hp, Hz.
  assert (Hb' : StatusUsuario_eqb (u_status u) BLOQUEADO = false)
    by (destruct (u_status u); auto; congruence).
  assert (He' : (0 <? estoque l) = true) by now apply Z.ltb_lt.
  rewrite Hb', He'. cbv zeta.
  eexists. eexists. split; [reflexivity|]. split; [reflexivity|].
  unfold ModuloEmprestimo.obter_emprestimo, bind, ler, ret, levantar.
  simpl. rewrite !get_set_eq. repeat split.
  - intros i' Hne. now apply get_set_ne.
  - intros m' Hne. now apply get_set_ne.
  - unfold par_ativo, ModuloEmprestimo.listar_emprestimos. simpl.
    apply existsb_exists. eexists. split.
    + eapply get_Some_In. apply get_set_eq.
    + unfold do_usuario, do_livro, ativo. simpl.
      now rewrite !String.eqb_refl.
Qed.

Lemma registrar_emprestimo_concedido_exemplo :
  exists e s1,
    ModuloEmprestimo.registrar_emprestimo "U1" "B1" 7 1000 ex_cadastros
    = (inr e, s1)
    /\ e = mkEmprestimo "EMP-00001" "U1" "B1" 1000 604800001000 None ATIVO
    /\ ModuloEmprestimo.obter_emprestimo (id_emprestimo e) s1 = (inr e, s1)
    /\ Dict.get (modulo_catalogo s1) "B1"
       = Some (mkLivro "B1" "Dom Casmurro" "Machado de Assis" 0 DISPONIVEL
                       None None)
    /\ Dict.get (modulo_usuarios s1) "U1"
       = Some (mkUsuario "U1" "Ana Souza" ALUNO U_ATIVO None None 1)
    /\ (forall i', "B1" <> i' ->
          Dict.get (modulo_catalogo s1) i'
          = Dict.get (modulo_catalogo ex_cadastros) i')
    /\ (forall m', "U1" <> m' ->
          Dict.get (modulo_usuarios s1) m'
          = Dict.get (modulo_usuarios ex_cadastros) m')
    /\ par_ativo "U1" "B1" s1 = true.
Proof.
  apply (registrar_emprestimo_concedido
           ex_cadastros "U1" "B1" 7 1000
           (mkUsuario "U1" "Ana Souza" ALUNO U_ATIVO None None 0)
           (mkLivro "B1" "Dom Casmurro" "Machado de Assis" 1 DISPONIVEL
                    None None));
    try reflexivity; discriminate.
Defined.

Lemma com_emprestimos_ativos_volta (u : Usuario) (a : Z) :
  com_emprestimos_ativos (com_emprestimos_ativos u a) (emprestimos_ativos u)
  = u.
Proof. now destruct u. Qed.

(** X10: a loan that was just granted can be returned, and the return
    undoes the loan in both registries: the user registry and the catalog
    are exactly what they were before the loan (the user's counter not
    being negative then), while the loan itself stays recorded, now as
    returned at the time of the return. *)
Theorem emprestar_e_devolver
    (s s1 : Sistema) (m i : string) (dias : Z) (agora agora2 : datetime)
    (e : Emprestimo) (u : Usuario) :
  ModuloEmprestimo.registrar_emprestimo m i dias agora s = (inr e, s1) ->
  Dict.get (modulo_usuarios s) m = Some u ->
  0 <= emprestimos_ativos u ->
  exists s2,
    ModuloEmprestimo.registrar_devolucao (id_emprestimo e) agora2 s1
    = (inr (devolvido_em e agora2), s2)
    /\ modulo_usuarios s2 = modulo_usuarios s
    /\ modulo_catalogo s2 = modulo_catalogo s
    /\ Dict.get (emprestimos s2) (id_emprestimo e)
       = Some (devolvido_em e agora2)
    /\ contador_emprestimos s2 = S (contador_emprestimos s).
Proof.
  intros Hreg Hu Hc.
  destruct (registrar_emprestimo_inr _ _ _ _ _ _ _ Hreg)
    as [u0 [l [Hu0 [Hb [Hl [He [Hp [Hz [-> ->]]]]]]]]].
  assert (u0 = u) by congruence. subst u0.
  rewrite registrar_devolucao_casos. simpl.
  rewrite !get_set_eq. simpl.
  assert (Hpos : (0 <? emprestimos_ativos u + 1) = true)
    by (apply Z.ltb_lt; lia).
  rewrite Hpos. eexists. split; [reflexivity|]. simpl.
  rewrite !set_set, get_set_eq.
  replace (emprestimos_ativos u + 1 - 1) with (emprestimos_ativos u) by lia.
  replace (estoque l - 1 + 1) with (estoque l) by lia.
  rewrite com_emprestimos_ativos_volta, com_estoque_volta.
  rewrite (set_get_mesmo _ _ _ Hu), (set_get_mesmo _ _ _ Hl).
  repeat split.
Qed.

Lemma emprestar_e_devolver_exemplo :
  exists s2,
    ModuloEmprestimo.registrar_devolucao "EMP-00001" 2000 ex_emprestado
    = (inr (mkEmprestimo "EMP-00001" "U1" "B1" 1000 604800001000
                         (Some 2000) DEVOLVIDO), s2)
    /\ modulo_usuarios s2 = modulo_usuarios ex_cadastros
    /\ modulo_catalogo s2 = modulo_catalogo ex_cadastros
    /\ Dict.get (emprestimos s2) "EMP-00001"
       = Some (mkEmprestimo "EMP-00001" "U1" "B1" 1000 604800001000
                            (Some 2000) DEVOLVIDO)
    /\ contador_emprestimos s2 = 1%nat.
Proof.
  apply (emprestar_e_devolver
           ex_cadastros ex_emprestado "U1" "B1" 7 1000 2000
           (mkEmprestimo "EMP-00001" "U1" "B1" 1000 604800001000 None ATIVO)
           (mkUsuario "U1" "Ana Souza" ALUNO U_ATIVO None None 0));
    [reflexivity | reflexivity | simpl; lia].
Defined.

(** ** Returns *)

(** X11: no loan is returned twice.  Whatever a first
    [registrar_devolucao] of an id did, a second one of the same id raises
    (EmprestimoNaoEncontradoException when no loan has the id,
    ValidacaoException otherwise) and changes nothing. *)
Theorem devolucao_nao_se_repete
    (s : Sistema) (id : string) (t1 t2 : datetime) :
  ModuloEmprestimo.registrar_devolucao id t2
    (snd (ModuloEmprestimo.registrar_devolucao id t1 s))
  = (inl EmprestimoNaoEncontradoException,
     snd (ModuloEmprestimo.registrar_devolucao id t1 s))
  \/ ModuloEmprestimo.registrar_devolucao id t2
       (snd (ModuloEmprestimo.registrar_devolucao id t1 s))
     = (inl ValidacaoException,
        snd (ModuloEmprestimo.registrar_devolucao id t1 s)).
Proof.
  rewrite (registrar_devolucao_casos id t1 s).
  destruct (Dict.get (emprestimos s) id) as [e|] eqn:He; simpl.
  - right. destruct (ativo e) eqn:Ha; simpl.
    + destruct (Dict.get (modulo_catalogo s) (isbn_livro e)); simpl;
        [destruct (Dict.get (modulo_usuarios s) (matricula_usuario e)); simpl|];
        rewrite registrar_devolucao_casos; simpl;
        now rewrite get_set_eq, ativo_devolvido.
    + rewrite registrar_devolucao_casos. now rewrite He, Ha.
  - left. rewrite registrar_devolucao_casos. now rewrite He.
Qed.

Lemma ativo_status (e : Emprestimo) : ativo e = true <-> status e = ATIVO.
Proof. unfold ativo. destruct (status e); simpl; split; congruence. Qed.

Lemma mesmo_ou_devolvido_passo (s s' : Sistema) (id : string)
    (e : Emprestimo) :
  passo s s' -> ids_gerados s ->
  Dict.get (emprestimos s) id = Some e ->
  exists e',
    Dict.get (emprestimos s') id = Some e' /\ mesmo_ou_devolvido e e'.
Proof.
  intros Hp Hid Hget.
  destruct Hp as [ | m i dias agora u l Hu Hl Hest Hpar |
                   | id0 agora e0 He Ha Hl
                   | id0 agora e0 l He Ha Hl Hu
                   | id0 agora e0 l u He Ha Hl Hu ]; simpl.
  - exists e. split; [assumption|now left].
  - exists e. split; [|now left].
    rewrite get_set_ne; auto. intros Heq.
    pose proof (id_novo s Hid) as Hn. congruence.
  - exists e. split; [assumption|now left].
  - destruct (String.eqb_spec id0 id) as [->|Hne].
    + rewrite get_set_eq. assert (e0 = e) by congruence. subst.
      eexists. split; [reflexivity|]. right.
      split; [now apply ativo_status|now exists agora].
    + rewrite get_set_ne by assumption. exists e. split; [assumption|now left].
  - destruct (String.eqb_spec id0 id) as [->|Hne].
    + rewrite get_set_eq. assert (e0 = e) by congruence. subst.
      eexists. split; [reflexivity|]. right.
      split; [now apply ativo_status|now exists agora].
    + rewrite get_set_ne by assumption. exists e. split; [assumption|now left].
  - destruct (String.eqb_spec id0 id) as [->|Hne].
    + rewrite get_set_eq. assert (e0 = e) by congruence. subst.
      eexists. split; [reflexivity|]. right.
      split; [now apply ativo_status|now exists agora].
    + rewrite get_set_ne by assumption. exists e. split; [assumption|now left].
Qed.

Lemma mesmo_ou_devolvido_trans (e1 e2 e3 : Emprestimo) :
  mesmo_ou_devolvido e1 e2 -> mesmo_ou_devolvido e2 e3 ->
  mesmo_ou_devolvido e1 e3.
Proof.
  intros [->|[H1 [t ->]]] H23; [assumption|].
  destruct H23 as [->|[H2 _]].
  - right. split; [assumption|now exists t].
  - discriminate.
Qed.

(** X12: a loan is never deleted and never reopened.  Along every
    sequence of [registrar_emprestimo] and [registrar_devolucao] calls a
    stored loan stays under its id and is either untouched or, if it was
    active, the same loan marked returned with a return time; so a loan
    that is returned stays exactly as it is, and no loan ever takes the
    status "overdue". *)
Theorem emprestimo_nunca_reabre
    (s : Sistema) (cs : list Chamada) (id : string) (e : Emprestimo) :
  ids_gerados s ->
  Dict.get (emprestimos s) id = Some e ->
  exists e',
    Dict.get (emprestimos (executar_todas cs s)) id = Some e'
    /\ mesmo_ou_devolvido e e'
    /\ (status e = DEVOLVIDO -> e' = e)
    /\ (status e' = ATRASADO -> status e = ATRASADO).
Proof.
  revert s e. induction cs as [|c r IH]; intros s e Hid Hget.
  - exists e. simpl. repeat split; auto. now left.
  - simpl.
    destruct (mesmo_ou_devolvido_passo _ _ id e (executar_passo c s) Hid Hget)
      as [e1 [Hget1 H1]].
    destruct (IH _ e1 (ids_gerados_passo _ _ (executar_passo c s) Hid) Hget1)
      as [e' [Hget' [H2 _]]].
    exists e'. split; [exact Hget'|].
    pose proof (mesmo_ou_devolvido_trans _ _ _ H1 H2) as H.
    split; [exact H|]. split.
    + intros Hd. destruct H as [->|[Ha _]]; congruence.
    + intros Hat. destruct H as [->|[_ [t ->]]]; [assumption|discriminate].
Qed.

Lemma emprestimo_nunca_reabre_exemplo :
  exists e',
    Dict.get
      (emprestimos
         (executar_todas
            [Devolver "EMP-00001" 2000; Emprestar "U1" "B1" 7 3000;
             Devolver "EMP-00001" 4000]
            ex_emprestado))
      "EMP-00001" = Some e'
    /\ mesmo_ou_devolvido
         (mkEmprestimo "EMP-00001" "U1" "B1" 1000 604800001000 None ATIVO) e'
    /\ (ATIVO = DEVOLVIDO ->
        e' = mkEmprestimo "EMP-00001" "U1" "B1" 1000 604800001000 None ATIVO)
    /\ (status e' = ATRASADO -> ATIVO = ATRASADO).
Proof.
  apply (emprestimo_nunca_reabre
           ex_emprestado
           [Devolver "EMP-00001" 2000; Emprestar "U1" "B1" 7 3000;
            Devolver "EMP-00001" 4000]
           "EMP-00001"
           (mkEmprestimo "EMP-00001" "U1" "B1" 1000 604800001000 None ATIVO)).
  - unfold ids_gerados. avaliar (Dict.keys (emprestimos ex_emprestado)).
    intros k [<-|[]]. exists 1%nat. split; [vm_compute; lia|reflexivity].
  - reflexivity.
Defined.

(** ** One active loan per user and book *)

Lemma existsb_false_quantos {A : Type} (p : A -> bool) (l : list A) :
  existsb p l = false -> quantos p l = 0%nat.
Proof.
  unfold quantos. induction l as [|x r IH]; simpl; auto.
  destruct (p x); simpl; [discriminate|auto].
Qed.

Lemma quantos_positivo {A : Type} (p : A -> bool) (l : list A) (x : A) :
  In x l -> p x = true -> (0 < quantos p l)%nat.
Proof.
  unfold quantos. induction l as [|y r IH]; simpl; [tauto|].
  intros [->|Hin] Hp.
  - rewrite Hp. simpl. lia.
  - destruct (p y); simpl; auto; lia.
Qed.

Lemma quantos_zero {A : Type} (p : A -> bool) (l : list A) :
  (forall x, In x l -> p x = false) -> quantos p l = 0%nat.
Proof.
  unfold quantos. induction l as [|y r IH]; simpl; auto.
  intros H. rewrite (H y) by now left. apply IH. intros x Hx. apply H.
  now right.
Qed.

Lemma sem_par_duplicado_passo (s s' : Sistema) :
  passo s s' -> ids_gerados s -> sem_par_duplicado s -> sem_par_duplicado s'.
Proof.
  intros Hp Hid H.
  destruct Hp as [ | m i dias agora u l Hu Hl Hest Hpar |
                   | id agora e He Ha Hl
                   | id agora e l He Ha Hl Hu
                   | id agora e l u He Ha Hl Hu ];
    auto; intros m' i'; specialize (H m' i');
    unfold ModuloEmprestimo.listar_emprestimos in *; simpl.
  - rewrite (quantos_set_novo _ _ _ _ (id_novo s Hid)).
    unfold do_usuario at 2, do_livro at 2. simpl.
    destruct (String.eqb_spec m m') as [<-|Hm]; simpl; [|lia].
    destruct (String.eqb_spec i i') as [<-|Hi]; simpl; [|lia].
    apply existsb_false_quantos in Hpar.
    unfold ModuloEmprestimo.listar_emprestimos in Hpar. rewrite Hpar. lia.
  - pose proof (quantos_devolvido _ _ _ agora
                  (fun x => do_usuario m' x && do_livro i' x) He Ha) as Hq.
    cbv beta in Hq. destruct (do_usuario m' e && do_livro i' e); lia.
  - pose proof (quantos_devolvido _ _ _ agora
                  (fun x => do_usuario m' x && do_livro i' x) He Ha) as Hq.
    cbv beta in Hq. destruct (do_usuario m' e && do_livro i' e); lia.
  - pose proof (quantos_devolvido _ _ _ agora
                  (fun x => do_usuario m' x && do_livro i' x) He Ha) as Hq.
    cbv beta in Hq. destruct (do_usuario m' e && do_livro i' e); lia.
Qed.

(** X13: the coordinator never holds two active loans of one book to one
    user.  If no pair of a user and a book has more than one active loan,
    the same is true after every sequence of [registrar_emprestimo] and
    [registrar_devolucao] calls. *)
Theorem um_emprestimo_ativo_por_par (s : Sistema) (cs : list Chamada) :
  ids_gerados s ->
  sem_par_duplicado s ->
  sem_par_duplicado (executar_todas cs s).
Proof.
  intros Hid H.
  apply (executar_todas_invariante
           (fun x => ids_gerados x /\ sem_par_duplicado x));
    [|now split].
  intros x x' Hp [H1 H2]. split.
  - now apply (ids_gerados_passo x).
  - now apply (sem_par_duplicado_passo x).
Qed.

Lemma um_emprestimo_ativo_por_par_exemplo :
  sem_par_duplicado
    (executar_todas
       [Emprestar "U1" "B1" 7 1000; Emprestar "U1" "B1" 7 1500;
        Devolver "EMP-00001" 2000; Emprestar "U1" "B1" 7 2500]
       ex_cadastros).
Proof.
  apply um_emprestimo_ativo_por_par.
  - intros k [].
  - intros m i. apply Nat.le_0_l.
Defined.

(** X14: once a loan of a book to a user is granted, the same request
    made again before the return is refused and changes nothing, whatever
    the days and the clock: with LivroIndisponvelException when the loan
    took the last copy (the stock was 1), with EmprestimoJaExisteException
    otherwise (the stock was above 1). *)
Theorem emprestimo_repetido_rejeitado
    (s s1 : Sistema) (m i : string) (dias dias2 : Z)
    (agora agora2 : datetime) (e : Emprestimo) (l : Livro) :
  ModuloEmprestimo.registrar_emprestimo m i dias agora s = (inr e, s1) ->
  Dict.get (modulo_catalogo s) i = Some l ->
  (estoque l = 1 \/ 1 < estoque l)
  /\ (estoque l = 1 ->
      ModuloEmprestimo.registrar_emprestimo m i dias2 agora2 s1
      = (inl LivroIndisponvelException, s1))
  /\ (1 < estoque l ->
      ModuloEmprestimo.registrar_emprestimo m i dias2 agora2 s1
      = (inl EmprestimoJaExisteException, s1)).
Proof.
  intros Hreg Hlivro.
  destruct (registrar_emprestimo_inr _ _ _ _ _ _ _ Hreg)
    as [u [l0 [Hu [Hb [Hl [He [Hp [Hz [-> ->]]]]]]]]].
  rewrite Hlivro in Hl. injection Hl as <-.
  remember (apos_emprestimo s m i u l
              (mkEmprestimo (formatar_id (S (contador_emprestimos s))) m i
                            agora (agora + dias * US_POR_DIA) None ATIVO))
    as s1 eqn:Hs1.
  assert (Hu1 : Dict.get (modulo_usuarios s1) m
                = Some (com_emprestimos_ativos u (emprestimos_ativos u + 1)))
    by (subst s1; simpl; apply get_set_eq).
  assert (Hl1 : Dict.get (modulo_catalogo s1) i
                = Some (com_estoque l (estoque l - 1)))
    by (subst s1; simpl; apply get_set_eq).
  assert (Hpar : par_ativo m i s1 = true).
  { subst s1. unfold par_ativo, ModuloEmprestimo.listar_emprestimos. simpl.
    apply existsb_exists. eexists. split.
    - eapply get_Some_In. apply get_set_eq.
    - unfold do_usuario, do_livro, ativo. simpl.
      now rewrite !String.eqb_refl. }
  split; [lia|].
  rewrite registrar_emprestimo_casos, Hu1, Hl1, Hpar.
  cbn [u_status com_emprestimos_ativos estoque com_estoque]. rewrite Hb.
  split; intros H1.
  - replace (0 <? estoque l - 1) with false; [reflexivity|].
    symmetry. apply Z.ltb_ge. lia.
  - replace (0 <? estoque l - 1) with true; [reflexivity|].
    symmetry. apply Z.ltb_lt. lia.
Qed.

Lemma emprestimo_repetido_rejeitado_exemplo :
  (1 = 1 \/ 1 < 1)
  /\ (1 = 1 ->
      ModuloEmprestimo.registrar_emprestimo "U1" "B1" 14 5000 ex_emprestado
      = (inl LivroIndisponvelException, ex_emprestado))
  /\ (1 < 1 ->
      ModuloEmprestimo.registrar_emprestimo "U1" "B1" 14 5000 ex_emprestado
      = (inl EmprestimoJaExisteException, ex_emprestado)).
Proof.
  apply (emprestimo_repetido_rejeitado
           ex_cadastros ex_emprestado "U1" "B1" 7 14 1000 5000
           (mkEmprestimo "EMP-00001" "U1" "B1" 1000 604800001000 None ATIVO)
           (mkLivro "B1" "Dom Casmurro" "Machado de Assis" 1 DISPONIVEL
                    None None)).
  - reflexivity.
  - reflexivity.
Defined.

Example emprestimo_repetido_ultima_copia :
  (* one copy: the second request finds no stock *)
  ModuloEmprestimo.registrar_emprestimo "U1" "B1" 14 5000 ex_emprestado
  = (inl LivroIndisponvelException, ex_emprestado).
Proof. reflexivity. Qed.

Example emprestimo_repetido_com_estoque :
  (* two copies: the second request finds the active loan of the pair *)
  let s1 := snd (ModuloEmprestimo.registrar_emprestimo
                   "U1" "B3" 7 1000 ex_duas_copias) in
  option_map estoque (Dict.get (modulo_catalogo s1) "B3") = Some 1
  /\ ModuloEmprestimo.registrar_emprestimo "U1" "B3" 14 5000 s1
     = (inl EmprestimoJaExisteException, s1).
Proof. split; reflexivity. Qed.

(** X15: a user who has an active loan cannot be removed.  In a state in
    which the counters mirror the active loans, [remover_usuario] on such
    a user raises UsuarioPossuiEmprestimosAtivosException and changes
    nothing. *)
Theorem usuario_com_emprestimo_fica
    (s : Sistema) (m : string) (u : Usuario) :
  contador_espelha s ->
  Dict.get (modulo_usuarios s) m = Some u ->
  (0 < ativos_do_usuario m s)%nat ->
  nos_usuarios (ModuloUsuarios.remover_usuario m) s
  = (inl UsuarioPossuiEmprestimosAtivosException, s).
Proof.
  intros Hesp Hu Hpos.
  unfold nos_usuarios, ModuloUsuarios.remover_usuario,
    ModuloUsuarios.obter_usuario, bind, ler, escrever, ret, levantar.
  rewrite Hu.
  assert (Hc : (0 <? emprestimos_ativos u) = true)
    by (apply Z.ltb_lt; rewrite (Hesp _ _ Hu); lia).
  rewrite Hc. now rewrite sistema_eta.
Qed.

Lemma usuario_com_emprestimo_fica_exemplo :
  nos_usuarios (ModuloUsuarios.remover_usuario "U1") ex_emprestado
  = (inl UsuarioPossuiEmprestimosAtivosException, ex_emprestado).
Proof.
  apply (usuario_com_emprestimo_fica
           ex_emprestado "U1"
           (mkUsuario "U1" "Ana Souza" ALUNO U_ATIVO None None 1)).
  - intros m u. avaliar (modulo_usuarios ex_emprestado). cbn [Dict.get].
    destruct (String.eqb_spec "U1" m) as [<-|]; [|discriminate].
    intros [= <-]. reflexivity.
  - reflexivity.
  - vm_compute. lia.
Defined.

(** ** Listings *)

(** X16: a granted loan is appended to the listings: it is the last entry
    of [listar_emprestimos], of [listar_emprestimos_ativos], of the loans
    of its user and of the loans of its book, the earlier entries keeping
    their order; the listings of other users and other books are
    untouched. *)
Theorem emprestimo_concedido_nas_listagens
    (s s1 : Sistema) (m i : string) (dias : Z) (agora : datetime)
    (e : Emprestimo) :
  ids_gerados s ->
  ModuloEmprestimo.registrar_emprestimo m i dias agora s = (inr e, s1) ->
  ModuloEmprestimo.listar_emprestimos s1
  = ModuloEmprestimo.listar_emprestimos s ++ [e]
  /\ ModuloEmprestimo.listar_emprestimos_ativos s1
     = ModuloEmprestimo.listar_emprestimos_ativos s ++ [e]
  /\ ModuloEmprestimo.listar_emprestimos_por_usuario m s1
     = ModuloEmprestimo.listar_emprestimos_por_usuario m s ++ [e]
  /\ ModuloEmprestimo.listar_emprestimos_por_livro i s1
     = ModuloEmprestimo.listar_emprestimos_por_livro i s ++ [e]
  /\ (forall m', m <> m' ->
        ModuloEmprestimo.listar_emprestimos_por_usuario m' s1
        = ModuloEmprestimo.listar_emprestimos_por_usuario m' s)
  /\ (forall i', i <> i' ->
        ModuloEmprestimo.listar_emprestimos_por_livro i' s1
        = ModuloEmprestimo.listar_emprestimos_por_livro i' s).
Proof.
  intros Hid Hreg.
  destruct (registrar_emprestimo_inr _ _ _ _ _ _ _ Hreg)
    as [u [l [Hu [Hb [Hl [He [Hp [Hz [-> ->]]]]]]]]].
  unfold ModuloEmprestimo.listar_emprestimos,
    ModuloEmprestimo.listar_emprestimos_ativos,
    ModuloEmprestimo.listar_emprestimos_por_usuario,
    ModuloEmprestimo.listar_emprestimos_por_livro.
  simpl. rewrite (values_set_novo _ _ _ (id_novo s Hid)).
  rewrite !filter_app. simpl. rewrite !String.eqb_refl.
  repeat split.
  - intros m' Hne. rewrite filter_app. simpl.
    destruct (String.eqb_spec m m'); [congruence|]. apply app_nil_r.
  - intros i' Hne. rewrite filter_app. simpl.
    destruct (String.eqb_spec i i'); [congruence|]. apply app_nil_r.
Qed.

Lemma emprestimo_concedido_nas_listagens_exemplo :
  ModuloEmprestimo.listar_emprestimos ex_emprestado
  = ModuloEmprestimo.listar_emprestimos ex_cadastros
    ++ [mkEmprestimo "EMP-00001" "U1" "B1" 1000 604800001000 None ATIVO]
  /\ ModuloEmprestimo.listar_emprestimos_ativos ex_emprestado
     = ModuloEmprestimo.listar_emprestimos_ativos ex_cadastros
       ++ [mkEmprestimo "EMP-00001" "U1" "B1" 1000 604800001000 None ATIVO]
  /\ ModuloEmprestimo.listar_emprestimos_por_usuario "U1" ex_emprestado
     = ModuloEmprestimo.listar_emprestimos_por_usuario "U1" ex_cadastros
       ++ [mkEmprestimo "EMP-00001" "U1" "B1" 1000 604800001000 None ATIVO]
  /\ ModuloEmprestimo.listar_emprestimos_por_livro "B1" ex_emprestado
     = ModuloEmprestimo.listar_emprestimos_por_livro "B1" ex_cadastros
       ++ [mkEmprestimo "EMP-00001" "U1" "B1" 1000 604800001000 None ATIVO]
  /\ (forall m', "U1" <> m' ->
        ModuloEmprestimo.listar_emprestimos_por_usuario m' ex_emprestado
        = ModuloEmprestimo.listar_emprestimos_por_usuario m' ex_cadastros)
  /\ (forall i', "B1" <> i' ->
        ModuloEmprestimo.listar_emprestimos_por_livro i' ex_emprestado
        = ModuloEmprestimo.listar_emprestimos_por_livro i' ex_cadastros).
Proof.
  apply (emprestimo_concedido_nas_listagens
           ex_cadastros ex_emprestado "U1" "B1" 7 1000
           (mkEmprestimo "EMP-00001" "U1" "B1" 1000 604800001000 None ATIVO)).
  - intros k [].
  - reflexivity.
Defined.

(** ** The states a system goes through *)

Lemma contem_false_get {V : Type} (d : Dict.t V) (k : string) :
  Dict.contem d k = false -> Dict.get d k = None.
Proof. unfold Dict.contem. now destruct (Dict.get d k). Qed.

Lemma usuarios_passo (us : ModuloUsuarios.Estado) :
  (forall m n tp em tel,
      passo_usuarios us
        (snd (ModuloUsuarios.cadastrar_usuario m n tp em tel us)))
  /\ (forall m n tp em tel,
        passo_usuarios us
          (snd (ModuloUsuarios.editar_usuario m n tp em tel us)))
  /\ (forall m, passo_usuarios us (snd (ModuloUsuarios.remover_usuario m us)))
  /\ (forall m, passo_usuarios us (snd (ModuloUsuarios.bloquear_usuario m us)))
  /\ (forall m,
        passo_usuarios us (snd (ModuloUsuarios.desbloquear_usuario m us))).
Proof.
  split; [|split; [|split; [|split]]].
  - intros m n tp em tel.
    rewrite cadastrar_usuario_casos.
    destruct (Dict.contem us m) eqn:Hc; cbn [negb andb]; [constructor|].
    destruct (negb (vazia m) && (3 <=? len n)%nat
              && (len n <=? 100)%nat); [|constructor].
    apply pu_novo; [now apply contem_false_get|reflexivity].
  - intros m n tp em tel. rewrite editar_usuario_casos.
    destruct (Dict.get us m) as [u|] eqn:Hu; [|constructor].
    destruct (match n with
              | Some n' => (len n' <? 3)%nat
              | None => false
              end); [constructor|].
    simpl. apply pu_edicao with (u := u); auto.
    destruct n, tp, em, tel; reflexivity.
  - intros m.
    unfold ModuloUsuarios.remover_usuario, ModuloUsuarios.obter_usuario,
      bind, ler, escrever, ret, levantar.
    destruct (Dict.get us m) as [u|] eqn:Hu; [|constructor].
    destruct (Z.ltb_spec 0 (emprestimos_ativos u)); [constructor|].
    simpl. now apply pu_remocao with (u := u).
  - intros m.
    unfold ModuloUsuarios.bloquear_usuario, ModuloUsuarios.obter_usuario,
      bind, ler, escrever, ret, levantar.
    destruct (Dict.get us m) as [u|] eqn:Hu; [|constructor].
    simpl. now apply pu_edicao with (u := u).
  - intros m.
    unfold ModuloUsuarios.desbloquear_usuario, ModuloUsuarios.obter_usuario,
      bind, ler, escrever, ret, levantar.
    destruct (Dict.get us m) as [u|] eqn:Hu; [|constructor].
    simpl. now apply pu_edicao with (u := u).
Qed.

Lemma catalogo_passo (ls : ModuloCatalogo.Estado) :
  (forall i t a e ed ano,
      passo_catalogo ls
        (snd (ModuloCatalogo.cadastrar_livro i t a e ed ano ls)))
  /\ (forall i t a ed ano,
        passo_catalogo ls (snd (ModuloCatalogo.editar_livro i t a ed ano ls)))
  /\ (forall i st,
        passo_catalogo ls (snd (ModuloCatalogo.atualizar_status i st ls))).
Proof.
  split; [|split].
  - intros i t a e ed ano.
    rewrite cadastrar_livro_casos.
    destruct (Dict.contem ls i) eqn:Hc; cbn [negb andb]; [constructor|].
    destruct (negb (vazia i) && negb (vazia t) && negb (vazia a));
      cbn [negb andb]; [|constructor].
    destruct (0 <=? e) eqn:He; [|constructor].
    apply pc_novo; [now apply contem_false_get|].
    simpl. now apply Z.leb_le.
  - intros i t a ed ano. rewrite editar_livro_casos.
    destruct (Dict.get ls i) as [l|] eqn:Hl; [|constructor].
    simpl. apply pc_edicao with (l := l); auto.
    destruct t, a, ed, ano; reflexivity.
  - intros i st.
    unfold ModuloCatalogo.atualizar_status, ModuloCatalogo.obter_livro,
      bind, ler, escrever, ret, levantar.
    destruct (Dict.get ls i) as [l|] eqn:Hl; [|constructor].
    simpl. now apply pc_edicao with (l := l).
Qed.

Lemma snd_nos_usuarios {A : Type} (m : Met ModuloUsuarios.Estado A)
    (s : Sistema) :
  snd (nos_usuarios m s)
  = mkSistema (snd (m (modulo_usuarios s))) (modulo_catalogo s)
              (emprestimos s) (contador_emprestimos s).
Proof. unfold nos_usuarios. now destruct (m (modulo_usuarios s)). Qed.

Lemma snd_no_catalogo {A : Type} (m : Met ModuloCatalogo.Estado A)
    (s : Sistema) :
  snd (no_catalogo m s)
  = mkSistema (modulo_usuarios s) (snd (m (modulo_catalogo s)))
              (emprestimos s) (contador_emprestimos s).
Proof. unfold no_catalogo. now destruct (m (modulo_catalogo s)). Qed.

Lemma ativos_tem_usuario_passo (s s' : Sistema) :
  passo s s' -> ativos_tem_usuario s -> ativos_tem_usuario s'.
Proof.
  intros Hp H.
  destruct Hp as [ | m i dias agora u l Hu Hl Hest Hpar |
                   | id agora e He Ha Hl
                   | id agora e l He Ha Hl Hu
                   | id agora e l u He Ha Hl Hu ];
    unfold ativos_tem_usuario, ModuloEmprestimo.listar_emprestimos in *;
    simpl; auto;
    intros x Hx Hax; apply In_values_set in Hx; destruct Hx as [->|Hx];
    try (rewrite ativo_devolvido in Hax; discriminate); auto.
  - simpl. now rewrite get_set_eq.
  - apply get_set_presente. auto.
  - destruct (0 <? emprestimos_ativos u); auto.
    apply get_set_presente. auto.
Qed.

Lemma estoques_passo (s s' : Sistema) :
  passo s s' ->
  estoques_nao_negativos (modulo_catalogo s) ->
  estoques_nao_negativos (modulo_catalogo s').
Proof.
  intros Hp H.
  destruct Hp as [ | m i dias agora u l Hu Hl Hest Hpar |
                   | id agora e He Ha Hl
                   | id agora e l He Ha Hl Hu
                   | id agora e l u He Ha Hl Hu ];
    simpl; auto; apply Forall_values_set; auto; simpl;
    try (pose proof (Forall_values_get _ _ _ _ H Hl); simpl in *); lia.
Qed.

Lemma NoDup_passo (s s' : Sistema) :
  passo s s' ->
  NoDup (Dict.keys (modulo_usuarios s))
  /\ NoDup (Dict.keys (modulo_catalogo s))
  /\ NoDup (Dict.keys (emprestimos s)) ->
  NoDup (Dict.keys (modulo_usuarios s'))
  /\ NoDup (Dict.keys (modulo_catalogo s'))
  /\ NoDup (Dict.keys (emprestimos s')).
Proof.
  intros Hp [H1 [H2 H3]].
  destruct Hp as [ | m i dias agora u l Hu Hl Hest Hpar |
                   | id agora e He Ha Hl
                   | id agora e l He Ha Hl Hu
                   | id agora e l u He Ha Hl Hu ];
    simpl; repeat split; auto using NoDup_keys_set.
  destruct (0 <? emprestimos_ativos u); auto using NoDup_keys_set.
Qed.

Lemma coerente_passo (s s' : Sistema) :
  passo s s' -> coerente s -> coerente s'.
Proof.
  intros Hp [Hid [Hu [Hl [He [Hesp [Hal [Hau [Hest Hpar]]]]]]]].
  destruct (NoDup_passo _ _ Hp (conj Hu (conj Hl He))) as [Hu' [Hl' He']].
  repeat split; auto.
  - now apply (ids_gerados_passo s).
  - now apply (contador_espelha_passo s).
  - now apply (ativos_tem_livro_passo s).
  - now apply (ativos_tem_usuario_passo s).
  - now apply (estoques_passo s).
  - now apply (sem_par_duplicado_passo s).
Qed.

Lemma coerente_passo_catalogo (s : Sistema) (ls' : ModuloCatalogo.Estado) :
  passo_catalogo (modulo_catalogo s) ls' ->
  coerente s ->
  coerente (mkSistema (modulo_usuarios s) ls' (emprestimos s)
                      (contador_emprestimos s)).
Proof.
  intros Hp [Hid [Hu [Hl [He [Hesp [Hal [Hau [Hest Hpar]]]]]]]].
  destruct Hp as [ | i l Hi Hpos | i l l' Hi Heq ].
  - rewrite sistema_eta. repeat split; auto.
  - repeat split; auto; simpl.
    + now apply NoDup_keys_set.
    + intros e Hin Ha. apply get_set_presente. now apply Hal.
    + now apply Forall_values_set.
  - repeat split; auto; simpl.
    + now apply NoDup_keys_set.
    + intros e Hin Ha. apply get_set_presente. now apply Hal.
    + apply Forall_values_set; auto. rewrite Heq.
      exact (Forall_values_get _ _ _ _ Hest Hi).
Qed.

Lemma coerente_passo_usuarios (s : Sistema) (us' : ModuloUsuarios.Estado) :
  passo_usuarios (modulo_usuarios s) us' ->
  coerente s ->
  coerente (mkSistema us' (modulo_catalogo s) (emprestimos s)
                      (contador_emprestimos s)).
Proof.
  intros Hp [Hid [Hu [Hl [He [Hesp [Hal [Hau [Hest Hpar]]]]]]]].
  destruct Hp as [ | m u Hm Hc | m u u' Hm Hc | m u Hm Hc ].
  - rewrite sistema_eta. repeat split; auto.
  - (* a new user: no active loan can reference it *)
    assert (Hz : ativos_do_usuario m s = 0%nat).
    { apply quantos_zero. intros x Hx.
      destruct (ativo x) eqn:Ha; [|apply andb_false_r].
      unfold do_usuario.
      destruct (String.eqb_spec (matricula_usuario x) m) as [Heq|];
        [|reflexivity].
      exfalso. apply (Hau x Hx Ha). now rewrite Heq. }
    repeat split; auto; simpl.
    + now apply NoDup_keys_set.
    + intros m' x. simpl.
      destruct (String.eqb_spec m m') as [<-|Hne].
      * rewrite get_set_eq. intros [= <-].
        unfold ativos_do_usuario in *. simpl. rewrite Hc.
        unfold ModuloEmprestimo.listar_emprestimos in *. simpl.
        rewrite Hz. reflexivity.
      * rewrite get_set_ne by assumption. apply Hesp.
    + intros e Hin Ha. apply get_set_presente. now apply Hau.
  - repeat split; auto; simpl.
    + now apply NoDup_keys_set.
    + intros m' x. simpl.
      destruct (String.eqb_spec m m') as [<-|Hne].
      * rewrite get_set_eq. intros [= <-]. rewrite Hc. now apply Hesp.
      * rewrite get_set_ne by assumption. apply Hesp.
    + intros e Hin Ha. apply get_set_presente. now apply Hau.
  - (* a removed user has no active loan left *)
    assert (Hz : ativos_do_usuario m s = 0%nat).
    { pose proof (Hesp _ _ Hm). lia. }
    repeat split; auto; simpl.
    + now apply NoDup_keys_del.
    + intros m' x. simpl.
      destruct (String.eqb_spec m m') as [<-|Hne].
      * now rewrite (get_del_eq _ _ Hu).
      * rewrite get_del_ne by assumption. apply Hesp.
    + intros e Hin Ha.
      destruct (String.eqb_spec (matricula_usuario e) m) as [Heq|Hne].
      * exfalso.
        assert (0 < ativos_do_usuario m s)%nat; [|lia].
        apply quantos_positivo with (x := e); auto.
        unfold do_usuario. now rewrite Heq, String.eqb_refl, Ha.
      * simpl. rewrite get_del_ne by congruence. now apply Hau.
Qed.

Lemma coerente_inicial : coerente sistema_inicial.
Proof.
  unfold coerente.
  split; [intros k []|].
  split; [constructor|]. split; [constructor|]. split; [constructor|].
  split; [intros m u; discriminate|].
  split; [intros e []|]. split; [intros e []|].
  split; [constructor|].
  intros m i. apply Nat.le_0_l.
Qed.

Lemma coerente_aplicar (o : Operacao) (s : Sistema) :
  coerente s -> coerente (aplicar o s).
Proof.
  intros H.
  destruct (usuarios_passo (modulo_usuarios s)) as [U1 [U2 [U3 [U4 U5]]]].
  destruct (catalogo_passo (modulo_catalogo s)) as [C1 [C2 C3]].
  destruct o; simpl.
  1-5: rewrite snd_nos_usuarios; apply coerente_passo_usuarios; auto.
  1-3: rewrite snd_no_catalogo; apply coerente_passo_catalogo; auto.
  apply (coerente_passo s); auto. apply executar_passo.
Qed.

Lemma coerente_historia_desde (os : list Operacao) (s : Sistema) :
  coerente s -> coerente (fold_left (fun x o => aplicar o x) os s).
Proof.
  revert s. induction os as [|o r IH]; intros s H; simpl; auto.
  apply IH. now apply coerente_aplicar.
Qed.

Lemma coerente_historia (os : list Operacao) : coerente (historia os).
Proof. apply coerente_historia_desde. apply coerente_inicial. Qed.

(** X17: whatever users and books are registered, edited, blocked,
    unblocked or (users) removed and whatever loans are requested and
    returned on a freshly constructed system, as long as no book is removed
    from the catalog: every user's counter equals the number of that
    user's active loans and is not negative, no stock is negative, every
    active loan references a registered user and a book of the catalog, no
    user holds two active loans of one book, and no registry holds a key
    twice. *)
Theorem sistema_sempre_coerente (os : list Operacao) :
  coerente (historia os)
  /\ (forall m u,
        Dict.get (modulo_usuarios (historia os)) m = Some u ->
        0 <= emprestimos_ativos u)
  /\ (forall i l,
        Dict.get (modulo_catalogo (historia os)) i = Some l ->
        0 <= estoque l).
Proof.
  pose proof (coerente_historia os) as H. split; [exact H|].
  destruct H as [_ [_ [_ [_ [Hesp [_ [_ [Hest _]]]]]]]]. split.
  - intros m u Hu. rewrite (Hesp _ _ Hu). lia.
  - intros i l Hl. exact (Forall_values_get _ _ _ _ Hest Hl).
Qed.

(** X18: in every state such a history leads to, the return of an active
    loan succeeds: [registrar_devolucao] returns the loan marked returned
    at the time of the call, the stock of its book is one higher and the
    counter of its user, which was positive, is one lower. *)
Theorem devolucao_de_ativo_sucede
    (os : list Operacao) (id : string) (e : Emprestimo) (agora : datetime) :
  Dict.get (emprestimos (historia os)) id = Some e ->
  status e = ATIVO ->
  exists s' l u,
    ModuloEmprestimo.registrar_devolucao id agora (historia os)
    = (inr (devolvido_em e agora), s')
    /\ Dict.get (modulo_catalogo (historia os)) (isbn_livro e) = Some l
    /\ Dict.get (modulo_usuarios (historia os)) (matricula_usuario e) = Some u
    /\ 0 < emprestimos_ativos u
    /\ Dict.get (modulo_catalogo s') (isbn_livro e)
       = Some (com_estoque l (estoque l + 1))
    /\ Dict.get (modulo_usuarios s') (matricula_usuario e)
       = Some (com_emprestimos_ativos u (emprestimos_ativos u - 1))
    /\ Dict.get (emprestimos s') id = Some (devolvido_em e agora).
Proof.
  intros He Hst.
  destruct (coerente_historia os)
    as [_ [_ [_ [_ [Hesp [Hal [Hau _]]]]]]].
  assert (Ha : ativo e = true) by now apply ativo_status.
  pose proof (get_Some_In _ _ _ He) as Hin.
  destruct (Dict.get (modulo_catalogo (historia os)) (isbn_livro e))
    as [l|] eqn:Hl; [|exfalso; now apply (Hal e Hin Ha)].
  destruct (Dict.get (modulo_usuarios (historia os)) (matricula_usuario e))
    as [u|] eqn:Hu; [|exfalso; now apply (Hau e Hin Ha)].
  assert (Hpos : 0 < emprestimos_ativos u).
  { rewrite (Hesp _ _ Hu).
    assert (0 < ativos_do_usuario (matricula_usuario e) (historia os))%nat;
      [|lia].
    apply quantos_positivo with (x := e); auto.
    unfold do_usuario. now rewrite String.eqb_refl, Ha. }
  rewrite registrar_devolucao_casos, He, Ha, Hl, Hu. cbv zeta.
  assert (Hb : (0 <? emprestimos_ativos u) = true) by now apply Z.ltb_lt.
  rewrite Hb. eexists. exists l, u. split; [reflexivity|].
  simpl. rewrite !get_set_eq. repeat split; auto.
Qed.

Lemma devolucao_de_ativo_sucede_exemplo :
  exists s' l u,
    ModuloEmprestimo.registrar_devolucao "EMP-00001" 2000
      (historia
         [CadastrarUsuario "U1" "Ana Souza" ALUNO None None;
          CadastrarLivro "B1" "Dom Casmurro" "Machado de Assis" 1 None None;
          BloquearUsuario "U1"; DesbloquearUsuario "U1";
          Coordenador (Emprestar "U1" "B1" 7 1000)])
    = (inr (mkEmprestimo "EMP-00001" "U1" "B1" 1000 604800001000
                         (Some 2000) DEVOLVIDO), s')
    /\ Dict.get
         (modulo_catalogo
            (historia
               [CadastrarUsuario "U1" "Ana Souza" ALUNO None None;
                CadastrarLivro "B1" "Dom Casmurro" "Machado de Assis" 1
                               None None;
                BloquearUsuario "U1"; DesbloquearUsuario "U1";
                Coordenador (Emprestar "U1" "B1" 7 1000)]))
         "B1" = Some l
    /\ Dict.get
         (modulo_usuarios
            (historia
               [CadastrarUsuario "U1" "Ana Souza" ALUNO None None;
                CadastrarLivro "B1" "Dom Casmurro" "Machado de Assis" 1
                               None None;
                BloquearUsuario "U1"; DesbloquearUsuario "U1";
                Coordenador (Emprestar "U1" "B1" 7 1000)]))
         "U1" = Some u
    /\ 0 < emprestimos_ativos u
    /\ Dict.get (modulo_catalogo s') "B1"
       = Some (com_estoque l (estoque l + 1))
    /\ Dict.get (modulo_usuarios s') "U1"
       = Some (com_emprestimos_ativos u (emprestimos_ativos u - 1))
    /\ Dict.get (emprestimos s') "EMP-00001"
       = Some (mkEmprestimo "EMP-00001" "U1" "B1" 1000 604800001000
                            (Some 2000) DEVOLVIDO).
Proof.
  apply (devolucao_de_ativo_sucede
           [CadastrarUsuario "U1" "Ana Souza" ALUNO None None;
            CadastrarLivro "B1" "Dom Casmurro" "Machado de Assis" 1 None None;
            BloquearUsuario "U1"; DesbloquearUsuario "U1";
            Coordenador (Emprestar "U1" "B1" 7 1000)]
           "EMP-00001"
           (mkEmprestimo "EMP-00001" "U1" "B1" 1000 604800001000 None ATIVO)
           2000);
    reflexivity.
Defined.

(** ** Rankings *)

Lemma In_firstn_In {A : Type} (n : nat) (l : list A) (x : A) :
  In x (firstn n l) -> In x l.
Proof.
  revert l. induction n as [|n IH]; intros [|y r]; simpl; try tauto.
  intros [H|H]; auto.
Qed.

Lemma NoDup_firstn_de {A : Type} (n : nat) (l : list A) :
  NoDup l -> NoDup (firstn n l).
Proof.
  revert l. induction n as [|n IH]; intros [|y r] H; simpl;
    try constructor.
  - inversion H; subst. intros Hin. now apply In_firstn_In in Hin.
  - inversion H; subst. now apply IH.
Qed.

Lemma StronglySorted_firstn {A : Type} (R : A -> A -> Prop) (n : nat)
    (l : list A) :
  StronglySorted R l -> StronglySorted R (firstn n l).
Proof.
  revert l. induction n as [|n IH]; intros [|y r] H; simpl;
    try constructor.
  - inversion H; subst. now apply IH.
  - inversion H as [|? ? Hr Hy]; subst.
    apply Forall_forall. intros x Hx. apply In_firstn_In in Hx.
    revert x Hx. now apply Forall_forall.
Qed.

Section Contagem.

(** The key the loans are counted by: the book or the user. *)
Variable chave : Emprestimo -> string.

Lemma contagem_por_chave (l : list Emprestimo) :
  forall (c : Dict.t Z) (i : string),
    Dict.get
      (fold_left
         (fun c e =>
            Dict.set c (chave e)
              (match Dict.get c (chave e) with Some n => n | None => 0 end
               + 1)) l c) i
    = if (quantos (fun e => String.eqb (chave e) i) l =? 0)%nat
      then Dict.get c i
      else Some (valor c i
                 + Z.of_nat (quantos (fun e => String.eqb (chave e) i) l)).
Proof.
  unfold quantos.
  induction l as [|e r IH]; intros c i; [reflexivity|].
  simpl fold_left. rewrite IH.
  fold (valor c (chave e)). rewrite valor_set. simpl filter.
  destruct (String.eqb_spec (chave e) i) as [Heq|Hne].
  - rewrite Heq, get_set_eq. simpl List.length.
    destruct (List.length (filter (fun e => String.eqb (chave e) i) r))
      as [|n] eqn:Hn; simpl; f_equal; lia.
  - rewrite get_set_ne by assumption. reflexivity.
Qed.

Lemma contagem_por_chave_NoDup (l : list Emprestimo) :
  forall c : Dict.t Z,
    NoDup (Dict.keys c) ->
    NoDup (Dict.keys
             (fold_left
                (fun c e =>
                   Dict.set c (chave e)
                     (match Dict.get c (chave e) with
                      | Some n => n
                      | None => 0
                      end + 1)) l c)).
Proof.
  induction l as [|e r IH]; intros c Hc; simpl; auto.
  apply IH. now apply NoDup_keys_set.
Qed.

Lemma contagem_por_chave_tamanho (l : list Emprestimo) :
  forall c : Dict.t Z,
    (List.length
       (fold_left
          (fun (c : Dict.t Z) e =>
             Dict.set c (chave e)
               (match Dict.get c (chave e) with
                | Some n => n
                | None => 0%Z
                end + 1)%Z) l c)
     <= List.length c + List.length l)%nat.
Proof.
  assert (H : forall (d : Dict.t Z) k v,
             (List.length (Dict.set d k v) <= S (List.length d))%nat).
  { induction d as [|[k0 v0] d' IHd]; intros k v; simpl; [lia|].
    destruct (String.eqb k0 k); simpl; [lia|].
    specialize (IHd k v). lia. }
  induction l as [|e r IH]; intros c; simpl; [lia|].
  etransitivity; [apply IH|].
  match goal with |- (List.length (Dict.set ?d ?k ?v) + _ <= _)%nat =>
    specialize (H d k v) end.
  lia.
Qed.

End Contagem.

Section Classificacao.

Context {B : Type}.

(** The entry made from one pair of the ranking, its key and its count. *)
Variable linha : string * Z -> list B.
Variable chave_de : B -> string.
Variable quantidade_de : B -> Z.

Hypothesis linha_do_par :
  forall p b,
    In b (linha p) ->
    linha p = [b] /\ chave_de b = fst p /\ quantidade_de b = snd p.

Lemma linha_no_maximo_uma (p : string * Z) : (List.length (linha p) <= 1)%nat.
Proof.
  destruct (linha p) as [|b r] eqn:H; simpl; [lia|].
  destruct (linha_do_par p b) as [Heq _]; [rewrite H; now left|].
  rewrite H in Heq. injection Heq as ->. simpl. lia.
Qed.

Lemma linhas_tamanho (L : list (string * Z)) :
  (List.length (flat_map linha L) <= List.length L)%nat.
Proof.
  induction L as [|p r IH]; simpl; [lia|].
  rewrite length_app. pose proof (linha_no_maximo_uma p). lia.
Qed.

Lemma linhas_origem (L : list (string * Z)) (b : B) :
  In b (flat_map linha L) -> In (chave_de b, quantidade_de b) L.
Proof.
  intros H. apply in_flat_map in H. destruct H as [[k q] [Hp Hb]].
  destruct (linha_do_par _ _ Hb) as [_ [-> ->]]. exact Hp.
Qed.

Lemma linhas_ordenadas (L : list (string * Z)) :
  StronglySorted nao_abaixo L ->
  StronglySorted (fun a b => quantidade_de b <= quantidade_de a)
                 (flat_map linha L).
Proof.
  induction 1 as [|p r Hr IH Hp]; simpl; [constructor|].
  destruct (linha p) as [|b t] eqn:Hl; simpl; [exact IH|].
  destruct (linha_do_par p b) as [Heq [_ Hq]]; [rewrite Hl; now left|].
  rewrite Hl in Heq. injection Heq as ->. simpl.
  constructor; [exact IH|].
  apply Forall_forall. intros b' Hb'. apply linhas_origem in Hb'.
  rewrite Forall_forall in Hp. specialize (Hp _ Hb').
  unfold nao_abaixo in Hp. simpl in Hp. lia.
Qed.

Lemma linhas_sem_repeticao (L : list (string * Z)) :
  NoDup (map fst L) -> NoDup (map chave_de (flat_map linha L)).
Proof.
  induction L as [|p r IH]; simpl; intros Hnd; [constructor|].
  inversion Hnd as [|? ? Hin Hr]; subst.
  destruct (linha p) as [|b t] eqn:Hl; simpl; [now apply IH|].
  destruct (linha_do_par p b) as [Heq [Hk _]]; [rewrite Hl; now left|].
  rewrite Hl in Heq. injection Heq as ->. simpl.
  constructor; [|now apply IH].
  intros Hc. apply in_map_iff in Hc. destruct Hc as [b' [Hkb Hb']].
  apply linhas_origem in Hb'. apply Hin.
  rewrite <- Hk, <- Hkb.
  change (chave_de b') with (fst (chave_de b', quantidade_de b')).
  now apply in_map.
Qed.

End Classificacao.

(** The first [n] pairs of a tally sorted by descending count. *)
Lemma ranking_pares (c : Dict.t Z) (n : nat) :
  NoDup (Dict.keys c) ->
  StronglySorted nao_abaixo (firstn n (sorted_reverse (Dict.items c)))
  /\ NoDup (map fst (firstn n (sorted_reverse (Dict.items c))))
  /\ (forall k q,
        In (k, q) (firstn n (sorted_reverse (Dict.items c))) ->
        Dict.get c k = Some q)
  /\ ((List.length c <= n)%nat ->
      forall k q,
        Dict.get c k = Some q ->
        In (k, q) (firstn n (sorted_reverse (Dict.items c)))).
Proof.
  intros Hnd.
  pose proof (sorted_reverse_perm (Dict.items c)) as Hperm.
  split; [|split; [|split]].
  - apply StronglySorted_firstn. apply sorted_reverse_ordenada.
  - rewrite <- firstn_map. apply NoDup_firstn_de.
    apply (Permutation_NoDup (Permutation_sym (Permutation_map fst Hperm))).
    exact Hnd.
  - intros k q Hin. apply In_firstn_In in Hin.
    apply In_items_get; auto.
    exact (Permutation_in _ Hperm Hin).
  - intros Hlen k q Hget.
    rewrite firstn_all2
      by (rewrite (Permutation_length Hperm); exact Hlen).
    apply (Permutation_in _ (Permutation_sym Hperm)).
    unfold Dict.items. clear -Hget.
    induction c as [|[k0 v0] r IH]; simpl in *; [discriminate|].
    destruct (String.eqb_spec k0 k) as [->|Hne].
    + injection Hget as ->. now left.
    + right. now apply IH.
Qed.

Lemma ranking_linhas {B : Type} (linha : string * Z -> list B)
    (chave_de : B -> string) (quantidade_de : B -> Z) (c : Dict.t Z)
    (n : nat) :
  (forall p b,
      In b (linha p) ->
      linha p = [b] /\ chave_de b = fst p /\ quantidade_de b = snd p) ->
  NoDup (Dict.keys c) ->
  (List.length (flat_map linha (firstn n (sorted_reverse (Dict.items c))))
   <= n)%nat
  /\ StronglySorted
       (fun a b => quantidade_de b <= quantidade_de a)
       (flat_map linha (firstn n (sorted_reverse (Dict.items c))))
  /\ NoDup (map chave_de
                (flat_map linha (firstn n (sorted_reverse (Dict.items c)))))
  /\ (forall b,
        In b (flat_map linha (firstn n (sorted_reverse (Dict.items c)))) ->
        Dict.get c (chave_de b) = Some (quantidade_de b)).
Proof.
  intros Hpar Hnd.
  destruct (ranking_pares c n Hnd) as [Hs [Hn [Hget _]]].
  split; [|split; [|split]].
  - etransitivity; [apply (linhas_tamanho linha chave_de quantidade_de Hpar)|].
    apply firstn_le_length.
  - now apply (linhas_ordenadas linha chave_de quantidade_de Hpar).
  - now apply (linhas_sem_repeticao linha chave_de quantidade_de Hpar).
  - intros b Hb. apply Hget.
    now apply (linhas_origem linha chave_de quantidade_de Hpar).
Qed.

Lemma linha_usuario_par (us : ModuloUsuarios.Estado) (p : string * Z)
    (b : ModuloRelatorios.LinhaUsuario) :
  In b (linha_usuario us p) ->
  linha_usuario us p = [b]
  /\ ModuloRelatorios.lu_matricula b = fst p
  /\ ModuloRelatorios.lu_quantidade_emprestimos b = snd p.
Proof.
  unfold linha_usuario. destruct (Dict.get us (fst p)); [|intros []].
  intros [<-|[]]. repeat split.
Qed.

Lemma linha_livro_par (ls : ModuloCatalogo.Estado) (p : string * Z)
    (b : ModuloRelatorios.LinhaLivro) :
  In b (linha_livro ls p) ->
  linha_livro ls p = [b]
  /\ ModuloRelatorios.ll_isbn b = fst p
  /\ ModuloRelatorios.ll_quantidade_emprestimos b = snd p.
Proof.
  unfold linha_livro. destruct (Dict.get ls (fst p)); [|intros []].
  intros [<-|[]]. repeat split.
Qed.

Lemma juntar_usuarios_linhas (us : ModuloUsuarios.Estado)
    (l : list (string * Z)) :
  forall resultado,
    ModuloRelatorios.juntar_usuarios l resultado us
    = (inr (resultado ++ flat_map (linha_usuario us) l), us).
Proof.
  induction l as [|[m q] r IH]; intros resultado.
  - simpl. unfold ret. now rewrite app_nil_r.
  - simpl ModuloRelatorios.juntar_usuarios.
    unfold bind, tentar_tudo, ModuloUsuarios.obter_usuario, ler, ret,
      levantar.
    simpl flat_map. unfold linha_usuario at 1. cbn.
    destruct (Dict.get us m) as [u|]; cbn.
    + rewrite IH, <- app_assoc. reflexivity.
    + apply IH.
Qed.

(** The number of loans a tally holds for a key. *)
Lemma contagem_valor (chave : Emprestimo -> string) (l : list Emprestimo)
    (k : string) (q : Z) :
  Dict.get
    (fold_left
       (fun (c : Dict.t Z) e =>
          Dict.set c (chave e)
            (match Dict.get c (chave e) with Some n => n | None => 0 end + 1))
       l Dict.vazio) k = Some q <->
  q = Z.of_nat (List.length (filter (fun e => String.eqb (chave e) k) l))
  /\ 0 < q.
Proof.
  rewrite contagem_por_chave. unfold quantos, valor. simpl.
  destruct (List.length (filter (fun e => String.eqb (chave e) k) l))
    as [|n]; simpl.
  - split; [discriminate|]. intros [-> H]. lia.
  - split.
    + intros [= <-]. split; lia.
    + intros [-> _]. f_equal.
Qed.

(** X19: for a limit that is not negative,
    [relatorio_usuarios_mais_ativos] returns normally and changes nothing.
    Its entries are at most [limite], in order of descending count, one
    per user at most; each is a registered user, with the name and the
    label of the type the registry holds and with the number of loans of
    that user, active or returned, which is positive.  When the limit is
    not below the number of loans, every registered user with a loan has
    an entry. *)
Theorem relatorio_usuarios_mais_ativos_linhas (limite : Z) (s : Sistema) :
  0 <= limite ->
  exists linhas,
    ModuloRelatorios.relatorio_usuarios_mais_ativos limite s = (inr linhas, s)
    /\ (List.length linhas <= Z.to_nat limite)%nat
    /\ StronglySorted
         (fun a b => ModuloRelatorios.lu_quantidade_emprestimos b
                     <= ModuloRelatorios.lu_quantidade_emprestimos a)
         linhas
    /\ NoDup (map ModuloRelatorios.lu_matricula linhas)
    /\ (forall ln,
          In ln linhas ->
          exists u,
            Dict.get (modulo_usuarios s) (ModuloRelatorios.lu_matricula ln)
            = Some u
            /\ ModuloRelatorios.lu_nome ln = nome u
            /\ ModuloRelatorios.lu_tipo ln = TipoUsuario_value (tipo u)
            /\ ModuloRelatorios.lu_quantidade_emprestimos ln
               = Z.of_nat
                   (List.length
                      (ModuloEmprestimo.listar_emprestimos_por_usuario
                         (ModuloRelatorios.lu_matricula ln) s))
            /\ 0 < ModuloRelatorios.lu_quantidade_emprestimos ln)
    /\ ((List.length (ModuloEmprestimo.listar_emprestimos s)
         <= Z.to_nat limite)%nat ->
        forall m u,
          Dict.get (modulo_usuarios s) m = Some u ->
          ModuloEmprestimo.listar_emprestimos_por_usuario m s <> [] ->
          exists ln, In ln linhas /\ ModuloRelatorios.lu_matricula ln = m).
Proof.
  intros Hlim.
  unfold ModuloRelatorios.relatorio_usuarios_mais_ativos, bind, ler,
    nos_usuarios.
  rewrite juntar_usuarios_linhas, fatiar_ate_nao_negativo by assumption.
  simpl app. rewrite sistema_eta.
  set (c := ModuloRelatorios.contagem_por_usuario
              (ModuloEmprestimo.listar_emprestimos s)).
  assert (Hnd : NoDup (Dict.keys c))
    by (apply (contagem_por_chave_NoDup matricula_usuario); constructor).
  destruct (ranking_linhas (linha_usuario (modulo_usuarios s))
              ModuloRelatorios.lu_matricula
              ModuloRelatorios.lu_quantidade_emprestimos c
              (Z.to_nat limite) (linha_usuario_par _) Hnd)
    as [Hlen [Hsort [Hnodup Hget]]].
  eexists. split; [reflexivity|].
  split; [exact Hlen|]. split; [exact Hsort|]. split; [exact Hnodup|].
  split.
  - intros ln Hln. pose proof (Hget ln Hln) as Hq.
    apply (contagem_valor matricula_usuario) in Hq. destruct Hq as [Hq Hpos].
    apply in_flat_map in Hln. destruct Hln as [[k q] [_ Hin]].
    unfold linha_usuario in Hin. simpl in Hin.
    destruct (Dict.get (modulo_usuarios s) k) as [u|] eqn:Hu; [|destruct Hin].
    destruct Hin as [<-|[]]. simpl in *. exists u. repeat split; auto.
  - intros Hn m u Hu Hne.
    assert (Hc : (List.length c <= Z.to_nat limite)%nat).
    { etransitivity;
        [apply (contagem_por_chave_tamanho matricula_usuario)|].
      simpl. exact Hn. }
    destruct (ranking_pares c (Z.to_nat limite) Hnd) as [_ [_ [_ Hall]]].
    specialize (Hall Hc m
      (Z.of_nat (List.length
                   (ModuloEmprestimo.listar_emprestimos_por_usuario m s)))).
    assert (Hm : Dict.get c m
                 = Some (Z.of_nat
                           (List.length
                              (ModuloEmprestimo.listar_emprestimos_por_usuario
                                 m s)))).
    { apply (contagem_valor matricula_usuario). split; [reflexivity|].
      destruct (ModuloEmprestimo.listar_emprestimos_por_usuario m s);
        [congruence|simpl; lia]. }
    specialize (Hall Hm).
    eexists. split.
    + apply in_flat_map. eexists. split; [exact Hall|].
      unfold linha_usuario. simpl. rewrite Hu. now left.
    + reflexivity.
Qed.

Lemma relatorio_usuarios_mais_ativos_exemplo :
  exists linhas,
    ModuloRelatorios.relatorio_usuarios_mais_ativos 10 ex_quatro_emprestimos
    = (inr linhas, ex_quatro_emprestimos)
    /\ (List.length linhas <= Z.to_nat 10)%nat
    /\ StronglySorted
         (fun a b => ModuloRelatorios.lu_quantidade_emprestimos b
                     <= ModuloRelatorios.lu_quantidade_emprestimos a)
         linhas
    /\ NoDup (map ModuloRelatorios.lu_matricula linhas)
    /\ (forall ln,
          In ln linhas ->
          exists u,
            Dict.get (modulo_usuarios ex_quatro_emprestimos)
                     (ModuloRelatorios.lu_matricula ln)
            = Some u
            /\ ModuloRelatorios.lu_nome ln = nome u
            /\ ModuloRelatorios.lu_tipo ln = TipoUsuario_value (tipo u)
            /\ ModuloRelatorios.lu_quantidade_emprestimos ln
               = Z.of_nat
                   (List.length
                      (ModuloEmprestimo.listar_emprestimos_por_usuario
                         (ModuloRelatorios.lu_matricula ln)
                         ex_quatro_emprestimos))
            /\ 0 < ModuloRelatorios.lu_quantidade_emprestimos ln)
    /\ ((List.length
           (ModuloEmprestimo.listar_emprestimos ex_quatro_emprestimos)
         <= Z.to_nat 10)%nat ->
        forall m u,
          Dict.get (modulo_usuarios ex_quatro_emprestimos) m = Some u ->
          ModuloEmprestimo.listar_emprestimos_por_usuario
            m ex_quatro_emprestimos <> [] ->
          exists ln, In ln linhas /\ ModuloRelatorios.lu_matricula ln = m).
Proof.
  apply (relatorio_usuarios_mais_ativos_linhas 10 ex_quatro_emprestimos).
  lia.
Defined.

Example relatorio_usuarios_mais_ativos_no_cenario :
  fst (ModuloRelatorios.relatorio_usuarios_mais_ativos
         10 ex_quatro_emprestimos)
  = inr [ModuloRelatorios.mkLinhaUsuario "U1" "Ana Souza" "Aluno" 4].
Proof. reflexivity. Qed.

(** X20: for a limit that is not negative, the entries of
    [relatorio_livros_mais_emprestados] are at most [limite], in order of
    descending count, one per book at most; each is a book of the catalog,
    with the title and the author the catalog holds and with the number of
    loans of that book, active or returned, which is positive.  When the
    limit is not below the number of loans, every book of the catalog that
    was ever lent has an entry. *)
Theorem relatorio_livros_mais_emprestados_ranking (limite : Z) (s : Sistema) :
  0 <= limite ->
  exists linhas,
    ModuloRelatorios.relatorio_livros_mais_emprestados limite s
    = (inr linhas, s)
    /\ (List.length linhas <= Z.to_nat limite)%nat
    /\ StronglySorted
         (fun a b => ModuloRelatorios.ll_quantidade_emprestimos b
                     <= ModuloRelatorios.ll_quantidade_emprestimos a)
         linhas
    /\ NoDup (map ModuloRelatorios.ll_isbn linhas)
    /\ (forall ln,
          In ln linhas ->
          exists l,
            Dict.get (modulo_catalogo s) (ModuloRelatorios.ll_isbn ln)
            = Some l
            /\ ModuloRelatorios.ll_titulo ln = titulo l
            /\ ModuloRelatorios.ll_autor ln = autor l
            /\ ModuloRelatorios.ll_quantidade_emprestimos ln
               = Z.of_nat
                   (List.length
                      (ModuloEmprestimo.listar_emprestimos_por_livro
                         (ModuloRelatorios.ll_isbn ln) s))
            /\ 0 < ModuloRelatorios.ll_quantidade_emprestimos ln)
    /\ ((List.length (ModuloEmprestimo.listar_emprestimos s)
         <= Z.to_nat limite)%nat ->
        forall i l,
          Dict.get (modulo_catalogo s) i = Some l ->
          ModuloEmprestimo.listar_emprestimos_por_livro i s <> [] ->
          exists ln, In ln linhas /\ ModuloRelatorios.ll_isbn ln = i).
Proof.
  intros Hlim.
  unfold ModuloRelatorios.relatorio_livros_mais_emprestados, bind, ler,
    no_catalogo.
  rewrite juntar_livros_linhas, fatiar_ate_nao_negativo by assumption.
  simpl app. rewrite sistema_eta.
  set (c := ModuloRelatorios.contagem_emprestimos
              (ModuloEmprestimo.listar_emprestimos s)).
  assert (Hnd : NoDup (Dict.keys c))
    by (apply (contagem_por_chave_NoDup isbn_livro); constructor).
  destruct (ranking_linhas (linha_livro (modulo_catalogo s))
              ModuloRelatorios.ll_isbn
              ModuloRelatorios.ll_quantidade_emprestimos c
              (Z.to_nat limite) (linha_livro_par _) Hnd)
    as [Hlen [Hsort [Hnodup Hget]]].
  eexists. split; [reflexivity|].
  split; [exact Hlen|]. split; [exact Hsort|]. split; [exact Hnodup|].
  split.
  - intros ln Hln. pose proof (Hget ln Hln) as Hq.
    apply (contagem_valor isbn_livro) in Hq. destruct Hq as [Hq Hpos].
    apply in_flat_map in Hln. destruct Hln as [[k q] [_ Hin]].
    unfold linha_livro in Hin. simpl in Hin.
    destruct (Dict.get (modulo_catalogo s) k) as [l|] eqn:Hl; [|destruct Hin].
    destruct Hin as [<-|[]]. simpl in *. exists l. repeat split; auto.
  - intros Hn i l Hl Hne.
    assert (Hc : (List.length c <= Z.to_nat limite)%nat).
    { etransitivity; [apply (contagem_por_chave_tamanho isbn_livro)|].
      simpl. exact Hn. }
    destruct (ranking_pares c (Z.to_nat limite) Hnd) as [_ [_ [_ Hall]]].
    specialize (Hall Hc i
      (Z.of_nat (List.length
                   (ModuloEmprestimo.listar_emprestimos_por_livro i s)))).
    assert (Hi : Dict.get c i
                 = Some (Z.of_nat
                           (List.length
                              (ModuloEmprestimo.listar_emprestimos_por_livro
                                 i s)))).
    { apply (contagem_valor isbn_livro). split; [reflexivity|].
      destruct (ModuloEmprestimo.listar_emprestimos_por_livro i s);
        [congruence|simpl; lia]. }
    specialize (Hall Hi).
    eexists. split.
    + apply in_flat_map. eexists. split; [exact Hall|].
      unfold linha_livro. simpl. rewrite Hl. now left.
    + reflexivity.
Qed.

Lemma relatorio_livros_mais_emprestados_ranking_exemplo :
  exists linhas,
    ModuloRelatorios.relatorio_livros_mais_emprestados 1 ex_quatro_emprestimos
    = (inr linhas, ex_quatro_emprestimos)
    /\ (List.length linhas <= Z.to_nat 1)%nat
    /\ StronglySorted
         (fun a b => ModuloRelatorios.ll_quantidade_emprestimos b
                     <= ModuloRelatorios.ll_quantidade_emprestimos a)
         linhas
    /\ NoDup (map ModuloRelatorios.ll_isbn linhas)
    /\ (forall ln,
          In ln linhas ->
          exists l,
            Dict.get (modulo_catalogo ex_quatro_emprestimos)
                     (ModuloRelatorios.ll_isbn ln)
            = Some l
            /\ ModuloRelatorios.ll_titulo ln = titulo l
            /\ ModuloRelatorios.ll_autor ln = autor l
            /\ ModuloRelatorios.ll_quantidade_emprestimos ln
               = Z.of_nat
                   (List.length
                      (ModuloEmprestimo.listar_emprestimos_por_livro
                         (ModuloRelatorios.ll_isbn ln)
                         ex_quatro_emprestimos))
            /\ 0 < ModuloRelatorios.ll_quantidade_emprestimos ln)
    /\ ((List.length
           (ModuloEmprestimo.listar_emprestimos ex_quatro_emprestimos)
         <= Z.to_nat 1)%nat ->
        forall i l,
          Dict.get (modulo_catalogo ex_quatro_emprestimos) i = Some l ->
          ModuloEmprestimo.listar_emprestimos_por_livro
            i ex_quatro_emprestimos <> [] ->
          exists ln, In ln linhas /\ ModuloRelatorios.ll_isbn ln = i).
Proof.
  apply (relatorio_livros_mais_emprestados_ranking 1 ex_quatro_emprestimos).
  lia.
Defined.

(** ** Summaries *)

Lemma status_value_ativo (st : StatusUsuario) :
  String.eqb (StatusUsuario_value st) "Ativo" = StatusUsuario_eqb st U_ATIVO.
Proof. now destruct st. Qed.

Lemma status_value_bloqueado (st : StatusUsuario) :
  String.eqb (StatusUsuario_value st) "Bloqueado"
  = StatusUsuario_eqb st BLOQUEADO.
Proof. now destruct st. Qed.

Lemma quantos_por_status (us : list Usuario) :
  (quantos (fun u => StatusUsuario_eqb (u_status u) U_ATIVO) us
   + quantos (fun u => StatusUsuario_eqb (u_status u) BLOQUEADO) us
   + quantos (fun u => StatusUsuario_eqb (u_status u) INATIVO) us
   = List.length us)%nat.
Proof.
  unfold quantos. induction us as [|u r IH]; simpl; [reflexivity|].
  destruct (u_status u); simpl; lia.
Qed.

Lemma filter_ext_quantos {A : Type} (p q : A -> bool) (l : list A) :
  (forall x, p x = q x) -> filter p l = filter q l.
Proof.
  intros H. induction l as [|x r IH]; simpl; auto.
  rewrite H, IH. reflexivity.
Qed.

Section Resumos.

Variable isoformat : datetime -> string.
Variable relogio : nat -> datetime.

(** X21: [relatorio_usuarios] returns normally and changes nothing.  Its
    total is the number of registered users, its two counts are the
    numbers of users whose status is "active" and "blocked", and together
    with the users whose status is "inactive", which it does not report,
    they make up the total. *)
Theorem relatorio_usuarios_totais (s : Sistema) :
  exists r,
    ModuloRelatorios.relatorio_usuarios isoformat relogio s = (inr r, s)
    /\ ModuloRelatorios.total_usuarios r
       = Z.of_nat (List.length (Dict.keys (modulo_usuarios s)))
    /\ ModuloRelatorios.usuarios_ativos r
       = Z.of_nat (quantos (fun u => StatusUsuario_eqb (u_status u) U_ATIVO)
                           (ModuloUsuarios.listar_usuarios (modulo_usuarios s)))
    /\ ModuloRelatorios.usuarios_bloqueados r
       = Z.of_nat (quantos (fun u => StatusUsuario_eqb (u_status u) BLOQUEADO)
                           (ModuloUsuarios.listar_usuarios (modulo_usuarios s)))
    /\ ModuloRelatorios.usuarios_ativos r
       + ModuloRelatorios.usuarios_bloqueados r
       + Z.of_nat (quantos (fun u => StatusUsuario_eqb (u_status u) INATIVO)
                           (ModuloUsuarios.listar_usuarios (modulo_usuarios s)))
       = ModuloRelatorios.total_usuarios r
    /\ ModuloRelatorios.ru_data_geracao r = isoformat (relogio 0%nat).
Proof.
  eexists. split; [reflexivity|]. simpl.
  rewrite !sum_soma, !soma_de_uns.
  rewrite (filter_ext_quantos _ _ _
             (fun u => status_value_ativo (u_status u))).
  rewrite (filter_ext_quantos _ _ _
             (fun u => status_value_bloqueado (u_status u))).
  pose proof (quantos_por_status
                (ModuloUsuarios.listar_usuarios (modulo_usuarios s))) as H.
  unfold quantos, ModuloUsuarios.listar_usuarios, Dict.values, Dict.keys in *.
  rewrite !length_map in *. repeat split. lia.
Qed.

(** X22: the numbers of [relatorio_acervo] agree with each other when no
    stock is negative: the books without stock are at most the titles, the
    copies are not negative, and there is no copy at all exactly when
    every title is without stock. *)
Theorem relatorio_acervo_consistente (s : Sistema) :
  estoques_nao_negativos (modulo_catalogo s) ->
  exists a,
    ModuloRelatorios.relatorio_acervo isoformat relogio s = (inr a, s)
    /\ 0 <= ModuloRelatorios.livros_indisponveis a
       <= ModuloRelatorios.total_titulos a
    /\ 0 <= ModuloRelatorios.total_copias_disponiveis a
    /\ (ModuloRelatorios.total_copias_disponiveis a = 0 <->
        ModuloRelatorios.livros_indisponveis a
        = ModuloRelatorios.total_titulos a).
Proof.
  intros Hest. eexists. split; [reflexivity|]. simpl.
  rewrite !sum_soma, soma_de_uns.
  unfold estoques_nao_negativos, ModuloCatalogo.listar_livros in *.
  induction (Dict.values (modulo_catalogo s)) as [|l r IH].
  - simpl. repeat split; lia.
  - inversion Hest as [|? ? Hl Hr]; subst. specialize (IH Hr).
    destruct IH as [[I1 I2] [I3 [I4 I5]]].
    cbn [map filter soma fold_right]. fold (soma (map estoque r)).
    destruct (Z.eqb_spec (estoque l) 0) as [Hz|Hnz];
      cbn [List.length]; rewrite ?Nat2Z.inj_succ;
      repeat split; intros; lia.
Qed.

End Resumos.

Lemma relatorio_acervo_consistente_exemplo :
  exists a,
    ModuloRelatorios.relatorio_acervo (fun _ => "") (fun _ => 7000)
                                      ex_quatro_emprestimos
    = (inr a, ex_quatro_emprestimos)
    /\ 0 <= ModuloRelatorios.livros_indisponveis a
       <= ModuloRelatorios.total_titulos a
    /\ 0 <= ModuloRelatorios.total_copias_disponiveis a
    /\ (ModuloRelatorios.total_copias_disponiveis a = 0 <->
        ModuloRelatorios.livros_indisponveis a
        = ModuloRelatorios.total_titulos a).
Proof.
  apply (relatorio_acervo_consistente (fun _ => "") (fun _ => 7000)
                                      ex_quatro_emprestimos).
  unfold estoques_nao_negativos.
  avaliar (Dict.values (modulo_catalogo ex_quatro_emprestimos)).
  repeat constructor; simpl; lia.
Defined.

Example relatorio_usuarios_no_cenario :
  fst (ModuloRelatorios.relatorio_usuarios (fun _ => "") (fun _ => 7000)
                                           ex_bloqueado)
  = inr (ModuloRelatorios.mkResumoUsuarios 1 0 1 "").
Proof. reflexivity. Qed.

(** ** The status of a book, its removal, the counter of a user *)

(** X23: the status of a book decides nothing: whatever status
    [atualizar_status] gives a book, [verificar_disponibilidade] answers
    as before and every [registrar_emprestimo] returns or raises as it
    would have without the change; and a loan never changes the status of
    its book, which stays what it was even when the last copy leaves. *)
Theorem status_do_livro_nao_decide
    (s : Sistema) (i : string) (st : StatusLivro) (m i' : string) (dias : Z)
    (agora : datetime) :
  fst (ModuloCatalogo.verificar_disponibilidade i'
         (snd (ModuloCatalogo.atualizar_status i st (modulo_catalogo s))))
  = fst (ModuloCatalogo.verificar_disponibilidade i' (modulo_catalogo s))
  /\ fst (ModuloEmprestimo.registrar_emprestimo m i' dias agora
            (snd (no_catalogo (ModuloCatalogo.atualizar_status i st) s)))
     = fst (ModuloEmprestimo.registrar_emprestimo m i' dias agora s)
  /\ (forall e s1 l,
        ModuloEmprestimo.registrar_emprestimo m i' dias agora s = (inr e, s1) ->
        Dict.get (modulo_catalogo s) i' = Some l ->
        exists l1,
          Dict.get (modulo_catalogo s1) i' = Some l1
          /\ l_status l1 = l_status l).
Proof.
  assert (Hcat : forall k,
             option_map estoque
               (Dict.get (snd (ModuloCatalogo.atualizar_status
                                 i st (modulo_catalogo s))) k)
             = option_map estoque (Dict.get (modulo_catalogo s) k)).
  { intros k.
    unfold ModuloCatalogo.atualizar_status, ModuloCatalogo.obter_livro,
      bind, ler, escrever, ret, levantar.
    destruct (Dict.get (modulo_catalogo s) i) as [l|] eqn:Hl; simpl; auto.
    destruct (String.eqb_spec i k) as [<-|Hne].
    - now rewrite get_set_eq, Hl.
    - now rewrite get_set_ne. }
  split; [|split].
  - specialize (Hcat i').
    unfold ModuloCatalogo.verificar_disponibilidade,
      ModuloCatalogo.obter_livro, bind, ler, ret, levantar.
    destruct (Dict.get (snd (ModuloCatalogo.atualizar_status
                               i st (modulo_catalogo s))) i');
      destruct (Dict.get (modulo_catalogo s) i'); simpl in *;
      congruence.
  - rewrite !registrar_emprestimo_casos, snd_no_catalogo.
    specialize (Hcat i'). simpl.
    destruct (Dict.get (modulo_usuarios s) m) as [u|]; [|reflexivity].
    destruct (StatusUsuario_eqb (u_status u) BLOQUEADO); [reflexivity|].
    destruct (Dict.get (snd (ModuloCatalogo.atualizar_status
                               i st (modulo_catalogo s))) i') as [l1|];
      destruct (Dict.get (modulo_catalogo s) i') as [l|]; simpl in Hcat;
      try discriminate; [|reflexivity].
    injection Hcat as ->.
    destruct (0 <? estoque l); [|reflexivity].
    unfold par_ativo, ModuloEmprestimo.listar_emprestimos. simpl.
    destruct (existsb _ (Dict.values (emprestimos s))); [reflexivity|].
    destruct (prazo_representavel dias agora); reflexivity.
  - intros e s1 l Hreg Hl.
    destruct (registrar_emprestimo_inr _ _ _ _ _ _ _ Hreg)
      as [u [l0 [_ [_ [Hl0 [_ [_ [_ [_ ->]]]]]]]]].
    assert (l0 = l) by congruence. subst.
    simpl. rewrite get_set_eq. eexists. split; reflexivity.
Qed.

(** X24: [remover_livro] raises LivroNaoEncontradoException on an
    unknown ISBN and otherwise removes the book, whether or not it is on
    loan (nothing about loans is checked): [obter_livro] no longer finds
    it, every other book is as before, and a [registrar_emprestimo] of the
    ISBN by a user who may borrow raises LivroNaoEncontradoException. *)
Theorem remover_livro_resultado (s : Sistema) (i : string) :
  NoDup (Dict.keys (modulo_catalogo s)) ->
  match Dict.get (modulo_catalogo s) i with
  | None =>
      ModuloCatalogo.remover_livro i (modulo_catalogo s)
      = (inl LivroNaoEncontradoException, modulo_catalogo s)
  | Some _ =>
      ModuloCatalogo.remover_livro i (modulo_catalogo s)
      = (inr true, Dict.del (modulo_catalogo s) i)
      /\ ModuloCatalogo.obter_livro i (Dict.del (modulo_catalogo s) i)
         = (inl LivroNaoEncontradoException, Dict.del (modulo_catalogo s) i)
      /\ (forall i', i <> i' ->
            Dict.get (Dict.del (modulo_catalogo s) i) i'
            = Dict.get (modulo_catalogo s) i')
      /\ (forall m u dias agora,
            Dict.get (modulo_usuarios s) m = Some u ->
            u_status u <> BLOQUEADO ->
            ModuloEmprestimo.registrar_emprestimo m i dias agora
              (snd (no_catalogo (ModuloCatalogo.remover_livro i) s))
            = (inl LivroNaoEncontradoException,
               snd (no_catalogo (ModuloCatalogo.remover_livro i) s)))
  end.
Proof.
  intros Hnd.
  assert (Hrem : forall l, Dict.get (modulo_catalogo s) i = Some l ->
             ModuloCatalogo.remover_livro i (modulo_catalogo s)
             = (inr true, Dict.del (modulo_catalogo s) i)).
  { intros l Hl.
    unfold ModuloCatalogo.remover_livro, ModuloCatalogo.obter_livro,
      bind, ler, escrever, ret, levantar. now rewrite Hl. }
  destruct (Dict.get (modulo_catalogo s) i) as [l|] eqn:Hl.
  - split; [now apply (Hrem l)|]. split; [|split].
    + unfold ModuloCatalogo.obter_livro, bind, ler, ret, levantar.
      now rewrite (get_del_eq _ _ Hnd).
    + intros i' Hne. now apply get_del_ne.
    + intros m u dias agora Hu Hb.
      rewrite snd_no_catalogo, (Hrem l eq_refl).
      rewrite registrar_emprestimo_casos. simpl. rewrite Hu.
      assert (Hb' : StatusUsuario_eqb (u_status u) BLOQUEADO = false)
        by (destruct (u_status u); auto; congruence).
      now rewrite Hb', (get_del_eq _ _ Hnd).
  - unfold ModuloCatalogo.remover_livro, ModuloCatalogo.obter_livro,
      bind, ler, escrever, ret, levantar. now rewrite Hl.
Qed.

Lemma remover_livro_resultado_exemplo :
  ModuloCatalogo.remover_livro "B1" (modulo_catalogo ex_emprestado)
  = (inr true, Dict.del (modulo_catalogo ex_emprestado) "B1")
  /\ ModuloCatalogo.obter_livro "B1"
       (Dict.del (modulo_catalogo ex_emprestado) "B1")
     = (inl LivroNaoEncontradoException,
        Dict.del (modulo_catalogo ex_emprestado) "B1")
  /\ (forall i', "B1" <> i' ->
        Dict.get (Dict.del (modulo_catalogo ex_emprestado) "B1") i'
        = Dict.get (modulo_catalogo ex_emprestado) i')
  /\ (forall m u dias agora,
        Dict.get (modulo_usuarios ex_emprestado) m = Some u ->
        u_status u <> BLOQUEADO ->
        ModuloEmprestimo.registrar_emprestimo m "B1" dias agora
          (snd (no_catalogo (ModuloCatalogo.remover_livro "B1") ex_emprestado))
        = (inl LivroNaoEncontradoException,
           snd (no_catalogo (ModuloCatalogo.remover_livro "B1")
                            ex_emprestado))).
Proof.
  assert (H : NoDup (Dict.keys (modulo_catalogo ex_emprestado))).
  { avaliar (Dict.keys (modulo_catalogo ex_emprestado)).
    repeat constructor. intros []. }
  exact (remover_livro_resultado ex_emprestado "B1" H).
Defined.

(** X25: [incrementar_emprestimos] raises
    UsuarioNaoEncontradoException on an unknown matrícula and changes
    nothing; on a registered user it adds 1 to the counter, and
    [decrementar_emprestimos] right after it restores the registry exactly
    when the counter was not negative. *)
Theorem incrementar_emprestimos_resultado
    (m : string) (us : ModuloUsuarios.Estado) :
  match Dict.get us m with
  | None =>
      ModuloUsuarios.incrementar_emprestimos m us
      = (inl UsuarioNaoEncontradoException, us)
  | Some u =>
      ModuloUsuarios.incrementar_emprestimos m us
      = (inr tt,
         Dict.set us m (com_emprestimos_ativos u (emprestimos_ativos u + 1)))
      /\ (0 <= emprestimos_ativos u ->
          ModuloUsuarios.decrementar_emprestimos m
            (Dict.set us m
               (com_emprestimos_ativos u (emprestimos_ativos u + 1)))
          = (inr tt, us))
  end.
Proof.
  unfold ModuloUsuarios.incrementar_emprestimos,
    ModuloUsuarios.decrementar_emprestimos, ModuloUsuarios.obter_usuario,
    bind, ler, escrever, ret, levantar.
  destruct (Dict.get us m) as [u|] eqn:Hu; [|reflexivity].
  split; [reflexivity|]. intros Hc.
  rewrite get_set_eq. cbn [emprestimos_ativos com_emprestimos_ativos].
  assert (Hpos : (0 <? emprestimos_ativos u + 1) = true)
    by (apply Z.ltb_lt; lia).
  rewrite Hpos, set_set.
  replace (emprestimos_ativos u + 1 - 1) with (emprestimos_ativos u) by lia.
  change (mkUsuario (matricula u) (nome u) (tipo u) (u_status u) (email u)
                    (telefone u) (emprestimos_ativos u))
    with (com_emprestimos_ativos
            (com_emprestimos_ativos u (emprestimos_ativos u + 1))
            (emprestimos_ativos u)).
  now rewrite com_emprestimos_ativos_volta, (set_get_mesmo _ _ _ Hu).
Qed.

(** ** Types and statuses given as text *)

Section Texto.

Variable upper : string -> string.

(** X26: [cadastrar_usuario] called with the type as text looks the
    member up by its name after [upper]: on the name of a member it does
    what it does when given that member, on any other text it raises
    ValidacaoException and changes nothing.  The names are ALUNO,
    FUNCIONARIO and PROFESSOR and nothing else; the label "Funcionário"
    of the staff type, upper-cased, is not among them. *)
Theorem cadastrar_usuario_de_resultado
    (m n : string) (tp : string + TipoUsuario) (em tel : option string)
    (us : ModuloUsuarios.Estado) :
  match tipo_de upper tp with
  | Some t =>
      ModuloUsuarios.cadastrar_usuario_de upper m n tp em tel us
      = ModuloUsuarios.cadastrar_usuario m n t em tel us
  | None =>
      ModuloUsuarios.cadastrar_usuario_de upper m n tp em tel us
      = (inl ValidacaoException, us)
  end
  /\ (forall name t,
        TipoUsuario_por_nome name = Some t <->
        (name = "ALUNO" /\ t = ALUNO)
        \/ (name = "FUNCIONARIO" /\ t = FUNCIONARIO)
        \/ (name = "PROFESSOR" /\ t = PROFESSOR))
  /\ TipoUsuario_por_nome "FUNCIONÁRIO" = None.
Proof.
  split; [|split; [|reflexivity]].
  - unfold ModuloUsuarios.cadastrar_usuario_de,
      ModuloUsuarios.cadastrar_usuario, ModuloUsuarios.converter_tipo,
      tipo_de, bind, ler, ret, levantar.
    destruct tp as [texto|t]; [|reflexivity].
    destruct (TipoUsuario_por_nome (upper texto)); [reflexivity|].
    now destruct (Dict.contem us m).
  - intros name t. unfold TipoUsuario_por_nome.
    destruct (String.eqb_spec name "ALUNO") as [->|H1].
    { split; [intros [= <-]; auto|].
      intros [[_ ->]|[[H _]|[H _]]]; [reflexivity|discriminate|discriminate]. }
    destruct (String.eqb_spec name "FUNCIONARIO") as [->|H2].
    { split; [intros [= <-]; auto|].
      intros [[H _]|[[_ ->]|[H _]]]; [discriminate|reflexivity|discriminate]. }
    destruct (String.eqb_spec name "PROFESSOR") as [->|H3].
    { split; [intros [= <-]; auto|].
      intros [[H _]|[[H _]|[_ ->]]]; [discriminate|discriminate|reflexivity]. }
    split; [discriminate|].
    intros [[H _]|[[H _]|[H _]]]; congruence.
Qed.

(** X27: [editar_usuario] called with the type as text converts it after
    it has assigned the new name.  On the name of a member it does what it
    does when given that member; on any other text it raises
    ValidacaoException, and when a new name of at least 3 characters came
    with it, the user keeps that new name although the call failed. *)
Theorem editar_usuario_de_resultado
    (m : string) (n : option string) (tp : option (string + TipoUsuario))
    (em tel : option string) (us : ModuloUsuarios.Estado) (u : Usuario) :
  Dict.get us m = Some u ->
  match tp with
  | None =>
      ModuloUsuarios.editar_usuario_de upper m n None em tel us
      = ModuloUsuarios.editar_usuario m n None em tel us
  | Some x =>
      match tipo_de upper x with
      | Some t =>
          ModuloUsuarios.editar_usuario_de upper m n tp em tel us
          = ModuloUsuarios.editar_usuario m n (Some t) em tel us
      | None =>
          match n with
          | None =>
              ModuloUsuarios.editar_usuario_de upper m n tp em tel us
              = (inl ValidacaoException, us)
          | Some n' =>
              ModuloUsuarios.editar_usuario_de upper m n tp em tel us
              = (inl ValidacaoException,
                 if (len n' <? 3)%nat then us
                 else Dict.set us m (com_nome u n'))
          end
      end
  end.
Proof.
  intros Hu.
  unfold ModuloUsuarios.editar_usuario_de, ModuloUsuarios.editar_usuario,
    ModuloUsuarios.converter_tipo, ModuloUsuarios.obter_usuario,
    ModuloUsuarios.atribuir, tipo_de, bind, ler, escrever, ret, levantar.
  rewrite Hu.
  destruct tp as [[texto|t]|];
    [destruct (TipoUsuario_por_nome (upper texto)) as [t|]| |];
    (destruct n as [n'|]; [destruct (len n' <? 3)%nat|];
     reflexivity).
Qed.

(** X28: [atualizar_status] looks the book up before it reads the new
    status: on an unknown ISBN it raises LivroNaoEncontradoException
    whatever the status given.  On a book of the catalog, a text that is
    not the name of a status (after [upper]) raises ValidacaoException and
    changes nothing; otherwise the status is assigned and neither the
    stock nor any other field nor any other book changes. *)
Theorem atualizar_status_de_resultado
    (i : string) (novo : string + StatusLivro) (ls : ModuloCatalogo.Estado) :
  match Dict.get ls i with
  | None =>
      ModuloCatalogo.atualizar_status_de upper i novo ls
      = (inl LivroNaoEncontradoException, ls)
  | Some l =>
      match status_de upper novo with
      | None =>
          ModuloCatalogo.atualizar_status_de upper i novo ls
          = (inl ValidacaoException, ls)
      | Some st =>
          ModuloCatalogo.atualizar_status_de upper i novo ls
          = ModuloCatalogo.atualizar_status i st ls
          /\ ModuloCatalogo.atualizar_status i st ls
             = (inr (com_l_status l st), Dict.set ls i (com_l_status l st))
          /\ estoque (com_l_status l st) = estoque l
          /\ titulo (com_l_status l st) = titulo l
          /\ (forall i', i <> i' ->
                Dict.get (Dict.set ls i (com_l_status l st)) i'
                = Dict.get ls i')
      end
  end.
Proof.
  unfold ModuloCatalogo.atualizar_status_de, ModuloCatalogo.atualizar_status,
    ModuloCatalogo.obter_livro, status_de, bind, ler, escrever, ret,
    levantar.
  destruct (Dict.get ls i) as [l|] eqn:Hl; [|reflexivity].
  destruct novo as [texto|st].
  - destruct (StatusLivro_por_nome (upper texto)) as [st|]; [|reflexivity].
    repeat split. intros i' Hne. now apply get_set_ne.
  - repeat split. intros i' Hne. now apply get_set_ne.
Qed.

End Texto.

Lemma editar_usuario_de_resultado_exemplo :
  ModuloUsuarios.editar_usuario_de (fun x => x) "U1" (Some "Ana Maria")
    (Some (inl "professora")) None None (modulo_usuarios ex_cadastros)
  = (inl ValidacaoException,
     Dict.set (modulo_usuarios ex_cadastros) "U1"
              (mkUsuario "U1" "Ana Maria" ALUNO U_ATIVO None None 0)).
Proof.
  exact (editar_usuario_de_resultado
           (fun x => x) "U1" (Some "Ana Maria") (Some (inl "professora"))
           None None (modulo_usuarios ex_cadastros)
           (mkUsuario "U1" "Ana Souza" ALUNO U_ATIVO None None 0) eq_refl).
Defined.
